(** * NmapDojo: a shallow embedding of the call-and-parse core

    The development follows the layout of the Python sources:

    - [Text]            Python [str] values and the three text operations the
                        code applies to an AI response ([str.strip] and the
                        two [re.sub] calls that remove markdown fences);
    - [Constants]       [config/constants.py];
    - [ProgressManager] [core/progress_manager.py];
    - [MissionGenerator], [CommandValidator]  the two AI call-and-parse
                        operations of [core/];
    - [NmapDojoApp]     the part of [ui/app.py] that owns the progress state.

    Python integers are unbounded, so they are [Z].  A Python [str] is a
    sequence of Unicode code points, so it is a [list N]. *)

From Stdlib Require Import String Ascii ZArith NArith List Bool Lia Permutation.
From Stdlib Require Import DecimalN DecimalPos DecimalFacts.
Import ListNotations.

#[local] Set Warnings "-register-all".
#[local] Open Scope Z_scope.

(** ** Python text *)

Module Text.

(** A code point and a Python string. *)
Abbreviation char := N (only parsing).
Abbreviation str := (list N) (only parsing).

(** A source literal, read as the code points of its characters (all the
    literals below are ASCII). *)
Definition py (s : string) : str :=
  map N_of_ascii (list_ascii_of_string s).

Fixpoint str_eqb (a b : str) : bool :=
  match a, b with
  | [], [] => true
  | x :: a', y :: b' => N.eqb x y && str_eqb a' b'
  | _, _ => false
  end.

(** [Py_UNICODE_ISSPACE]: the characters removed by [str.strip()] and matched
    by [\s] in a [str] pattern. *)
Definition is_space (c : char) : bool :=
  ((9 <=? c) && (c <=? 13) || (28 <=? c) && (c <=? 32)
   || (c =? 133) || (c =? 160) || (c =? 5760)
   || (8192 <=? c) && (c <=? 8202)
   || (c =? 8232) || (c =? 8233) || (c =? 8239) || (c =? 8287)
   || (c =? 12288))%N.

Fixpoint lstrip (s : str) : str :=
  match s with
  | c :: s' => if is_space c then lstrip s' else s
  | [] => []
  end.

Definition rstrip (s : str) : str := rev (lstrip (rev s)).

(** [s.strip()] *)
Definition strip (s : str) : str := rstrip (lstrip s).

(** [Some rest] when [s = p ++ rest]. *)
Fixpoint strip_prefix (p s : str) : option str :=
  match p, s with
  | [], _ => Some s
  | x :: p', y :: s' => if N.eqb x y then strip_prefix p' s' else None
  | _ :: _, [] => None
  end.

Definition FENCE_OPEN : str := py "```json".
Definition FENCE_CLOSE : str := py "```".
Definition NEWLINE : char := 10%N.

(** [re.sub] with the pattern [^```json\s*] and the empty replacement:
    without [re.MULTILINE] the anchor only matches at position 0, and the
    white space run is taken whole. *)
Definition sub_leading_fence (s : str) : str :=
  match strip_prefix FENCE_OPEN s with
  | Some rest => lstrip rest
  | None => s
  end.

(** The string [r], given reversed, with a closing fence and the white space
    before it removed from its end; [None] when it does not end in a fence. *)
Definition cut_fence_rev (r : str) : option str :=
  match strip_prefix (rev FENCE_CLOSE) r with
  | Some r' => Some (rev (lstrip r'))
  | None => None
  end.

(** [re.sub] with the pattern [\s*```$] and the empty replacement: [$]
    matches at the end of the string and also just before a newline that
    ends the string; the leftmost match starts at the beginning of the white
    space run before the fence. *)
Definition sub_trailing_fence (s : str) : str :=
  match rev s with
  | c :: r =>
      if N.eqb c NEWLINE then
        match cut_fence_rev r with
        | Some s' => s' ++ [NEWLINE]
        | None => s
        end
      else
        match cut_fence_rev (c :: r) with
        | Some s' => s'
        | None => s
        end
  | [] => s
  end.

(** The clean-up both call-and-parse operations apply to [response.text]
    (mission_generator.py 97-102, command_validator.py 66-71). *)
Definition clean_response (text : str) : str :=
  strip (sub_trailing_fence (sub_leading_fence (strip text))).

(** [s.split('\n')] *)
Fixpoint split_lines_aux (s cur : str) : list str :=
  match s with
  | [] => [rev cur]
  | c :: s' =>
      if N.eqb c NEWLINE then rev cur :: split_lines_aux s' []
      else split_lines_aux s' (c :: cur)
  end.

Definition split_lines (s : str) : list str := split_lines_aux s [].

(** A literal in which every apostrophe stands for a double quote: JSON
    examples are written with it. *)
Definition jtext (s : string) : str :=
  map (fun c => if (c =? 39)%N then 34%N else c) (py s).

End Text.
Export Text.

(** ** config/constants.py *)

Module Constants.

Definition COLOR_SUCCESS : string := "#00ff00".
Definition COLOR_ERROR : string := "#ff5555".
Definition COLOR_TEXT_WHITE : string := "#ffffff".
Definition COLOR_TEXT_YELLOW : string := "#ffff00".
Definition COLOR_TEXT_CYAN : string := "#00ffff".

Definition XP_FIRST_TRY : Z := 100.
Definition XP_ONE_HINT : Z := 50.
Definition XP_TWO_HINTS : Z := 25.

(** The upper end of a threshold row: an integer or [float('inf')]. *)
Inductive bound := Fin (z : Z) | Inf.

(** [xp <= b] for an integer [xp]. *)
Definition leb_bound (xp : Z) (b : bound) : bool :=
  match b with
  | Fin z => xp <=? z
  | Inf => true
  end.

(** The dict, as its items in insertion order. *)
Definition LEVEL_THRESHOLDS : list (Z * (Z * bound)) :=
  [ (1, (0, Fin 299));
    (2, (300, Fin 699));
    (3, (700, Fin 1199));
    (4, (1200, Fin 1999));
    (5, (2000, Inf)) ].

Definition FUNDAMENTAL_TOPICS : list string :=
  [ "Host Discovery"; "Port Scanning"; "Service/OS Detection";
    "Timing/Performance"; "Evasion"; "Output"; "Scripting" ]%string.

Definition ADVANCED_TOPICS : list string :=
  [ "Firewall/IDS Bypass Advanced"; "IPv6 Scanning"; "NSE Script Categories";
    "Aggressive & Combo Scanning"; "Protocol-Specific Enumeration" ]%string.

Definition ALL_TOPICS : list string := FUNDAMENTAL_TOPICS ++ ADVANCED_TOPICS.

Definition MAX_HINTS : Z := 2.
Definition MAX_COMMAND_HISTORY : Z := 10.

End Constants.
Export Constants.

(** ** Exceptions and results *)

Inductive exn :=
| JSONDecodeError
| IOError
| KeyError
| TypeError
| AttributeError
| IndexError
| ValueError
| RecursionError
| UnicodeDecodeError
| OtherError.

(** What a call does: it returns a value or raises. *)
Inductive outcome (A : Type) :=
| Ret (a : A)
| Raise (e : exn).
Arguments Ret {A} a.
Arguments Raise {A} e.

(** [l[i]] on a Python list: negative indices count from the end. *)
Definition py_index {A} (l : list A) (i : Z) : outcome A :=
  let n := Z.of_nat (length l) in
  let j := if i <? 0 then i + n else i in
  if (j <? 0) || (n <=? j) then Raise IndexError
  else match nth_error l (Z.to_nat j) with
       | Some x => Ret x
       | None => Raise IndexError
       end.

(** ** JSON values and the decoder

    [json.loads] belongs to the Python standard library.  It is modelled on
    its grammar (json/decoder.py, json/scanner.py and the C scanner they
    default to, with default arguments): the JSON grammar, plus the constants
    [NaN], [Infinity] and [-Infinity], with control characters refused inside
    strings and [\uXXXX] surrogate pairs joined.  A float keeps its lexeme:
    no floating-point arithmetic is modelled.

    Two limits of the interpreter show in what [json.loads] does.  [int]
    refuses a literal of more than 4300 digits with [ValueError]
    ([sys.int_info.default_max_str_digits]).  The scanner enters every array
    and object through [Py_EnterRecursiveCall], and gets [RecursionError]
    when the interpreter has no room left; how much room there is depends
    on the interpreter and on the stack at the moment of the call, so it is
    an argument of the decoder. *)

Module Json.

Inductive json :=
| JNull
| JBool (b : bool)
| JInt (z : Z)
| JFloat (lexeme : str)
| JString (s : str)
| JArray (l : list json)
| JObject (d : list (str * json)).

(** A Python [dict] with [str] keys: its items in insertion order, every key
    once. *)
Definition dict := list (str * json).

Fixpoint dict_get (d : dict) (k : str) : option json :=
  match d with
  | [] => None
  | (k', v) :: d' => if str_eqb k' k then Some v else dict_get d' k
  end.

(** [d[k] = v]: an existing key keeps its place. *)
Fixpoint dict_set (d : dict) (k : str) (v : json) : dict :=
  match d with
  | [] => [(k, v)]
  | (k', v') :: d' =>
      if str_eqb k' k then (k', v) :: d' else (k', v') :: dict_set d' k v
  end.

(** [dict(pairs)] *)
Definition dict_of_pairs (pairs : list (str * json)) : dict :=
  fold_left (fun d kv => dict_set d (fst kv) (snd kv)) pairs [].

Definition dict_keys (d : dict) : list str := map fst d.

(** The result of a scanning function: a value and the text left, a decode
    error ([JSONDecodeError]), another exception, or the budget of the
    embedding exhausted. *)
Inductive parsed (A : Type) :=
| POk (a : A) (rest : str)
| PErr
| PRaise (e : exn)
| PFuel.
Arguments POk {A} a rest.
Arguments PErr {A}.
Arguments PRaise {A} e.
Arguments PFuel {A}.

(** [WHITESPACE]: space, tab, line feed and carriage return. *)
Definition is_json_ws (c : char) : bool :=
  ((c =? 32) || (c =? 9) || (c =? 10) || (c =? 13))%N.

Fixpoint skip_ws (s : str) : str :=
  match s with
  | c :: s' => if is_json_ws c then skip_ws s' else s
  | [] => []
  end.

Definition is_digit (c : char) : bool := ((48 <=? c) && (c <=? 57))%N.

Definition hexval (c : char) : option N :=
  (if (48 <=? c) && (c <=? 57) then Some (c - 48)
   else if (65 <=? c) && (c <=? 70) then Some (c - 55)
   else if (97 <=? c) && (c <=? 102) then Some (c - 87)
   else None)%N.

(** [_decode_uXXXX]: exactly four hexadecimal digits. *)
Definition hex4 (a b c d : char) : option N :=
  match hexval a, hexval b, hexval c, hexval d with
  | Some x, Some y, Some z, Some w => Some (((x * 16 + y) * 16 + z) * 16 + w)%N
  | _, _, _, _ => None
  end.

(** [BACKSLASH]: the one-character escapes. *)
Definition unescape (c : char) : option char :=
  (if c =? 34 then Some 34        (* quote *)
   else if c =? 92 then Some 92   (* backslash *)
   else if c =? 47 then Some 47   (* slash *)
   else if c =? 98 then Some 8    (* b: backspace *)
   else if c =? 102 then Some 12  (* f: form feed *)
   else if c =? 110 then Some 10  (* n: line feed *)
   else if c =? 114 then Some 13  (* r: carriage return *)
   else if c =? 116 then Some 9   (* t: tab *)
   else None)%N.

Definition is_high_surrogate (u : N) : bool := ((55296 <=? u) && (u <=? 56319))%N.
Definition is_low_surrogate (u : N) : bool := ((56320 <=? u) && (u <=? 57343))%N.

Definition join_surrogates (hi lo : N) : N :=
  (65536 + ((hi - 55296) * 1024 + (lo - 56320)))%N.

(** The characters decoded so far (reversed), with a high surrogate that
    was not followed by a low one put down as it is. *)
Definition flush (pend : option N) (acc : str) : str :=
  match pend with
  | Some hi => hi :: acc
  | None => acc
  end.

(** [scanstring], from the character after the opening quote.  [pend] is a
    high surrogate just decoded from [\uXXXX], waiting for its low half. *)
Fixpoint scanstring (s : str) (pend : option N) (acc : str) : parsed str :=
  match s with
  | [] => PErr
  | c :: r =>
      if (c =? 34)%N then POk (rev (flush pend acc)) r
      else if (c =? 92)%N then
        match r with
        | [] => PErr
        | e :: r1 =>
            if (e =? 117)%N then
              match r1 with
              | h1 :: h2 :: h3 :: h4 :: r2 =>
                  match hex4 h1 h2 h3 h4 with
                  | None => PErr
                  | Some u =>
                      match pend with
                      | Some hi =>
                          if is_low_surrogate u
                          then scanstring r2 None (join_surrogates hi u :: acc)
                          else if is_high_surrogate u
                          then scanstring r2 (Some u) (hi :: acc)
                          else scanstring r2 None (u :: hi :: acc)
                      | None =>
                          if is_high_surrogate u
                          then scanstring r2 (Some u) acc
                          else scanstring r2 None (u :: acc)
                      end
                  end
              | _ => PErr
              end
            else
              match unescape e with
              | Some x => scanstring r1 None (x :: flush pend acc)
              | None => PErr
              end
        end
      else if (c <? 32)%N then PErr
      else scanstring r None (c :: flush pend acc)
  end.

(** The longest run of decimal digits at the front, and the rest. *)
Fixpoint span_digits (s : str) : str * str :=
  match s with
  | c :: s' =>
      if is_digit c then let (ds, r) := span_digits s' in (c :: ds, r)
      else ([], s)
  | [] => ([], [])
  end.

Definition cons_digit (c : char) (u : Decimal.uint) : Decimal.uint :=
  match (c - 48)%N with
  | 0%N => Decimal.D0 u
  | 1%N => Decimal.D1 u
  | 2%N => Decimal.D2 u
  | 3%N => Decimal.D3 u
  | 4%N => Decimal.D4 u
  | 5%N => Decimal.D5 u
  | 6%N => Decimal.D6 u
  | 7%N => Decimal.D7 u
  | 8%N => Decimal.D8 u
  | _ => Decimal.D9 u
  end.

Fixpoint uint_of_digits (ds : str) : Decimal.uint :=
  match ds with
  | [] => Decimal.Nil
  | c :: ds' => cons_digit c (uint_of_digits ds')
  end.

Fixpoint digits_of_uint (u : Decimal.uint) : str :=
  match u with
  | Decimal.Nil => []
  | Decimal.D0 u' => 48%N :: digits_of_uint u'
  | Decimal.D1 u' => 49%N :: digits_of_uint u'
  | Decimal.D2 u' => 50%N :: digits_of_uint u'
  | Decimal.D3 u' => 51%N :: digits_of_uint u'
  | Decimal.D4 u' => 52%N :: digits_of_uint u'
  | Decimal.D5 u' => 53%N :: digits_of_uint u'
  | Decimal.D6 u' => 54%N :: digits_of_uint u'
  | Decimal.D7 u' => 55%N :: digits_of_uint u'
  | Decimal.D8 u' => 56%N :: digits_of_uint u'
  | Decimal.D9 u' => 57%N :: digits_of_uint u'
  end.

(** [int(ds)] for a run of decimal digits. *)
Definition int_of_digits (ds : str) : Z := Z.of_N (N.of_uint (uint_of_digits ds)).

(** [str(z)] for an integer. *)
Definition str_of_int (z : Z) : str :=
  match z with
  | Z0 => [48%N]
  | Zpos p => digits_of_uint (Pos.to_uint p)
  | Zneg p => 45%N :: digits_of_uint (Pos.to_uint p)
  end.

(** The integer part of [NUMBER_RE]: a single 0, or a digit 1-9 followed by
    any digits. *)
Definition scan_int_part (s : str) : option (str * str) :=
  match s with
  | c :: r =>
      if (c =? 48)%N then Some ([c], r)
      else if is_digit c then let (ds, r') := span_digits r in Some (c :: ds, r')
      else None
  | [] => None
  end.

(** The optional fraction of [NUMBER_RE]: a dot and at least one digit. *)
Definition scan_frac (s : str) : str * str :=
  match s with
  | c :: r =>
      if (c =? 46)%N then
        match span_digits r with
        | ([], _) => ([], s)
        | (ds, r') => (c :: ds, r')
        end
      else ([], s)
  | [] => ([], s)
  end.

(** The optional exponent of [NUMBER_RE]: e or E, an optional sign and at
    least one digit. *)
Definition scan_exp (s : str) : str * str :=
  match s with
  | c :: r =>
      if ((c =? 101) || (c =? 69))%N then
        match r with
        | g :: r1 =>
            if ((g =? 45) || (g =? 43))%N then
              match span_digits r1 with
              | ([], _) => ([], s)
              | (ds, r') => (c :: g :: ds, r')
              end
            else
              match span_digits r with
              | ([], _) => ([], s)
              | (ds, r') => (c :: ds, r')
              end
        | [] => ([], s)
        end
      else ([], s)
  | [] => ([], s)
  end.

(** [sys.int_info.default_max_str_digits] *)
Definition MAX_STR_DIGITS : nat := 4300.

(** [NUMBER_RE.match]: an integer when there is neither fraction nor
    exponent, a float otherwise.  [int] refuses more than 4300 digits. *)
Definition scan_number (s : str) : parsed json :=
  let (neg, r0) :=
    match s with
    | c :: r => if (c =? 45)%N then (true, r) else (false, s)
    | [] => (false, s)
    end in
  match scan_int_part r0 with
  | None => PErr
  | Some (ip, r1) =>
      let (fr, r2) := scan_frac r1 in
      let (ex, r3) := scan_exp r2 in
      match fr, ex with
      | [], [] =>
          if (MAX_STR_DIGITS <? length ip)%nat then PRaise ValueError
          else POk (JInt (if neg then - int_of_digits ip else int_of_digits ip)) r3
      | _, _ =>
          POk (JFloat ((if neg then [45%N] else []) ++ ip ++ fr ++ ex)) r3
      end
  end.

(** The literals and numbers of [_scan_once], in its order. *)
Definition scan_atom (s : str) : parsed json :=
  match strip_prefix (py "null") s with
  | Some r => POk JNull r
  | None =>
  match strip_prefix (py "true") s with
  | Some r => POk (JBool true) r
  | None =>
  match strip_prefix (py "false") s with
  | Some r => POk (JBool false) r
  | None =>
  match scan_number s with
  | POk v r => POk v r
  | PRaise e => PRaise e
  | PFuel => PFuel
  | PErr =>
  match strip_prefix (py "NaN") s with
  | Some r => POk (JFloat (py "NaN")) r
  | None =>
  match strip_prefix (py "Infinity") s with
  | Some r => POk (JFloat (py "Infinity")) r
  | None =>
  match strip_prefix (py "-Infinity") s with
  | Some r => POk (JFloat (py "-Infinity")) r
  | None => PErr
  end end end end end end end.

(** [_scan_once], [JSONArray] and [JSONObject].  [parse_value] starts at a
    value, [parse_elements] at an array element, [parse_members] at the
    opening quote of an object key; white space before has been skipped.
    [room] is the number of arrays and objects, one inside the other, that
    the interpreter can still enter: the scanner asks for room at every
    opening bracket, before it reads on, and raises [RecursionError] when
    there is none.  [fuel] bounds the recursion of the embedding. *)
Fixpoint parse_value (fuel : nat) (room : nat) (s : str) : parsed json :=
  match fuel with
  | O => PFuel
  | S f =>
      match s with
      | [] => PErr
      | c :: r =>
          if (c =? 34)%N then
            match scanstring r None [] with
            | POk x r' => POk (JString x) r'
            | PErr => PErr
            | PRaise e => PRaise e
            | PFuel => PFuel
            end
          else if (c =? 123)%N then
            match room with
            | O => PRaise RecursionError
            | S room' =>
                match skip_ws r with
                | c1 :: r1 =>
                    if (c1 =? 125)%N then POk (JObject []) r1
                    else parse_members f room' (c1 :: r1) []
                | [] => PErr
                end
            end
          else if (c =? 91)%N then
            match room with
            | O => PRaise RecursionError
            | S room' =>
                match skip_ws r with
                | c1 :: r1 =>
                    if (c1 =? 93)%N then POk (JArray []) r1
                    else parse_elements f room' (c1 :: r1) []
                | [] => PErr
                end
            end
          else scan_atom s
      end
  end

with parse_elements (fuel : nat) (room : nat) (s : str) (acc : list json)
  : parsed json :=
  match fuel with
  | O => PFuel
  | S f =>
      match parse_value f room s with
      | POk v r =>
          match skip_ws r with
          | c :: r' =>
              if (c =? 93)%N then POk (JArray (rev (v :: acc))) r'
              else if (c =? 44)%N then parse_elements f room (skip_ws r') (v :: acc)
              else PErr
          | [] => PErr
          end
      | PErr => PErr
      | PRaise e => PRaise e
      | PFuel => PFuel
      end
  end

with parse_members (fuel : nat) (room : nat) (s : str) (acc : list (str * json))
  : parsed json :=
  match fuel with
  | O => PFuel
  | S f =>
      match s with
      | c :: r =>
          if (c =? 34)%N then
            match scanstring r None [] with
            | POk k r1 =>
                match skip_ws r1 with
                | c2 :: r2 =>
                    if (c2 =? 58)%N then
                      match parse_value f room (skip_ws r2) with
                      | POk v r3 =>
                          match skip_ws r3 with
                          | c4 :: r4 =>
                              if (c4 =? 125)%N
                              then POk (JObject (dict_of_pairs (rev ((k, v) :: acc)))) r4
                              else if (c4 =? 44)%N
                              then parse_members f room (skip_ws r4) ((k, v) :: acc)
                              else PErr
                          | [] => PErr
                          end
                      | PErr => PErr
                      | PRaise e => PRaise e
                      | PFuel => PFuel
                      end
                    else PErr
                | [] => PErr
                end
            | PErr => PErr
            | PRaise e => PRaise e
            | PFuel => PFuel
            end
          else PErr
      | [] => PErr
      end
  end.

Definition BOM : char := 65279%N.

(** The recursion budget [json_loads] gives the scanner for a text. *)
Definition loads_fuel (s : str) : nat := 2 * length s + 2.

(** [json.loads(s)] for a [str].  [spare] is the room the interpreter has
    for arrays and objects inside the outermost one: the calls of this
    program are made from a shallow stack, where one bracket can always be
    entered.  A text that is not JSON gives [JSONDecodeError]; an integer
    literal too long gives [ValueError] and nesting too deep
    [RecursionError], at the place where the scanner meets them. *)
Definition json_loads (spare : nat) (s : str) : outcome json :=
  match s with
  | c :: _ => if (c =? BOM)%N then Raise JSONDecodeError else
      match parse_value (loads_fuel s) (S spare) (skip_ws s) with
      | POk v r =>
          match skip_ws r with
          | [] => Ret v
          | _ :: _ => Raise JSONDecodeError
          end
      | PRaise e => Raise e
      | _ => Raise JSONDecodeError
      end
  | [] => Raise JSONDecodeError
  end.

End Json.
Export Json.

(** ** Python values at run time

    The values that flow out of [json.loads] stay dynamically typed: Python's
    [None] is [JNull]. *)

(** A float lexeme read as [m * 10 ^ e], with [m] the digits of its integer
    and fractional parts taken together: the sign plays no part in what
    follows, and [NaN] and the infinities have no digits. *)
Definition float_parts (l : str) : option (N * Z) :=
  let l := match l with
           | c :: r => if (c =? 45)%N then r else l
           | [] => l
           end in
  let (ip, r1) := span_digits l in
  match ip with
  | [] => None
  | _ :: _ =>
      let (fr, r2) :=
        match r1 with
        | c :: r => if (c =? 46)%N then span_digits r else ([], r1)
        | [] => ([], r1)
        end in
      let ex :=
        match r2 with
        | _ :: g :: r =>
            if (g =? 45)%N then - int_of_digits r
            else if (g =? 43)%N then int_of_digits r
            else int_of_digits (g :: r)
        | _ => 0
        end in
      Some (N.of_uint (uint_of_digits (ip ++ fr)), ex - Z.of_nat (length fr))
  end.

(** [float(lexeme) == 0.0].  The conversion rounds to the nearest double,
    ties to even: a value is turned into zero exactly when it is at most
    [2 ^ -1075], half the smallest double above zero. *)
Definition rounds_to_zero (l : str) : bool :=
  match float_parts l with
  | None => false
  | Some (m, e) =>
      (m =? 0)%N || ((e <? 0) && (Z.of_N m * 2 ^ 1075 <=? 10 ^ (- e)))
  end.

(** Truth value of [if v:]. *)
Definition truthy (v : json) : bool :=
  match v with
  | JNull => false
  | JBool b => b
  | JInt z => negb (z =? 0)
  | JFloat l => negb (rounds_to_zero l)
  | JString s => match s with [] => false | _ => true end
  | JArray l => match l with [] => false | _ => true end
  | JObject d => match d with [] => false | _ => true end
  end.

(** [v[key]] for a [str] key: only a dict can be indexed with it. *)
Definition py_getitem (v : json) (key : str) : outcome json :=
  match v with
  | JObject d =>
      match dict_get d key with
      | Some x => Ret x
      | None => Raise KeyError
      end
  | _ => Raise TypeError
  end.

(** [v.get(key, default)]: only a dict has the method. *)
Definition py_get (v : json) (key : str) (default : json) : outcome json :=
  match v with
  | JObject d =>
      match dict_get d key with
      | Some x => Ret x
      | None => Ret default
      end
  | _ => Raise AttributeError
  end.

(** ** models/types.py *)

(** The four counters of [ProgressData], with values of type [A]. *)
Record ProgressData (A : Type) := mkProgress {
  pd_xp : A;
  pd_level : A;
  pd_last_topic_index : A;
  pd_missions_completed : A
}.
Arguments mkProgress {A}.
Arguments pd_xp {A}.
Arguments pd_level {A}.
Arguments pd_last_topic_index {A}.
Arguments pd_missions_completed {A}.

Definition progress_map {A B} (f : A -> B) (d : ProgressData A) : ProgressData B :=
  mkProgress (f (pd_xp d)) (f (pd_level d))
             (f (pd_last_topic_index d)) (f (pd_missions_completed d)).

Definition MISSION_KEYS : list str :=
  [ py "title"; py "description"; py "target_ip"; py "difficulty";
    py "topic_category" ].

Definition VALIDATION_KEYS : list str :=
  [ py "correct"; py "feedback"; py "simulated_output" ].

(** ** The progress file *)

Inductive file :=
| Absent
| Unreadable              (* it exists and [open] raises [IOError] *)
| Garbled                 (* it opens, and its bytes are not text in the
                             encoding of the locale: reading it raises
                             [UnicodeDecodeError] *)
| Content (text : str).

Record disk := mkDisk {
  progress_file : file;
  writable : bool          (* [open(PROGRESS_FILE, 'w')] succeeds *)
}.

(** [json.dump(data, f, indent=2)] for a dict of integers, in item order.
    The text is the one Python writes for integers it agrees to print, those
    of at most 4300 digits ([printable] below). *)
Definition dump_item (kv : string * Z) : str :=
  py "  " ++ [34%N] ++ py (fst kv) ++ [34%N] ++ py ": " ++ str_of_int (snd kv).

Fixpoint dump_items (items : list (string * Z)) : str :=
  match items with
  | [] => []
  | [kv] => dump_item kv
  | kv :: rest => dump_item kv ++ py "," ++ [NEWLINE] ++ dump_items rest
  end.

Definition dump_int_dict (items : list (string * Z)) : str :=
  match items with
  | [] => py "{}"
  | _ => py "{" ++ [NEWLINE] ++ dump_items items ++ [NEWLINE] ++ py "}"
  end.

Definition progress_items (d : ProgressData Z) : list (string * Z) :=
  [ ("xp", pd_xp d); ("level", pd_level d);
    ("last_topic_index", pd_last_topic_index d);
    ("missions_completed", pd_missions_completed d) ]%string.

(** ** core/progress_manager.py *)

Module ProgressManager.

Record t := mk {
  xp : json;
  level : json;
  last_topic_index : json;
  missions_completed : json
}.

(** [__init__] *)
Definition init : t :=
  {| xp := JInt 0; level := JInt 1;
     last_topic_index := JInt (-1); missions_completed := JInt 0 |}.

(** The dict [load_progress] returns. *)
Definition as_dict (pm : t) : ProgressData json :=
  mkProgress (xp pm) (level pm) (last_topic_index pm) (missions_completed pm).

(** [load_progress]: the value returned (or the exception that leaves the
    method) and the manager afterwards.  [spare] is the room of the
    interpreter when [json.load] is called.  The [except] clause takes
    [JSONDecodeError] and [IOError] and nothing else. *)
Definition load_progress (spare : nat) (pm : t) (fs : disk)
  : outcome (ProgressData json) * t :=
  match progress_file fs with
  | Absent => (Ret (as_dict pm), pm)
  | Unreadable => (Ret (as_dict pm), pm)              (* IOError, caught *)
  | Garbled => (Raise UnicodeDecodeError, pm)
  | Content text =>
      match json_loads spare text with
      | Raise JSONDecodeError => (Ret (as_dict pm), pm)    (* caught *)
      | Raise e => (Raise e, pm)
      | Ret data =>
          match py_get data (py "xp") (JInt 0) with
          | Raise e => (Raise e, pm)
          | Ret x =>
          match py_get data (py "level") (JInt 1) with
          | Raise e => (Raise e, pm)
          | Ret l =>
          match py_get data (py "last_topic_index") (JInt (-1)) with
          | Raise e => (Raise e, pm)
          | Ret i =>
          match py_get data (py "missions_completed") (JInt 0) with
          | Raise e => (Raise e, pm)
          | Ret m =>
              let pm' := mk x l i m in (Ret (as_dict pm'), pm')
          end end end end
      end
  end.

(** [save_progress]: an [IOError] is caught and logged.  The counters are
    taken to be integers Python agrees to print ([printable] below); for a
    longer one [json.dump] raises [ValueError] half way through the file. *)
Definition save_progress (data : ProgressData Z) (fs : disk) : disk :=
  if writable fs
  then mkDisk (Content (dump_int_dict (progress_items data))) (writable fs)
  else fs.

(** The loop of [calculate_level] over the items of the table. *)
Fixpoint level_of (rows : list (Z * (Z * bound))) (xp : Z) : Z :=
  match rows with
  | [] => 5
  | (lvl, (min_xp, max_xp)) :: rest =>
      if (min_xp <=? xp) && leb_bound xp max_xp then lvl
      else level_of rest xp
  end.

Definition calculate_level (xp : Z) : Z := level_of LEVEL_THRESHOLDS xp.

End ProgressManager.

(** ** The hosted model

    [model.generate_content(prompt)] followed by [response.text] either
    yields a text or raises.  The service is an oracle: its reply may depend
    on the prompt and on how many calls were made before. *)

Inductive Prompt :=
| MissionPrompt (topic difficulty : string)
| ValidationPrompt (title description target_ip difficulty topic : json)
                   (command : str)
| HintPrompt (title description target_ip topic : json)
| AnswerPrompt (title description target_ip topic : json)
| ExplainPrompt (title description target_ip topic : json).

Inductive Reply :=
| Text (text : str)
| Failure (e : exn).

Inductive effect :=
| Asked (p : Prompt)
| Slept (seconds : Z).

Record World := mkWorld {
  replies : nat -> Prompt -> Reply;
  spare_depth : nat -> nat;  (* the room of the interpreter when the reply
                                to the n-th call is decoded *)
  calls : nat;
  trace : list effect        (* oldest first *)
}.

Definition generate_content (w : World) (p : Prompt) : Reply * World :=
  (replies w (calls w) p,
   mkWorld (replies w) (spare_depth w) (S (calls w)) (trace w ++ [Asked p])).

(** [time.sleep(seconds)] *)
Definition sleep (seconds : Z) (w : World) : World :=
  mkWorld (replies w) (spare_depth w) (calls w) (trace w ++ [Slept seconds]).

(** What the [try] block of a call-and-parse operation comes to, once the
    model has replied to the call numbered [n]: the decoded value, or the
    exception of [generate_content], of [response.text] or of
    [json.loads]. *)
Definition decode_reply (w : World) (n : nat) (reply : Reply) : outcome json :=
  match reply with
  | Text text => json_loads (spare_depth w n) (clean_response text)
  | Failure e => Raise e
  end.

(** [except json.JSONDecodeError] comes first and takes that exception
    only; [except Exception] takes every other one. *)
Definition is_decode_error (e : exn) : bool :=
  match e with
  | JSONDecodeError => true
  | _ => false
  end.

(** ** core/mission_generator.py *)

Module MissionGenerator.

Record t := mk {
  model : bool;            (* [self.model] is not [None] *)
  level : Z;
  last_topic_index : Z
}.

Definition active_topics (g : t) : list string :=
  if level g <=? 3 then FUNDAMENTAL_TOPICS else ALL_TOPICS.

Definition get_next_topic (g : t) : outcome string * t :=
  let topics := active_topics g in
  let g' := mk (model g) (level g)
               ((last_topic_index g + 1) mod Z.of_nat (length topics)) in
  (py_index topics (last_topic_index g'), g').

Definition get_difficulty (g : t) : string :=
  if level g <=? 2 then "Easy"%string
  else if level g =? 3 then "Medium"%string
  else if level g =? 4 then "Hard"%string
  else "Expert"%string.

(** [generate_mission(retry)].  [budget] bounds the recursive calls; below,
    [generate_mission] gives it the number of retries left. *)
Fixpoint generate_mission_rec (budget : nat) (g : t) (retry : Z) (w : World)
  : outcome json * t * World :=
  if negb (model g) then (Ret JNull, g, w)
  else
    match get_next_topic g with
    | (Raise e, g1) => (Raise e, g1, w)
    | (Ret topic, g1) =>
        let difficulty := get_difficulty g1 in
        let (reply, w1) := generate_content w (MissionPrompt topic difficulty) in
        match decode_reply w (calls w) reply with
        | Ret mission => (Ret mission, g1, w1)
        | Raise e =>
            if is_decode_error e then
              if retry <? 2 then
                match budget with
                | S b => generate_mission_rec b g1 (retry + 1)
                           (sleep (3 * (retry + 1)) w1)
                | O => (Raise OtherError, g1, w1)
                end
              else (Ret JNull, g1, w1)
            else
              if retry <? 2 then
                match budget with
                | S b => generate_mission_rec b g1 (retry + 1)
                           (sleep (5 * (retry + 1)) w1)
                | O => (Raise OtherError, g1, w1)
                end
              else (Raise e, g1, w1)
        end
    end.

Definition generate_mission (g : t) (retry : Z) (w : World)
  : outcome json * t * World :=
  generate_mission_rec (Z.to_nat (2 - retry)) g retry w.

End MissionGenerator.

(** ** Terminal lines

    The text of a line is kept as the pieces of its f-string: a literal, a
    [str], [str(v)] of a run-time value, or a formatted integer. *)

Inductive frag :=
| Lit (s : string)
| Str (s : str)
| Val (v : json)
| Num (z : Z)
| Err (e : exn).

(** One [ft.Text] of the terminal: its text and its colour. *)
Definition line : Type := list frag * string.

(** ** core/command_validator.py *)

Module CommandValidator.

Record t := mk {
  model : bool             (* [self.model] is not [None] *)
}.

(** The five look-ups of the prompt, in the order the f-string makes them. *)
Definition validation_prompt (command : str) (current_mission : json)
  : outcome Prompt :=
  match py_getitem current_mission (py "title") with
  | Raise e => Raise e
  | Ret title =>
  match py_getitem current_mission (py "description") with
  | Raise e => Raise e
  | Ret description =>
  match py_getitem current_mission (py "target_ip") with
  | Raise e => Raise e
  | Ret target_ip =>
  match py_getitem current_mission (py "difficulty") with
  | Raise e => Raise e
  | Ret difficulty =>
  match py_getitem current_mission (py "topic_category") with
  | Raise e => Raise e
  | Ret topic =>
      Ret (ValidationPrompt title description target_ip difficulty topic command)
  end end end end end.

Fixpoint validate_command_rec (budget : nat) (v : t) (command : str)
    (current_mission : json) (retry : Z) (w : World) : outcome json * World :=
  if negb (model v) || negb (truthy current_mission) then (Ret JNull, w)
  else
    match validation_prompt command current_mission with
    | Raise e => (Raise e, w)
    | Ret system_prompt =>
        let (reply, w1) := generate_content w system_prompt in
        match decode_reply w (calls w) reply with
        | Ret result => (Ret result, w1)
        | Raise e =>
            if is_decode_error e then
              if retry <? 1 then
                match budget with
                | S b => validate_command_rec b v command current_mission
                           (retry + 1) w1
                | O => (Raise OtherError, w1)
                end
              else (Ret JNull, w1)
            else
              if retry <? 1 then
                match budget with
                | S b => validate_command_rec b v command current_mission
                           (retry + 1) w1
                | O => (Raise OtherError, w1)
                end
              else (Raise e, w1)
        end
    end.

Definition validate_command (v : t) (command : str) (current_mission : json)
    (retry : Z) (w : World) : outcome json * World :=
  validate_command_rec (Z.to_nat (1 - retry)) v command current_mission retry w.

(** The callbacks dictionary handed to [process_validation_result], over
    the state [S] of whoever supplies it. *)
Record Callbacks (S : Type) := mkCallbacks {
  add_terminal_line : list frag -> string -> S -> S;
  award_xp : S -> Z * S;
  save_progress : S -> S;
  update_page : S -> S;
  set_mission_completed : bool -> S -> S;
  update_missions_completed : S -> S;
  set_explain_visible : bool -> S -> S
}.
Arguments add_terminal_line {S}.
Arguments award_xp {S}.
Arguments save_progress {S}.
Arguments update_page {S}.
Arguments set_mission_completed {S}.
Arguments update_missions_completed {S}.
Arguments set_explain_visible {S}.

Definition process_validation_result {S : Type} (result : json) (command : str)
    (callbacks : Callbacks S) (st : S) : outcome unit * S :=
  match py_get result (py "correct") (JBool false) with
  | Raise e => (Raise e, st)
  | Ret correct =>
      if truthy correct then
        let st := add_terminal_line callbacks [Lit EmptyString] COLOR_TEXT_WHITE st in
        match py_get result (py "simulated_output") (JString []) with
        | Raise e => (Raise e, st)
        | Ret (JString simulated_output) =>
            let st := fold_left
                        (fun st l => add_terminal_line callbacks [Str l] COLOR_SUCCESS st)
                        (split_lines simulated_output) st in
            let st := add_terminal_line callbacks [Lit EmptyString] COLOR_TEXT_WHITE st in
            match py_get result (py "feedback") (JString (py "Correct!")) with
            | Raise e => (Raise e, st)
            | Ret feedback =>
                let st := add_terminal_line callbacks
                            [Lit "[✓] "; Val feedback] COLOR_SUCCESS st in
                let (xp_total, st) := award_xp callbacks st in
                let st := set_mission_completed callbacks true st in
                let st := update_missions_completed callbacks st in
                let st := save_progress callbacks st in
                let st := add_terminal_line callbacks
                            [Lit "[+] XP Awarded! Total: "; Num xp_total]
                            COLOR_TEXT_CYAN st in
                let st := set_explain_visible callbacks false st in
                (Ret tt, update_page callbacks st)
            end
        | Ret _ => (Raise AttributeError, st)     (* no [split] method *)
        end
      else
        let st := add_terminal_line callbacks [Lit EmptyString] COLOR_TEXT_WHITE st in
        match py_get result (py "feedback") (JString (py "Incorrect.")) with
        | Raise e => (Raise e, st)
        | Ret feedback =>
            let st := add_terminal_line callbacks
                        [Lit "[✗] "; Val feedback] COLOR_ERROR st in
            let st := add_terminal_line callbacks
                        [Lit "[!] Scan failed. Try again or get a hint."]
                        COLOR_TEXT_YELLOW st in
            let st := set_explain_visible callbacks true st in
            (Ret tt, update_page callbacks st)
        end
  end.

End CommandValidator.

(** ** ui/app.py

    The state of [NmapDojoApp] after its constructor, together with the two
    parts of the environment its handlers act on (the hosted model and the
    disk).  Widgets exist once [setup_ui] has run, so the tests
    [if self.explain_btn:] and the like succeed.  Of the widgets, the
    terminal, the input field, the visibility of the explain button and the
    loading flag are kept; labels that are only written ([xp_text],
    [level_text], [hint_counter], the mission card, the snack bar, the API key
    banner) are left out.  The body handed to [page.run_thread] is run at
    once: a handler is one atomic step. *)

Module NmapDojoApp.

Record t := mk {
  xp : Z;
  level : Z;
  last_topic_index : Z;
  missions_completed : Z;
  current_mission : json;   (* [None] is [JNull] *)
  hints_used : Z;
  mission_completed : bool;
  command_history : list str;
  history_index : Z;
  terminal_output : list line;   (* [terminal_output.controls], oldest first *)
  command_input : str;   (* [command_input.value] *)
  explain_visible : bool;   (* [explain_btn.visible] *)
  loading : bool;   (* what [set_loading] last set *)
  ai_model : bool;   (* [ai_service.model] is not [None] *)
  command_validator : option CommandValidator.t;
  mission_generator : option MissionGenerator.t;
  world : World;   (* the hosted model *)
  fs : disk   (* the disk *)
}.

Definition with_xp (v : Z) (a : t) : t :=
  mk v (level a) (last_topic_index a) (missions_completed a)
     (current_mission a) (hints_used a) (mission_completed a)
     (command_history a) (history_index a) (terminal_output a)
     (command_input a) (explain_visible a) (loading a) (ai_model a)
     (command_validator a) (mission_generator a) (world a) (fs a).

Definition with_level (v : Z) (a : t) : t :=
  mk (xp a) v (last_topic_index a) (missions_completed a) (current_mission a)
     (hints_used a) (mission_completed a) (command_history a)
     (history_index a) (terminal_output a) (command_input a)
     (explain_visible a) (loading a) (ai_model a) (command_validator a)
     (mission_generator a) (world a) (fs a).

Definition with_last_topic_index (v : Z) (a : t) : t :=
  mk (xp a) (level a) v (missions_completed a) (current_mission a)
     (hints_used a) (mission_completed a) (command_history a)
     (history_index a) (terminal_output a) (command_input a)
     (explain_visible a) (loading a) (ai_model a) (command_validator a)
     (mission_generator a) (world a) (fs a).

Definition with_missions_completed (v : Z) (a : t) : t :=
  mk (xp a) (level a) (last_topic_index a) v (current_mission a)
     (hints_used a) (mission_completed a) (command_history a)
     (history_index a) (terminal_output a) (command_input a)
     (explain_visible a) (loading a) (ai_model a) (command_validator a)
     (mission_generator a) (world a) (fs a).

Definition with_current_mission (v : json) (a : t) : t :=
  mk (xp a) (level a) (last_topic_index a) (missions_completed a) v
     (hints_used a) (mission_completed a) (command_history a)
     (history_index a) (terminal_output a) (command_input a)
     (explain_visible a) (loading a) (ai_model a) (command_validator a)
     (mission_generator a) (world a) (fs a).

Definition with_hints_used (v : Z) (a : t) : t :=
  mk (xp a) (level a) (last_topic_index a) (missions_completed a)
     (current_mission a) v (mission_completed a) (command_history a)
     (history_index a) (terminal_output a) (command_input a)
     (explain_visible a) (loading a) (ai_model a) (command_validator a)
     (mission_generator a) (world a) (fs a).

Definition with_mission_completed (v : bool) (a : t) : t :=
  mk (xp a) (level a) (last_topic_index a) (missions_completed a)
     (current_mission a) (hints_used a) v (command_history a)
     (history_index a) (terminal_output a) (command_input a)
     (explain_visible a) (loading a) (ai_model a) (command_validator a)
     (mission_generator a) (world a) (fs a).

Definition with_command_history (v : list str) (a : t) : t :=
  mk (xp a) (level a) (last_topic_index a) (missions_completed a)
     (current_mission a) (hints_used a) (mission_completed a) v
     (history_index a) (terminal_output a) (command_input a)
     (explain_visible a) (loading a) (ai_model a) (command_validator a)
     (mission_generator a) (world a) (fs a).

Definition with_history_index (v : Z) (a : t) : t :=
  mk (xp a) (level a) (last_topic_index a) (missions_completed a)
     (current_mission a) (hints_used a) (mission_completed a)
     (command_history a) v (terminal_output a) (command_input a)
     (explain_visible a) (loading a) (ai_model a) (command_validator a)
     (mission_generator a) (world a) (fs a).

Definition with_terminal_output (v : list line) (a : t) : t :=
  mk (xp a) (level a) (last_topic_index a) (missions_completed a)
     (current_mission a) (hints_used a) (mission_completed a)
     (command_history a) (history_index a) v (command_input a)
     (explain_visible a) (loading a) (ai_model a) (command_validator a)
     (mission_generator a) (world a) (fs a).

Definition with_command_input (v : str) (a : t) : t :=
  mk (xp a) (level a) (last_topic_index a) (missions_completed a)
     (current_mission a) (hints_used a) (mission_completed a)
     (command_history a) (history_index a) (terminal_output a) v
     (explain_visible a) (loading a) (ai_model a) (command_validator a)
     (mission_generator a) (world a) (fs a).

Definition with_explain_visible (v : bool) (a : t) : t :=
  mk (xp a) (level a) (last_topic_index a) (missions_completed a)
     (current_mission a) (hints_used a) (mission_completed a)
     (command_history a) (history_index a) (terminal_output a)
     (command_input a) v (loading a) (ai_model a) (command_validator a)
     (mission_generator a) (world a) (fs a).

Definition with_loading (v : bool) (a : t) : t :=
  mk (xp a) (level a) (last_topic_index a) (missions_completed a)
     (current_mission a) (hints_used a) (mission_completed a)
     (command_history a) (history_index a) (terminal_output a)
     (command_input a) (explain_visible a) v (ai_model a)
     (command_validator a) (mission_generator a) (world a) (fs a).

Definition with_ai_model (v : bool) (a : t) : t :=
  mk (xp a) (level a) (last_topic_index a) (missions_completed a)
     (current_mission a) (hints_used a) (mission_completed a)
     (command_history a) (history_index a) (terminal_output a)
     (command_input a) (explain_visible a) (loading a) v (command_validator a)
     (mission_generator a) (world a) (fs a).

Definition with_command_validator (v : option CommandValidator.t) (a : t) : t :=
  mk (xp a) (level a) (last_topic_index a) (missions_completed a)
     (current_mission a) (hints_used a) (mission_completed a)
     (command_history a) (history_index a) (terminal_output a)
     (command_input a) (explain_visible a) (loading a) (ai_model a) v
     (mission_generator a) (world a) (fs a).

Definition with_mission_generator (v : option MissionGenerator.t) (a : t) : t :=
  mk (xp a) (level a) (last_topic_index a) (missions_completed a)
     (current_mission a) (hints_used a) (mission_completed a)
     (command_history a) (history_index a) (terminal_output a)
     (command_input a) (explain_visible a) (loading a) (ai_model a)
     (command_validator a) v (world a) (fs a).

Definition with_world (v : World) (a : t) : t :=
  mk (xp a) (level a) (last_topic_index a) (missions_completed a)
     (current_mission a) (hints_used a) (mission_completed a)
     (command_history a) (history_index a) (terminal_output a)
     (command_input a) (explain_visible a) (loading a) (ai_model a)
     (command_validator a) (mission_generator a) v (fs a).

Definition with_fs (v : disk) (a : t) : t :=
  mk (xp a) (level a) (last_topic_index a) (missions_completed a)
     (current_mission a) (hints_used a) (mission_completed a)
     (command_history a) (history_index a) (terminal_output a)
     (command_input a) (explain_visible a) (loading a) (ai_model a)
     (command_validator a) (mission_generator a) (world a) v.


(** [s * n] *)
Fixpoint times (s : string) (n : nat) : string :=
  match n with
  | O => EmptyString
  | S n' => String.append s (times s n')
  end.

Definition BLANK : list frag := [Lit EmptyString].

Definition add_terminal_line (text : list frag) (color : string) (a : t) : t :=
  with_terminal_output (terminal_output a ++ [(text, color)]) a.

Definition set_loading (loading : bool) (a : t) : t := with_loading loading a.

Definition save_progress (a : t) : t :=
  let data := mkProgress (xp a) (level a) (last_topic_index a)
                         (missions_completed a) in
  with_fs (ProgressManager.save_progress data (fs a)) a.

Definition calculate_level (a : t) : Z := ProgressManager.calculate_level (xp a).

Definition show_level_up_notification (old_level new_level : Z) (a : t) : t :=
  let a := add_terminal_line BLANK COLOR_TEXT_WHITE a in
  let a := add_terminal_line [Lit (times "=" 50)] COLOR_TEXT_YELLOW a in
  let a := add_terminal_line
             [Lit "  ðŸŽ‰ LEVEL UP! You are now Level "; Num new_level; Lit "!"]
             COLOR_TEXT_YELLOW a in
  let a := if 4 <=? new_level
           then add_terminal_line
                  [Lit "  ðŸ”“ Advanced Red Team missions unlocked!"] COLOR_SUCCESS a
           else a in
  let a := add_terminal_line [Lit (times "=" 50)] COLOR_TEXT_YELLOW a in
  add_terminal_line BLANK COLOR_TEXT_WHITE a.

Definition xp_gained (hints_used : Z) : Z :=
  if hints_used =? 0 then XP_FIRST_TRY
  else if hints_used =? 1 then XP_ONE_HINT
  else XP_TWO_HINTS.

(** [award_xp]: the new total and the state. *)
Definition award_xp (a : t) : Z * t :=
  let old_level := level a in
  let a := with_xp (xp a + xp_gained (hints_used a)) a in
  let a := with_level (calculate_level a) a in
  let a := if old_level <? level a
           then show_level_up_notification old_level (level a) a
           else a in
  (xp a, a).

(** The callbacks [process_validation_result] builds from the methods of
    the application. *)
Definition callbacks : CommandValidator.Callbacks t :=
  CommandValidator.mkCallbacks t
    add_terminal_line
    award_xp
    save_progress
    (fun a => a)
    (fun completed a => with_mission_completed completed a)
    (fun a => with_missions_completed (missions_completed a + 1) a)
    (fun visible a => with_explain_visible visible a).

Definition process_validation_result (result : json) (command : str) (a : t)
  : outcome unit * t :=
  match command_validator a with
  | Some _ => CommandValidator.process_validation_result result command callbacks a
  | None => (Raise AttributeError, a)
  end.

Definition validate_command_async (command : str) (a : t) : t :=
  let a := set_loading true a in
  let a := add_terminal_line [Lit "[*] Scanning..."] COLOR_TEXT_CYAN a in
  let failed (e : exn) (a : t) : t :=
    let a := add_terminal_line [Lit "[!] Validation error: "; Err e] COLOR_ERROR a in
    add_terminal_line [Lit "[!] Please try again."] COLOR_TEXT_YELLOW a in
  let a :=
    match command_validator a with
    | Some v =>
        if truthy (current_mission a) then
          let (res, w) := CommandValidator.validate_command
                            v command (current_mission a) 0 (world a) in
          let a := with_world w a in
          match res with
          | Ret result =>
              if truthy result then
                match process_validation_result result command a with
                | (Ret _, a) => a
                | (Raise e, a) => failed e a
                end
              else a
          | Raise e => failed e a
          end
        else a
    | None => a
    end in
  set_loading false a.

(** [get_difficulty_badge_color] looks the value up in a dict: a list or a
    dict is not hashable. *)
Definition hashable (v : json) : bool :=
  match v with
  | JArray _ | JObject _ => false
  | _ => true
  end.

(** [update_mission_display]: only whether it raises is kept. *)
Definition update_mission_display (a : t) : outcome unit :=
  if negb (truthy (current_mission a)) then Ret tt
  else
    match py_getitem (current_mission a) (py "title") with
    | Raise e => Raise e
    | Ret _ =>
    match py_getitem (current_mission a) (py "description") with
    | Raise e => Raise e
    | Ret _ =>
    match py_getitem (current_mission a) (py "target_ip") with
    | Raise e => Raise e
    | Ret _ =>
    match py_get (current_mission a) (py "difficulty") (JString (py "Easy")) with
    | Raise e => Raise e
    | Ret difficulty => if hashable difficulty then Ret tt else Raise TypeError
    end end end end.

Definition generate_mission_async (a : t) : t :=
  let a := set_loading true a in
  let a := with_mission_completed false a in
  let a := with_hints_used 0 a in
  let a := with_explain_visible false a in
  let a := add_terminal_line [Lit "[*] Generating new mission..."] COLOR_TEXT_CYAN a in
  let failed (e : exn) (a : t) : t :=
    let a := add_terminal_line [Lit "[!] Mission generation failed: "; Err e]
                               COLOR_ERROR a in
    add_terminal_line [Lit "[!] Click 'New Mission' to retry."] COLOR_TEXT_YELLOW a in
  let a :=
    match mission_generator a with
    | Some g =>
        let g := MissionGenerator.mk (MissionGenerator.model g) (level a)
                                     (last_topic_index a) in
        match MissionGenerator.generate_mission g 0 (world a) with
        | (res, g', w) =>
            let a := with_world w (with_mission_generator (Some g') a) in
            match res with
            | Raise e => failed e a
            | Ret mission =>
                if truthy mission then
                  let a := with_current_mission mission a in
                  let a := with_last_topic_index
                             (MissionGenerator.last_topic_index g') a in
                  match update_mission_display a with
                  | Raise e => failed e a
                  | Ret _ =>
                      let a := add_terminal_line BLANK COLOR_TEXT_WHITE a in
                      match py_getitem mission (py "title") with
                      | Raise e => failed e a
                      | Ret title =>
                          let a := add_terminal_line
                                     [Lit "[NEW MISSION] "; Val title]
                                     COLOR_TEXT_CYAN a in
                          match py_getitem mission (py "target_ip") with
                          | Raise e => failed e a
                          | Ret target =>
                              let a := add_terminal_line
                                         [Lit "Target: "; Val target]
                                         COLOR_TEXT_YELLOW a in
                              add_terminal_line BLANK COLOR_TEXT_WHITE a
                          end
                      end
                  end
                else a
            end
        end
    | None => a
    end in
  set_loading false a.

Definition show_help (a : t) : t :=
  let a := add_terminal_line BLANK COLOR_TEXT_WHITE a in
  let a := add_terminal_line [Lit "[HELP] Available Commands:"] COLOR_TEXT_CYAN a in
  let a := add_terminal_line
             [Lit "  nmap [flags] [target] - Run an nmap command"] COLOR_TEXT_WHITE a in
  let a := add_terminal_line
             [Lit "  help                  - Show this help message"] COLOR_TEXT_WHITE a in
  let a := add_terminal_line
             [Lit "  clear                 - Clear the terminal"] COLOR_TEXT_WHITE a in
  let a := add_terminal_line
             [Lit "  status                - Show current progress"] COLOR_TEXT_WHITE a in
  let a := add_terminal_line BLANK COLOR_TEXT_WHITE a in
  let a := add_terminal_line [Lit "[TIPS]"] COLOR_TEXT_YELLOW a in
  let a := add_terminal_line
             [Lit "  - Use Up/Down arrows to navigate command history"]
             COLOR_TEXT_WHITE a in
  let a := add_terminal_line
             [Lit "  - Click 'Get Hint' if you're stuck"] COLOR_TEXT_WHITE a in
  let a := add_terminal_line
             [Lit "  - Complete missions to earn XP and level up!"] COLOR_TEXT_WHITE a in
  add_terminal_line BLANK COLOR_TEXT_WHITE a.

(** [LEVEL_THRESHOLDS[k]] *)
Fixpoint threshold_row (rows : list (Z * (Z * bound))) (k : Z) : outcome (Z * bound) :=
  match rows with
  | [] => Raise KeyError
  | (lvl, row) :: rest => if lvl =? k then Ret row else threshold_row rest k
  end.

(** [show_status]; a [KeyError] in the table look-up ends the handler. *)
Definition show_status (a : t) : t :=
  let a := add_terminal_line BLANK COLOR_TEXT_WHITE a in
  let a := add_terminal_line [Lit "[STATUS]"] COLOR_TEXT_CYAN a in
  let a := add_terminal_line [Lit "  XP: "; Num (xp a)] COLOR_SUCCESS a in
  let a := add_terminal_line [Lit "  Level: "; Num (level a)] COLOR_SUCCESS a in
  let a := add_terminal_line
             [Lit "  Missions Completed: "; Num (missions_completed a)]
             COLOR_TEXT_WHITE a in
  let tail (a : t) : t :=
    let a := if 4 <=? level a
             then add_terminal_line [Lit "  ðŸ”“ Advanced topics unlocked!"] COLOR_TEXT_CYAN a
             else a in
    add_terminal_line BLANK COLOR_TEXT_WHITE a in
  if level a <? 5 then
    match threshold_row LEVEL_THRESHOLDS (level a) with
    | Raise _ => a
    | Ret _ =>
        match threshold_row LEVEL_THRESHOLDS (level a + 1) with
        | Raise _ => a
        | Ret (next_level_xp, _) =>
            tail (add_terminal_line
                    [Lit "  XP to next level: "; Num (next_level_xp - xp a)]
                    COLOR_TEXT_YELLOW a)
        end
    end
  else tail (add_terminal_line [Lit "  Max level reached!"] COLOR_SUCCESS a).

Definition clear_terminal (a : t) : t :=
  add_terminal_line [Lit "[*] Terminal cleared."] COLOR_TEXT_CYAN
    (with_terminal_output [] a).

(** [c.lower()] on the letters A-Z.  No other character lower-cases to a
    letter of the three command words, so the comparisons below agree with
    [command.lower() == word]. *)
Definition ascii_lower (c : char) : char :=
  if ((65 <=? c) && (c <=? 90))%N then (c + 32)%N else c.

Definition lower_is (command : str) (word : string) : bool :=
  str_eqb (map ascii_lower command) (py word).

Definition startswith (s : str) (p : string) : bool :=
  match strip_prefix (py p) s with
  | Some _ => true
  | None => false
  end.

(** The history update of [on_command_submit]. *)
Definition remember (command : str) (history : list str) : list str :=
  let fresh :=
    match rev history with
    | [] => true
    | newest :: _ => negb (str_eqb newest command)
    end in
  if fresh then
    let h := history ++ [command] in
    if MAX_COMMAND_HISTORY <? Z.of_nat (length h) then tl h else h
  else history.

(** [on_command_submit], with [command_input.value] as the user left it. *)
Definition on_command_submit (a : t) : t :=
  let command := strip (command_input a) in
  match command with
  | [] => add_terminal_line [Lit "[!] Command cannot be empty."] COLOR_ERROR a
  | _ :: _ =>
      let a := with_command_history (remember command (command_history a)) a in
      let a := with_history_index (Z.of_nat (length (command_history a))) a in
      let a := with_command_input [] a in
      if lower_is command "help" then show_help a
      else if lower_is command "clear" then clear_terminal a
      else if lower_is command "status" then show_status a
      else
        let a := add_terminal_line [Lit "> "; Str command] COLOR_TEXT_WHITE a in
        if negb (startswith command "nmap") then
          add_terminal_line [Lit "[!] Please enter a valid nmap command."] COLOR_ERROR a
        else if negb (truthy (current_mission a)) then
          add_terminal_line
            [Lit "[!] No active mission. Click 'New Mission' to start."]
            COLOR_TEXT_YELLOW a
        else validate_command_async command a
  end.

Inductive key := ArrowUp | ArrowDown | OtherKey.

Definition on_key_down (k : key) (a : t) : t :=
  match k with
  | ArrowUp =>
      match command_history a with
      | _ :: _ =>
          if 0 <? history_index a then
            let a := with_history_index (history_index a - 1) a in
            match py_index (command_history a) (history_index a) with
            | Ret c => with_command_input c a
            | Raise _ => a
            end
          else a
      | [] => a
      end
  | ArrowDown =>
      if history_index a <? Z.of_nat (length (command_history a)) - 1 then
        let a := with_history_index (history_index a + 1) a in
        match py_index (command_history a) (history_index a) with
        | Ret c => with_command_input c a
        | Raise _ => a
        end
      else
        with_command_input []
          (with_history_index (Z.of_nat (length (command_history a))) a)
  | OtherKey => a
  end.

(** ai_service.py: [get_hint], [get_full_answer] and [get_explanation] differ
    in their prompt only. *)
Definition ask (mk_prompt : json -> json -> json -> json -> Prompt)
    (model : bool) (current_mission : json) (w : World) : outcome str * World :=
  if negb model then (Raise OtherError, w)
  else
    match py_getitem current_mission (py "title") with
    | Raise e => (Raise e, w)
    | Ret title =>
    match py_getitem current_mission (py "description") with
    | Raise e => (Raise e, w)
    | Ret description =>
    match py_getitem current_mission (py "target_ip") with
    | Raise e => (Raise e, w)
    | Ret target_ip =>
    match py_getitem current_mission (py "topic_category") with
    | Raise e => (Raise e, w)
    | Ret topic =>
        let (reply, w1) :=
          generate_content w (mk_prompt title description target_ip topic) in
        match reply with
        | Text text => (Ret (strip text), w1)
        | Failure e => (Raise e, w1)
        end
    end end end end.

Definition get_hint (a : t) : t :=
  if negb (truthy (current_mission a)) then a
  else
    let a := set_loading true a in
    let a := add_terminal_line [Lit "[*] Getting hint..."] COLOR_TEXT_CYAN a in
    let (res, w) := ask HintPrompt (ai_model a) (current_mission a) (world a) in
    let a := with_world w a in
    let a :=
      match res with
      | Ret hint =>
          let a := add_terminal_line BLANK COLOR_TEXT_WHITE a in
          let a := add_terminal_line [Lit "[HINT] "; Str hint] COLOR_TEXT_YELLOW a in
          add_terminal_line BLANK COLOR_TEXT_WHITE a
      | Raise _ =>
          add_terminal_line [Lit "[!] Could not generate hint. Try again."]
                            COLOR_ERROR a
      end in
    set_loading false a.

Definition get_full_answer (a : t) : t :=
  if negb (truthy (current_mission a)) then a
  else
    let a := set_loading true a in
    let a := add_terminal_line [Lit "[*] Generating answer..."] COLOR_TEXT_CYAN a in
    let (res, w) := ask AnswerPrompt (ai_model a) (current_mission a) (world a) in
    let a := with_world w a in
    let a :=
      match res with
      | Ret answer =>
          let a := add_terminal_line BLANK COLOR_TEXT_WHITE a in
          let a := add_terminal_line [Lit "[ANSWER REVEALED]"] COLOR_TEXT_YELLOW a in
          let a := add_terminal_line [Str answer] COLOR_TEXT_CYAN a in
          let a := add_terminal_line BLANK COLOR_TEXT_WHITE a in
          add_terminal_line
            [Lit "[!] Try entering the command to complete the mission."]
            COLOR_TEXT_WHITE a
      | Raise _ =>
          add_terminal_line [Lit "[!] Could not generate answer. Try again."]
                            COLOR_ERROR a
      end in
    set_loading false a.

Definition on_get_hint (a : t) : t :=
  if negb (truthy (current_mission a)) then
    add_terminal_line [Lit "[!] No active mission."] COLOR_TEXT_YELLOW a
  else if mission_completed a then
    add_terminal_line
      [Lit "[!] Mission already completed. Start a new mission!"] COLOR_TEXT_CYAN a
  else
    let a := with_hints_used (hints_used a + 1) a in
    if MAX_HINTS <=? hints_used a then get_full_answer a else get_hint a.

Definition on_explain_why (a : t) : t :=
  if negb (truthy (current_mission a)) then a
  else
    let a := set_loading true a in
    let a := add_terminal_line [Lit "[*] Generating explanation..."] COLOR_TEXT_CYAN a in
    let (res, w) := ask ExplainPrompt (ai_model a) (current_mission a) (world a) in
    let a := with_world w a in
    let a :=
      match res with
      | Ret explanation =>
          let a := add_terminal_line BLANK COLOR_TEXT_WHITE a in
          let a := add_terminal_line [Lit "[EXPLANATION]"] COLOR_TEXT_CYAN a in
          let a := fold_left
                     (fun a l => add_terminal_line [Str l] COLOR_TEXT_WHITE a)
                     (split_lines explanation) a in
          add_terminal_line BLANK COLOR_TEXT_WHITE a
      | Raise _ =>
          add_terminal_line [Lit "[!] Could not generate explanation. Try again."]
                            COLOR_ERROR a
      end in
    set_loading false a.

Definition on_new_mission (a : t) : t := generate_mission_async a.

(** [on_api_key_submit]: [value] is the content of the key field and
    [configured] tells whether [initialize_api] succeeds with it. *)
Definition on_api_key_submit (value : str) (configured : bool) (a : t) : t :=
  match value with
  | [] => a
  | _ :: _ =>
      if configured then
        let a := with_ai_model true a in
        let a := with_command_validator (Some (CommandValidator.mk true)) a in
        let a := with_mission_generator
                   (Some (MissionGenerator.mk true (level a) (last_topic_index a))) a in
        let a := add_terminal_line [Lit "[+] API key set! Generating mission..."]
                                   COLOR_SUCCESS a in
        generate_mission_async a
      else
        add_terminal_line [Lit "[!] API configuration error."] COLOR_ERROR a
  end.

(** What the user can do to the running application. *)
Inductive event :=
| CommandSubmit (value : str)
| KeyDown (k : key)
| NewMission
| GetHint
| ExplainWhy
| ApiKeySubmit (value : str) (configured : bool).

Definition step (a : t) (e : event) : t :=
  match e with
  | CommandSubmit value => on_command_submit (with_command_input value a)
  | KeyDown k => on_key_down k a
  | NewMission => on_new_mission a
  | GetHint => on_get_hint a
  | ExplainWhy => on_explain_why a
  | ApiKeySubmit value configured => on_api_key_submit value configured a
  end.

(** The states the application goes through, the starting one included. *)
Fixpoint run (a : t) (es : list event) : list t :=
  match es with
  | [] => [a]
  | e :: es' => a :: run (step a e) es'
  end.

End NmapDojoApp.

(** ** Definitions used to state the properties *)

(** The five-row table as the specification words it: the row of level [l]
    contains [xp]. *)
Definition table_row (l xp : Z) : Prop :=
  (l = 1 /\ 0 <= xp <= 299) \/
  (l = 2 /\ 300 <= xp <= 699) \/
  (l = 3 /\ 700 <= xp <= 1199) \/
  (l = 4 /\ 1200 <= xp <= 1999) \/
  (l = 5 /\ 2000 <= xp).

(** The generator after [k] calls of [get_next_topic]. *)
Fixpoint after_topics (k : nat) (g : MissionGenerator.t) : MissionGenerator.t :=
  match k with
  | O => g
  | S k' => after_topics k' (snd (MissionGenerator.get_next_topic g))
  end.

(** The application after a sequence of events. *)
Definition exec (a : NmapDojoApp.t) (es : list NmapDojoApp.event) : NmapDojoApp.t :=
  fold_left NmapDojoApp.step es a.

(** The three lines printed for a command judged incorrect. *)
Definition incorrect_lines (feedback : json) : list line :=
  [ (NmapDojoApp.BLANK, COLOR_TEXT_WHITE);
    ([Lit "[✗] "; Val feedback], COLOR_ERROR);
    ([Lit "[!] Scan failed. Try again or get a hint."], COLOR_TEXT_YELLOW) ].

(** White space only. *)
Definition all_space (ws : str) : bool := forallb is_space ws.

(** A response text around [body]: white space, then, when [opened], the
    marker [```json] and white space; the body; then, when [closed], white
    space and the marker [```]; then white space. *)
Definition fenced (opened closed : bool) (ws0 ws1 ws2 ws3 body : str) : str :=
  ws0 ++ (if opened then FENCE_OPEN ++ ws1 else [])
      ++ body
      ++ (if closed then ws2 ++ FENCE_CLOSE else [])
      ++ ws3.

(** The text of a JSON object: it opens with a brace and closes with one. *)
Definition braces (inner : str) : str := py "{" ++ inner ++ py "}".

(** The keys of [d] are exactly [keys]. *)
Definition has_exactly_keys (keys : list str) (d : dict) : bool :=
  forallb (fun k => existsb (str_eqb k) keys) (dict_keys d)
  && forallb (fun k => match dict_get d k with Some _ => true | None => false end) keys.

(** Some key of [keys] is missing from [d]. *)
Definition lacks_a_key (keys : list str) (d : dict) : bool :=
  existsb (fun k => match dict_get d k with Some _ => false | None => true end) keys.

(** The model answers its [k]-th next call with [text], whatever the
    prompt. *)
Definition answers (w : World) (k : nat) (text : str) : Prop :=
  forall p, replies w (calls w + k) p = Text text.

(** The room the interpreter has when it decodes the reply to the [k]-th
    next call. *)
Definition room (w : World) (k : nat) : nat := spare_depth w (calls w + k).

(** A text that is not JSON after the clean-up: [json.loads] raises
    [JSONDecodeError] on it. *)
Definition malformed (spare : nat) (text : str) : Prop :=
  json_loads spare (clean_response text) = Raise JSONDecodeError.

(** The retry rule as the specification words it, for [generate_mission]
    started on generator [g] against model [w]: when the response and the
    retried response are both malformed, the operation has returned [None]
    after these two requests. *)
Definition retries_once_then_gives_up (g : MissionGenerator.t) (w : World) : Prop :=
  forall t1 t2,
    answers w 0 t1 -> answers w 1 t2 ->
    malformed (room w 0) t1 -> malformed (room w 1) t2 ->
    fst (fst (MissionGenerator.generate_mission g 0 w)) = Ret JNull
    /\ calls (snd (MissionGenerator.generate_mission g 0 w)) = (calls w + 2)%nat.

(** The key check as the specification words it, for one response [text]
    to [generate_mission]: an object that lacks a required key is not
    returned. *)
Definition refuses_missing_keys (g : MissionGenerator.t) (w : World) (text : str) : Prop :=
  forall d,
    answers w 0 text ->
    json_loads (room w 0) (clean_response text) = Ret (JObject d) ->
    lacks_a_key MISSION_KEYS d = true ->
    fst (fst (MissionGenerator.generate_mission g 0 w)) <> Ret (JObject d).

(** An integer Python agrees to print and to read back: its decimal form
    has at most 4300 digits. *)
Definition printable (z : Z) : Prop :=
  (length (str_of_int (Z.abs z)) <= MAX_STR_DIGITS)%nat.

Definition printable_counters (d : ProgressData Z) : Prop :=
  printable (pd_xp d) /\ printable (pd_level d)
  /\ printable (pd_last_topic_index d) /\ printable (pd_missions_completed d).

(** *** JSON texts as they are written

    The grammar of RFC 8259 as a syntax tree that keeps every choice the
    writer of a text has (white space, escapes, the case of hexadecimal
    digits, the form of a number), with the text of a tree and the value
    it stands for. *)

(** The one-character escapes: the letter after the backslash and the
    character meant. *)
Inductive escape :=
| EQuote | EBackslash | ESlash | EBackspace | EFormFeed | ELineFeed | EReturn | ETab.

Definition escape_letter (e : escape) : char :=
  match e with
  | EQuote => 34 | EBackslash => 92 | ESlash => 47 | EBackspace => 98
  | EFormFeed => 102 | ELineFeed => 110 | EReturn => 114 | ETab => 116
  end%N.

Definition escape_char (e : escape) : char :=
  match e with
  | EQuote => 34 | EBackslash => 92 | ESlash => 47 | EBackspace => 8
  | EFormFeed => 12 | ELineFeed => 10 | EReturn => 13 | ETab => 9
  end%N.

(** The hexadecimal digit for [n < 16], in upper or lower case. *)
Definition hex_digit (upper : bool) (n : N) : char :=
  (if n <? 10 then 48 + n else if upper then 55 + n else 87 + n)%N.

(** The four digits of [\uXXXX] for [u < 65536]; [upper i] tells the case
    of the digit at position [i]. *)
Definition hex_digits (upper : nat -> bool) (u : N) : str :=
  [ hex_digit (upper 0%nat) (u / 4096); hex_digit (upper 1%nat) ((u / 256) mod 16);
    hex_digit (upper 2%nat) ((u / 16) mod 16); hex_digit (upper 3%nat) (u mod 16) ]%N.

(** One character of a string, as the text spells it: the character
    itself, a one-character escape, [\uXXXX], or a pair of surrogate
    escapes for a character from 65536 on. *)
Inductive spelling :=
| Plain (c : char)
| Escaped (e : escape)
| Unicode (upper : nat -> bool) (u : N)
| Pair (upper_high upper_low : nat -> bool) (c : N).

Definition spelling_ok (p : spelling) : bool :=
  match p with
  | Plain c => negb (c =? 34) && negb (c =? 92) && (32 <=? c)
  | Escaped _ => true
  | Unicode _ u => u <? 65536
  | Pair _ _ c => (65536 <=? c) && (c <? 1114112)
  end%N.

(** A high surrogate escape directly followed by a low surrogate escape
    stands for one character, and is spelled as a [Pair], never as two
    [Unicode] escapes. *)
Definition splits_pair (p : spelling) (rest : list spelling) : bool :=
  match p, rest with
  | Unicode _ u, Unicode _ u' :: _ =>
      ((55296 <=? u) && (u <=? 56319) && (56320 <=? u') && (u' <=? 57343))%N
  | _, _ => false
  end.

Fixpoint spellings_ok (ps : list spelling) : bool :=
  match ps with
  | [] => true
  | p :: rest => spelling_ok p && negb (splits_pair p rest) && spellings_ok rest
  end.

Definition spelling_text (p : spelling) : str :=
  match p with
  | Plain c => [c]
  | Escaped e => [92; escape_letter e]
  | Unicode upper u => [92; 117] ++ hex_digits upper u
  | Pair upper_high upper_low c =>
      [92; 117] ++ hex_digits upper_high (55296 + (c - 65536) / 1024)
      ++ [92; 117] ++ hex_digits upper_low (56320 + (c - 65536) mod 1024)
  end%N.

Definition spelling_char (p : spelling) : char :=
  match p with
  | Plain c => c
  | Escaped e => escape_char e
  | Unicode _ u => u
  | Pair _ _ c => c
  end.

(** A string literal and the string it stands for. *)
Definition literal_text (ps : list spelling) : str :=
  [34%N] ++ concat (map spelling_text ps) ++ [34%N].

Definition literal_value (ps : list spelling) : str := map spelling_char ps.

(** The digits of an integer part: a single 0, or a digit from 1 to 9
    followed by any digits. *)
Definition int_digits_ok (ds : str) : bool :=
  match ds with
  | [] => false
  | c :: r => if (c =? 48)%N then match r with [] => true | _ => false end
              else is_digit c && forallb is_digit r
  end.

(** One digit at least, and digits only. *)
Definition some_digits (ds : str) : bool :=
  match ds with
  | [] => false
  | _ :: _ => forallb is_digit ds
  end.

(** The number a run of decimal digits stands for. *)
Definition digits_value (ds : str) : Z :=
  fold_left (fun n c => 10 * n + Z.of_N (c - 48)) ds 0.

Inductive sign := NoSign | Plus | Minus.

Definition sign_text (s : sign) : str :=
  match s with
  | NoSign => []
  | Plus => [43%N]
  | Minus => [45%N]
  end.

(** The exponent of a number: [e] or [E], a sign or none, and digits. *)
Record exponent := mkExponent {
  upper_e : bool;
  exponent_sign : sign;
  exponent_digits : str
}.

(** A number: a minus sign or none, the integer part, and maybe the
    digits of a fraction and an exponent. *)
Record number := mkNumber {
  negative : bool;
  int_part : str;
  fraction : option str;
  exponent_part : option exponent
}.

Definition number_ok (n : number) : bool :=
  int_digits_ok (int_part n)
  && match fraction n with
     | Some ds => some_digits ds
     | None => true
     end
  && match exponent_part n with
     | Some e => some_digits (exponent_digits e)
     | None => true
     end.

Definition exponent_text (e : exponent) : str :=
  [if upper_e e then 69%N else 101%N] ++ sign_text (exponent_sign e)
  ++ exponent_digits e.

Definition number_text (n : number) : str :=
  (if negative n then [45%N] else []) ++ int_part n
  ++ match fraction n with
     | Some ds => [46%N] ++ ds
     | None => []
     end
  ++ match exponent_part n with
     | Some e => exponent_text e
     | None => []
     end.

(** Without fraction and exponent a number is an integer; otherwise a
    float, kept as it is written. *)
Definition is_integer (n : number) : bool :=
  match fraction n, exponent_part n with
  | None, None => true
  | _, _ => false
  end.

Definition number_value (n : number) : json :=
  if is_integer n
  then JInt (if negative n then - digits_value (int_part n)
             else digits_value (int_part n))
  else JFloat (number_text n).

(** An element of an array, with the white space around it. *)
Record element (V : Type) := mkElement {
  before_element : str;
  element_value : V;
  after_element : str
}.
Arguments mkElement {V}.
Arguments before_element {V}.
Arguments element_value {V}.
Arguments after_element {V}.

(** A member of an object: its name, its value, and the white space
    before the name, before the colon, after the colon and after the
    value. *)
Record member (V : Type) := mkMember {
  before_key : str;
  member_key : list spelling;
  before_colon : str;
  after_colon : str;
  named_value : V;
  after_value : str
}.
Arguments mkMember {V}.
Arguments before_key {V}.
Arguments member_key {V}.
Arguments before_colon {V}.
Arguments after_colon {V}.
Arguments named_value {V}.
Arguments after_value {V}.

(** A value as it is written.  [inside] is white space after the opening
    bracket. *)
Inductive syntax :=
| SString (ps : list spelling)
| STrue
| SFalse
| SNull
| SNumber (n : number)
| SArray (inside : str) (items : list (element syntax))
| SObject (inside : str) (members : list (member syntax)).

Definition json_space (ws : str) : bool := forallb is_json_ws ws.

(** The texts of the parts, with commas between them. *)
Fixpoint separated {A : Type} (text : A -> str) (parts : list A) : str :=
  match parts with
  | [] => []
  | [x] => text x
  | x :: rest => text x ++ [44%N] ++ separated text rest
  end.

Definition element_written {V : Type} (text : V -> str) (it : element V) : str :=
  before_element it ++ text (element_value it) ++ after_element it.

Definition member_written {V : Type} (text : V -> str) (m : member V) : str :=
  before_key m ++ literal_text (member_key m) ++ before_colon m ++ [58%N]
  ++ after_colon m ++ text (named_value m) ++ after_value m.

Fixpoint syntax_text (v : syntax) : str :=
  match v with
  | SString ps => literal_text ps
  | STrue => py "true"
  | SFalse => py "false"
  | SNull => py "null"
  | SNumber n => number_text n
  | SArray inside items =>
      [91%N] ++ inside ++ separated (element_written syntax_text) items ++ [93%N]
  | SObject inside members =>
      [123%N] ++ inside ++ separated (member_written syntax_text) members ++ [125%N]
  end.

Definition member_name {V : Type} (m : member V) : str :=
  literal_value (member_key m).

Fixpoint syntax_value (v : syntax) : json :=
  match v with
  | SString ps => JString (literal_value ps)
  | STrue => JBool true
  | SFalse => JBool false
  | SNull => JNull
  | SNumber n => number_value n
  | SArray _ items => JArray (map (fun it => syntax_value (element_value it)) items)
  | SObject _ members =>
      JObject (map (fun m => (member_name m, syntax_value (named_value m))) members)
  end.

(** No name twice. *)
Fixpoint distinct (names : list str) : bool :=
  match names with
  | [] => true
  | k :: rest => negb (existsb (str_eqb k) rest) && distinct rest
  end.

Definition element_spaces {V : Type} (it : element V) : bool :=
  json_space (before_element it) && json_space (after_element it).

Definition member_spaces {V : Type} (m : member V) : bool :=
  json_space (before_key m) && json_space (before_colon m)
  && json_space (after_colon m) && json_space (after_value m).

(** The tree follows the grammar, and no object has a name twice. *)
Fixpoint syntax_ok (v : syntax) : bool :=
  match v with
  | SString ps => spellings_ok ps
  | STrue | SFalse | SNull => true
  | SNumber n => number_ok n
  | SArray inside items =>
      json_space inside
      && forallb (fun it => element_spaces it && syntax_ok (element_value it)) items
  | SObject inside members =>
      json_space inside
      && forallb (fun m => member_spaces m && spellings_ok (member_key m)
                           && syntax_ok (named_value m)) members
      && distinct (map member_name members)
  end.

(** How deep arrays and objects are nested. *)
Fixpoint depth (v : syntax) : nat :=
  match v with
  | SArray _ items =>
      S (fold_right (fun it d => Nat.max (depth (element_value it)) d) O items)
  | SObject _ members =>
      S (fold_right (fun m d => Nat.max (depth (named_value m)) d) O members)
  | _ => O
  end.

(** No integer has more digits than [int] accepts. *)
Fixpoint integers_short (v : syntax) : bool :=
  match v with
  | SNumber n =>
      if is_integer n then (length (int_part n) <=? MAX_STR_DIGITS)%nat else true
  | SArray _ items => forallb (fun it => integers_short (element_value it)) items
  | SObject _ members => forallb (fun m => integers_short (named_value m)) members
  | _ => true
  end.

(** The names of the members are [keys], each once, in any order. *)
Definition exactly_keys (keys : list str) (members : list (member syntax)) : Prop :=
  Permutation (map member_name members) keys.

(** C1 as the specification words it, for [generate_mission] started on
    generator [g] against model [w]: whichever JSON object with exactly the
    mission keys the model sends, it is returned. *)
Definition returns_every_object (g : MissionGenerator.t) (w : World) : Prop :=
  forall inside members,
    syntax_ok (SObject inside members) = true ->
    exactly_keys MISSION_KEYS members ->
    answers w 0 (syntax_text (SObject inside members)) ->
    fst (fst (MissionGenerator.generate_mission g 0 w))
    = Ret (syntax_value (SObject inside members)).

(** What may follow a run of digits for the run to end there: nothing, or
    a character that is not a digit. *)
Definition stops_digits (rest : str) : bool :=
  match rest with
  | [] => true
  | c :: _ => negb (is_digit c)
  end.

(** What may follow a number for the scanner to stop there: nothing, or a
    character that is not a digit, a dot or an exponent mark. *)
Definition ends_number (rest : str) : bool :=
  match rest with
  | [] => true
  | c :: _ => negb (is_digit c) && negb (c =? 46)%N
              && negb (c =? 101)%N && negb (c =? 69)%N
  end.

(** The scanner reads every value as it is written, when the value is
    nested no deeper than [room] and no integer in it is too long. *)
Definition reads_values (room : nat) : Prop :=
  forall (v : syntax) (rest : str),
    syntax_ok v = true -> integers_short v = true -> (depth v <= room)%nat ->
    ends_number rest = true ->
    exists fuel,
      parse_value fuel room (syntax_text v ++ rest) = POk (syntax_value v) rest.

(** A string literal needs no escape: no quote, no backslash, no control
    character, no surrogate. *)
Definition plain (s : str) : bool :=
  forallb (fun c => negb (c =? 34)%N && negb (c =? 92)%N && negb (c <? 32)%N) s.

(** The text of one dumped item, after its indentation, and the pair it
    stands for. *)
Definition member_text (kv : string * Z) : str :=
  [34%N] ++ py (fst kv) ++ [34%N] ++ py ": " ++ str_of_int (snd kv).

Definition member_value (kv : string * Z) : str * json :=
  (py (fst kv), JInt (snd kv)).

(** What a scanning function may return on [s] when its budget is enough:
    never out of budget, and on success a strictly shorter rest. *)
Definition within_budget (res : parsed json) (s : str) : Prop :=
  res <> PFuel /\ forall v r, res = POk v r -> (length r < length s)%nat.

(** The value a field of the progress file is loaded with. *)
Definition loaded_field (d : dict) (key : string) (default : Z) : json :=
  match dict_get d (py key) with
  | Some v => v
  | None => JInt default
  end.

(** ** Sample data *)

(** A model that answers the [n]-th call with the [n]-th text of a script,
    and fails once the script is used up, under an interpreter with room
    for 900 nested brackets. *)
Definition scripted (texts : list str) : World :=
  mkWorld (fun n _ => match nth_error texts n with
                      | Some text => Text text
                      | None => Failure OtherError
                      end)
          (fun _ => 900%nat) O [].

Definition sample_mission : json :=
  JObject [ (py "title", JString (py "Operation Dawn"));
            (py "description", JString (py "Find the live hosts"));
            (py "target_ip", JString (py "10.0.0.0/24"));
            (py "difficulty", JString (py "Easy"));
            (py "topic_category", JString (py "Host Discovery")) ].

(** What stands between the braces of a mission and of a verdict. *)
Definition sample_mission_inner : str :=
  jtext "'title': 'Operation Dawn', 'description': 'Find the live hosts', 'target_ip': '10.0.0.0/24', 'difficulty': 'Easy', 'topic_category': 'Host Discovery'".

Definition sample_verdict : json :=
  JObject [ (py "correct", JBool true);
            (py "feedback", JString (py "Well done"));
            (py "simulated_output", JString (py "Host is up")) ].

Definition sample_verdict_inner : str :=
  jtext "'correct': true, 'feedback': 'Well done', 'simulated_output': 'Host is up'".

(** The same two texts between a [```json] line and a [```] line. *)
Definition sample_mission_text : str :=
  fenced true true [] [NEWLINE] [NEWLINE] [] (braces sample_mission_inner).

Definition sample_verdict_text : str :=
  fenced true true [] [NEWLINE] [NEWLINE] [] (braces sample_verdict_inner).

(** A literal that spells every character as it is. *)
Definition plainly (s : string) : list spelling := map Plain (py s).

(** A mission as a model may write it: the keys in another order, escapes
    in a name and in strings, a number and an array among the values. *)
Definition written_mission : list (member syntax) :=
  [ mkMember [NEWLINE; 32%N; 32%N] (plainly "description") [] [32%N]
      (SString (plainly "Find the hosts"
                ++ [ Escaped ELineFeed; Unicode (fun _ => true) 233;
                     Pair (fun _ => true) (fun _ => false) 128269 ])) [];
    mkMember [NEWLINE; 32%N; 32%N] (Unicode (fun _ => false) 116 :: plainly "itle")
      [32%N] [32%N] (SString (plainly "Operation Dawn")) [];
    mkMember [32%N] (plainly "target_ip") [] []
      (SString (plainly "10.0.0.0" ++ [Escaped ESlash] ++ plainly "24")) [];
    mkMember [32%N] (plainly "difficulty") [] [32%N]
      (SNumber (mkNumber false (py "2") None None)) [32%N];
    mkMember [] (plainly "topic_category") [] []
      (SArray []
         [ mkElement [] (SString (plainly "Host Discovery")) [];
           mkElement [32%N]
             (SNumber (mkNumber true (py "0") (Some (py "5"))
                                (Some (mkExponent true Plus (py "1"))))) [];
           mkElement [32%N] SNull [32%N] ]) [NEWLINE] ].

Definition written_mission_text : str :=
  fenced true true [] [NEWLINE] [NEWLINE] [] (syntax_text (SObject [] written_mission)).

Definition written_verdict : list (member syntax) :=
  [ mkMember [] (plainly "feedback") [] [32%N] (SString (plainly "Well done")) [];
    mkMember [32%N] (plainly "correct") [] [32%N] STrue [];
    mkMember [32%N] (plainly "simulated_output") [] [32%N]
      (SString (plainly "Host is up" ++ [Escaped ELineFeed])) [] ].

Definition written_verdict_text : str :=
  fenced true false [] [NEWLINE] [] [NEWLINE] (syntax_text (SObject [] written_verdict)).

(** Objects that lack keys: a mission with a title only, a verdict with
    feedback only. *)
Definition title_only : list (member syntax) :=
  [ mkMember [] (plainly "title") [] [32%N] (SString (plainly "Operation Dawn")) [] ].

Definition feedback_only : list (member syntax) :=
  [ mkMember [] (plainly "feedback") [] [32%N] (SString (plainly "Close.")) [] ].

(** A mission whose difficulty is an integer of 4301 digits. *)
Definition long_integer_mission : list (member syntax) :=
  [ mkMember [] (plainly "title") [] [32%N] (SString (plainly "Operation Dawn")) [];
    mkMember [32%N] (plainly "description") [] [32%N]
      (SString (plainly "Find the live hosts")) [];
    mkMember [32%N] (plainly "target_ip") [] [32%N]
      (SString (plainly "10.0.0.0/24")) [];
    mkMember [32%N] (plainly "difficulty") [] [32%N]
      (SNumber (mkNumber false (repeat 49%N 4301) None None)) [];
    mkMember [32%N] (plainly "topic_category") [] [32%N]
      (SString (plainly "Host Discovery")) [] ].

Definition long_integer_text : str := syntax_text (SObject [] long_integer_mission).

(** An application with a mission on screen, one hint used and 280 XP. *)
Definition sample_app (w : World) : NmapDojoApp.t :=
  NmapDojoApp.mk 280 1 0 2 sample_mission 1 false [] 0 [] [] false false
    true (Some (CommandValidator.mk true))
    (Some (MissionGenerator.mk true 1 0)) w (mkDisk Absent true).

(** ** Further definitions used to state properties *)

(** The model gives the reply [r] to its [k]-th next call, whatever the
    prompt. *)
Definition replies_with (w : World) (k : nat) (r : Reply) : Prop :=
  forall p, replies w (calls w + k) p = r.

(** The [try] block ends in exception [e] when the model gives the reply
    [r] to the [k]-th next call: [r] is a text on which [json.loads] raises
    [e] after the clean-up, or the call itself raises [e]. *)
Definition fails_with (w : World) (k : nat) (r : Reply) (e : exn) : Prop :=
  decode_reply w (calls w + k) r = Raise e.

(** The seconds [generate_mission] sleeps after attempt [retry] ended in
    [e]: the first [except] clause waits 3 per attempt made, the second
    one 5. *)
Definition pause (e : exn) (retry : Z) : Z :=
  if is_decode_error e then 3 * (retry + 1) else 5 * (retry + 1).

(** How an operation ends when its last attempt ended in [e]:
    [return None] in the first [except] clause, [raise] in the second. *)
Definition gives_up (e : exn) : outcome json :=
  if is_decode_error e then Ret JNull else Raise e.

(** The counters of the application agree with the level table. *)
Definition consistent (a : NmapDojoApp.t) : Prop :=
  0 <= NmapDojoApp.xp a
  /\ NmapDojoApp.level a = ProgressManager.calculate_level (NmapDojoApp.xp a).

(** The record [NmapDojoApp.save_progress] hands to the manager. *)
Definition counters (a : NmapDojoApp.t) : ProgressData Z :=
  mkProgress (NmapDojoApp.xp a) (NmapDojoApp.level a)
             (NmapDojoApp.last_topic_index a) (NmapDojoApp.missions_completed a).

(** Between [a] and [a'] nothing happened to the progress: counters and
    file are the same. *)
Definition untouched (a a' : NmapDojoApp.t) : Prop :=
  NmapDojoApp.xp a' = NmapDojoApp.xp a
  /\ NmapDojoApp.level a' = NmapDojoApp.level a
  /\ NmapDojoApp.missions_completed a' = NmapDojoApp.missions_completed a
  /\ NmapDojoApp.fs a' = NmapDojoApp.fs a.

(** Between [a] and [a'] one mission was rewarded. *)
Definition rewarded (a a' : NmapDojoApp.t) : Prop :=
  NmapDojoApp.xp a' = NmapDojoApp.xp a + NmapDojoApp.xp_gained (NmapDojoApp.hints_used a)
  /\ NmapDojoApp.level a' = ProgressManager.calculate_level (NmapDojoApp.xp a')
  /\ NmapDojoApp.missions_completed a' = NmapDojoApp.missions_completed a + 1
  /\ NmapDojoApp.mission_completed a' = true
  /\ NmapDojoApp.explain_visible a' = false
  /\ NmapDojoApp.last_topic_index a' = NmapDojoApp.last_topic_index a
  /\ NmapDojoApp.fs a' = ProgressManager.save_progress (counters a') (NmapDojoApp.fs a).

(** [sep.join(parts)] *)
Fixpoint join (sep : str) (parts : list str) : str :=
  match parts with
  | [] => []
  | [x] => x
  | x :: rest => x ++ sep ++ join sep rest
  end.

(** The lines the success branch prints for the simulated output. *)
Definition output_lines (simulated_output : str) : list line :=
  map (fun l => ([Str l], COLOR_SUCCESS)) (split_lines simulated_output).

(** The four look-ups of the prompts of ai_service.py succeed on a
    mission. *)
Definition hint_fields (mission : json) : option (json * json * json * json) :=
  match py_getitem mission (py "title"), py_getitem mission (py "description"),
        py_getitem mission (py "target_ip"), py_getitem mission (py "topic_category") with
  | Ret t, Ret d, Ret i, Ret c => Some (t, d, i, c)
  | _, _, _, _ => None
  end.

(** The lines [award_xp] prints when the level goes from [old_level] to
    [new_level]: those of [show_level_up_notification] when it went up. *)
Definition level_up_lines (old_level new_level : Z) : list line :=
  if old_level <? new_level then
    [ (NmapDojoApp.BLANK, COLOR_TEXT_WHITE);
      ([Lit (NmapDojoApp.times "=" 50)], COLOR_TEXT_YELLOW);
      ([Lit "  ðŸŽ‰ LEVEL UP! You are now Level "; Num new_level; Lit "!"],
       COLOR_TEXT_YELLOW) ]
    ++ (if 4 <=? new_level
        then [ ([Lit "  ðŸ”“ Advanced Red Team missions unlocked!"], COLOR_SUCCESS) ]
        else [])
    ++ [ ([Lit (NmapDojoApp.times "=" 50)], COLOR_TEXT_YELLOW);
         (NmapDojoApp.BLANK, COLOR_TEXT_WHITE) ]
  else [].

(** Everything the success branch prints, in order. *)
Definition success_lines (simulated_output : str) (feedback : json)
    (old_level new_level total : Z) : list line :=
  [ (NmapDojoApp.BLANK, COLOR_TEXT_WHITE) ]
  ++ output_lines simulated_output
  ++ [ (NmapDojoApp.BLANK, COLOR_TEXT_WHITE);
       ([Lit "[✓] "; Val feedback], COLOR_SUCCESS) ]
  ++ level_up_lines old_level new_level
  ++ [ ([Lit "[+] XP Awarded! Total: "; Num total], COLOR_TEXT_CYAN) ].

(** What [rewarded] and [untouched] look at, before and after. *)
Definition before_view (a : NmapDojoApp.t) :=
  (NmapDojoApp.xp a, NmapDojoApp.hints_used a, NmapDojoApp.missions_completed a,
   NmapDojoApp.last_topic_index a, NmapDojoApp.fs a, NmapDojoApp.level a).

Definition after_view (a : NmapDojoApp.t) :=
  (NmapDojoApp.xp a, NmapDojoApp.level a, NmapDojoApp.missions_completed a,
   NmapDojoApp.mission_completed a, NmapDojoApp.explain_visible a,
   NmapDojoApp.last_topic_index a, NmapDojoApp.fs a).

(** Everything of the application but its terminal, input field, history
    and flags of the UI: the model, the disk, the counters and the mission. *)
Definition quiet_view (a : NmapDojoApp.t) :=
  (NmapDojoApp.world a, NmapDojoApp.fs a, NmapDojoApp.xp a, NmapDojoApp.level a,
   NmapDojoApp.missions_completed a, NmapDojoApp.last_topic_index a,
   NmapDojoApp.current_mission a, NmapDojoApp.hints_used a,
   NmapDojoApp.mission_completed a).

(** What the callbacks of [process_validation_result] never write. *)
Definition ui_view (a : NmapDojoApp.t) :=
  (NmapDojoApp.loading a, NmapDojoApp.world a, NmapDojoApp.current_mission a,
   NmapDojoApp.hints_used a, NmapDojoApp.last_topic_index a,
   NmapDojoApp.command_history a, NmapDojoApp.history_index a,
   NmapDojoApp.command_input a, NmapDojoApp.command_validator a,
   NmapDojoApp.mission_generator a, NmapDojoApp.ai_model a).

(** No entry of the history repeats the entry before it. *)
Fixpoint no_repeat (h : list str) : Prop :=
  match h with
  | x :: (y :: _) as rest => x <> y /\ no_repeat rest
  | _ => True
  end.

(** The history as the handlers keep it: at most ten entries, none a
    repetition of its neighbour, and a cursor that stands on an entry, just
    after the last one, or at -1 as the constructor leaves it. *)
Definition history_ok (a : NmapDojoApp.t) : Prop :=
  (length (NmapDojoApp.command_history a) <= 10)%nat
  /\ -1 <= NmapDojoApp.history_index a
        <= Z.of_nat (length (NmapDojoApp.command_history a))
  /\ no_repeat (NmapDojoApp.command_history a).


(** * Properties *)

(** ** The definitions on concrete inputs *)

Section Examples.

Example clean_fenced_text :
  clean_response sample_mission_text = braces sample_mission_inner.
Proof. vm_compute. reflexivity. Qed.

Example clean_keeps_inner_fence :
  clean_response (jtext "{'feedback': 'use ```'}") = jtext "{'feedback': 'use ```'}".
Proof. vm_compute. reflexivity. Qed.

Example clean_fence_before_final_newline :
  sub_trailing_fence (py "{}  ```" ++ [NEWLINE]) = py "{}" ++ [NEWLINE].
Proof. vm_compute. reflexivity. Qed.

Example loads_mission (spare : nat) :
  json_loads spare (braces sample_mission_inner) = Ret sample_mission.
Proof. vm_compute. reflexivity. Qed.

Example loads_nested (spare : nat) :
  json_loads (2 + spare) (jtext " {'a': [1, -20, true, null, {'b': 'c'}], 'a': [] } ")
  = Ret (JObject [(py "a", JArray [])]).
Proof. vm_compute. reflexivity. Qed.

Example loads_float_keeps_lexeme (spare : nat) :
  json_loads spare (py "[-2.50e+3, 0]") = Ret (JArray [JFloat (py "-2.50e+3"); JInt 0]).
Proof. vm_compute. reflexivity. Qed.

Example loads_surrogate_pair (spare : nat) :
  json_loads spare (jtext "'\ud83d\ude00\u00e9\n'")
  = Ret (JString [128512%N; 233%N; 10%N]).
Proof. vm_compute. reflexivity. Qed.

Example loads_rejects_leading_zero (spare : nat) :
  json_loads spare (py "[01]") = Raise JSONDecodeError.
Proof. vm_compute. reflexivity. Qed.

Example loads_rejects_trailing_comma (spare : nat) :
  json_loads spare (jtext "{'a': 1,}") = Raise JSONDecodeError.
Proof. vm_compute. reflexivity. Qed.

Example loads_rejects_single_quotes (spare : nat) :
  json_loads spare (py "{'a': 1}") = Raise JSONDecodeError.
Proof. vm_compute. reflexivity. Qed.

Example loads_rejects_prose (spare : nat) :
  json_loads spare (py "Here is your mission") = Raise JSONDecodeError.
Proof. vm_compute. reflexivity. Qed.

(** The two limits: the array that is never closed is not reached as a
    syntax error, the scanner stops before. *)
Example loads_long_integer (spare : nat) :
  json_loads spare (repeat 49%N 4300) <> Raise ValueError
  /\ json_loads spare (repeat 49%N 4301) = Raise ValueError
  /\ json_loads spare (py "[" ++ repeat 49%N 4301) = Raise ValueError
  /\ json_loads spare (py "-" ++ repeat 49%N 4300 ++ py ".5") <> Raise ValueError.
Proof.
  split; [vm_compute; discriminate|]. split; [vm_compute; reflexivity|].
  split; [vm_compute; reflexivity|]. vm_compute. discriminate.
Qed.

Example loads_deep_nesting :
  json_loads 2 (py "[[[1]]]") = Ret (JArray [JArray [JArray [JInt 1]]])
  /\ json_loads 1 (py "[[[1]]]") = Raise RecursionError
  /\ json_loads 1 (py "[[[") = Raise RecursionError
  /\ json_loads 1 (py "[[") = Raise JSONDecodeError.
Proof. repeat split; vm_compute; reflexivity. Qed.

Example tiny_float_is_false :
  map truthy [JFloat (py "1e-400"); JFloat (py "-0.0"); JFloat (py "2.4e-324");
              JFloat (py "2.5e-324"); JFloat (py "0.1"); JFloat (py "NaN")]
  = [false; false; false; true; true; true].
Proof. vm_compute. reflexivity. Qed.

Example dump_progress :
  dump_int_dict (progress_items (mkProgress 150 1 (-1) 2))
  = jtext "{
  'xp': 150,
  'level': 1,
  'last_topic_index': -1,
  'missions_completed': 2
}".
Proof. vm_compute. reflexivity. Qed.

Example levels_at_the_borders :
  map ProgressManager.calculate_level [0; 299; 300; 699; 700; 1199; 1200; 1999; 2000; 50000]
  = [1; 1; 2; 2; 3; 3; 4; 4; 5; 5].
Proof. reflexivity. Qed.

Example first_topic_of_a_new_player :
  MissionGenerator.get_next_topic (MissionGenerator.mk true 1 (-1))
  = (Ret "Host Discovery"%string, MissionGenerator.mk true 1 0).
Proof. reflexivity. Qed.

Example topic_wraps_around :
  MissionGenerator.get_next_topic (MissionGenerator.mk true 4 11)
  = (Ret "Host Discovery"%string, MissionGenerator.mk true 4 0).
Proof. reflexivity. Qed.

End Examples.

(** ** The level table *)

Section Levels.

Import ProgressManager.

Lemma calculate_level_cases (xp : Z) :
  calculate_level xp =
    if (0 <=? xp) && (xp <=? 299) then 1
    else if (300 <=? xp) && (xp <=? 699) then 2
    else if (700 <=? xp) && (xp <=? 1199) then 3
    else if (1200 <=? xp) && (xp <=? 1999) then 4
    else if 2000 <=? xp then 5
    else 5.
Proof.
  unfold calculate_level, LEVEL_THRESHOLDS, level_of, leb_bound.
  rewrite andb_true_r. reflexivity.
Qed.

(** C4. For every non-negative integer [xp], [calculate_level xp] is a level
    whose row of the threshold table contains [xp] (1 for 0-299, 2 for
    300-699, 3 for 700-1199, 4 for 1200-1999, 5 from 2000 on), it lies in
    1..5, and it is the only level with that property. *)
Theorem calculate_level_table (xp : Z) :
  0 <= xp ->
  table_row (calculate_level xp) xp
  /\ 1 <= calculate_level xp <= 5
  /\ (forall l, table_row l xp -> l = calculate_level xp).
Proof.
  intros Hxp. rewrite calculate_level_cases. unfold table_row.
  repeat match goal with
         | |- context [ (?a <=? ?b) ] => destruct (Z.leb_spec a b)
         end; cbn [andb];
    (split; [lia | split; [lia | intros l Hl; lia]]).
Qed.

Lemma calculate_level_table_witness :
  table_row (calculate_level 700) 700
  /\ 1 <= calculate_level 700 <= 5
  /\ (forall l, table_row l 700 -> l = calculate_level 700).
Proof. apply (calculate_level_table 700). lia. Defined.

End Levels.

(** ** The topic rotation *)

Section Topics.

Import MissionGenerator.

Lemma active_topics_length (g : t) :
  Z.of_nat (length (active_topics g)) = if level g <=? 3 then 7 else 12.
Proof. unfold active_topics. destruct (level g <=? 3); reflexivity. Qed.

Lemma py_index_in_range {A} (l : list A) (i : Z) :
  0 <= i < Z.of_nat (length l) ->
  exists x, py_index l i = Ret x /\ nth_error l (Z.to_nat i) = Some x.
Proof.
  intros Hi. unfold py_index.
  destruct (Z.ltb_spec i 0); [lia|].
  destruct (Z.ltb_spec i 0); [lia|].
  destruct (Z.leb_spec (Z.of_nat (length l)) i); [lia|]. cbn [orb].
  destruct (nth_error l (Z.to_nat i)) eqn:E.
  - eauto.
  - apply nth_error_None in E. lia.
Qed.

Lemma after_topics_index (k : nat) (g : t) :
  last_topic_index (after_topics (S k) g)
  = (last_topic_index g + Z.of_nat (S k)) mod Z.of_nat (length (active_topics g))
  /\ level (after_topics (S k) g) = level g.
Proof.
  revert g. induction k as [|k IH]; intros g.
  - cbn. split; reflexivity.
  - change (after_topics (S (S k)) g)
      with (after_topics (S k) (snd (get_next_topic g))).
    destruct (IH (snd (get_next_topic g))) as [Hi Hl]. rewrite Hi, Hl.
    cbn [get_next_topic snd last_topic_index level].
    split; [|reflexivity].
    assert (Ha : active_topics
                   (mk (model g) (level g)
                       ((last_topic_index g + 1)
                          mod Z.of_nat (length (active_topics g))))
                 = active_topics g) by reflexivity.
    rewrite Ha.
    assert (Hn : Z.of_nat (length (active_topics g)) > 0)
      by (rewrite active_topics_length; destruct (level g <=? 3); lia).
    rewrite Zplus_mod_idemp_l. f_equal. lia.
Qed.

(** The index after one call is in range, so the look-up does not raise. *)
Lemma get_next_topic_in_range (g : t) :
  0 <= last_topic_index (snd (get_next_topic g))
    < Z.of_nat (length (active_topics g))
  /\ exists topic,
       fst (get_next_topic g) = Ret topic
       /\ nth_error (active_topics g)
                    (Z.to_nat (last_topic_index (snd (get_next_topic g))))
          = Some topic.
Proof.
  assert (Hpos : 0 < Z.of_nat (length (active_topics g)))
    by (rewrite active_topics_length; destruct (level g <=? 3); lia).
  pose proof (Z.mod_pos_bound (last_topic_index g + 1) _ Hpos) as Hb.
  split; [exact Hb|].
  cbn [get_next_topic fst snd last_topic_index].
  destruct (py_index_in_range (active_topics g) _ Hb) as [x [H1 H2]].
  exists x. split; assumption.
Qed.

(** C5. For every starting index and every level, [get_next_topic] sets
    [last_topic_index] to (index + 1) modulo the length of the active list
    (the 7 fundamental topics up to level 3, the 12 combined topics above),
    returns the topic at the new index, the new index lies in
    [0, length - 1], and after k calls at a fixed level the index is
    (index + k) modulo the length. *)
Theorem get_next_topic_round_robin (g : t) :
  let n := Z.of_nat (length (active_topics g)) in
  let g' := snd (get_next_topic g) in
  active_topics g = (if level g <=? 3 then FUNDAMENTAL_TOPICS else ALL_TOPICS)
  /\ n = (if level g <=? 3 then 7 else 12)
  /\ last_topic_index g' = (last_topic_index g + 1) mod n
  /\ 0 <= last_topic_index g' <= n - 1
  /\ level g' = level g
  /\ (exists topic,
        fst (get_next_topic g) = Ret topic
        /\ nth_error (active_topics g) (Z.to_nat (last_topic_index g')) = Some topic)
  /\ (forall k : nat,
        last_topic_index (after_topics k g') = (last_topic_index g + 1 + Z.of_nat k) mod n
        /\ 0 <= last_topic_index (after_topics k g') <= n - 1).
Proof.
  cbv zeta.
  assert (Hn : Z.of_nat (length (active_topics g)) = if level g <=? 3 then 7 else 12)
    by apply active_topics_length.
  assert (Hpos : 0 < Z.of_nat (length (active_topics g)))
    by (rewrite Hn; destruct (level g <=? 3); lia).
  pose proof (Z.mod_pos_bound (last_topic_index g + 1) _ Hpos) as Hb.
  split; [reflexivity|]. split; [exact Hn|].
  split; [reflexivity|]. split; [cbn; lia|]. split; [reflexivity|].
  split.
  - apply get_next_topic_in_range.
  - intros k.
    assert (E : last_topic_index (after_topics k (snd (get_next_topic g)))
                = (last_topic_index g + 1 + Z.of_nat k)
                    mod Z.of_nat (length (active_topics g))).
    { change (after_topics k (snd (get_next_topic g))) with (after_topics (S k) g).
      destruct (after_topics_index k g) as [Hi _]. rewrite Hi. f_equal. lia. }
    rewrite E. split; [reflexivity|].
    pose proof (Z.mod_pos_bound (last_topic_index g + 1 + Z.of_nat k) _ Hpos). lia.
Qed.

End Topics.

(** ** The application: XP and the validation result *)

Section Application.

Import NmapDojoApp.

(** A projection of the state that printing a line leaves alone is left
    alone by printing many. *)
Lemma fold_lines_frame {B} (f : t -> B) (color : string) (ls : list str) (a : t) :
  (forall text c x, f (add_terminal_line text c x) = f x) ->
  f (fold_left (fun x l => add_terminal_line [Str l] color x) ls a) = f a.
Proof.
  intros Hf. revert a. induction ls as [|l ls IH]; intros a; cbn [fold_left].
  - reflexivity.
  - rewrite IH. apply Hf.
Qed.

Lemma xp_gained_cases (h : Z) :
  (h = 0 -> xp_gained h = 100)
  /\ (h = 1 -> xp_gained h = 50)
  /\ (2 <= h -> xp_gained h = 25).
Proof.
  unfold xp_gained, XP_FIRST_TRY, XP_ONE_HINT, XP_TWO_HINTS.
  repeat split; intros H;
    destruct (Z.eqb_spec h 0); destruct (Z.eqb_spec h 1); lia.
Qed.

Lemma xp_gained_positive (h : Z) : 0 < xp_gained h.
Proof.
  unfold xp_gained, XP_FIRST_TRY, XP_ONE_HINT, XP_TWO_HINTS.
  destruct (h =? 0); [lia|]. destruct (h =? 1); lia.
Qed.

(** The level-up notification only prints. *)
Lemma show_level_up_notification_prints (old_level new_level : Z) (a : t) :
  exists ls,
    show_level_up_notification old_level new_level a
    = with_terminal_output (terminal_output a ++ ls) a.
Proof.
  unfold show_level_up_notification, add_terminal_line.
  destruct (4 <=? new_level); cbn; rewrite <- ?List.app_assoc; cbn [app];
    eexists; reflexivity.
Qed.

(** What [award_xp] does to the state: the two counters, and lines printed
    when the level went up. *)
Lemma award_xp_state (a : t) :
  exists ls,
    snd (award_xp a)
    = with_terminal_output (terminal_output a ++ ls)
        (with_level (ProgressManager.calculate_level (xp a + xp_gained (hints_used a)))
           (with_xp (xp a + xp_gained (hints_used a)) a)).
Proof.
  unfold award_xp. cbv zeta.
  match goal with |- context [if ?c then _ else _] => destruct c end.
  - match goal with
    | |- context [show_level_up_notification ?o ?n ?x] =>
        destruct (show_level_up_notification_prints o n x) as [ls Hls];
        rewrite Hls
    end.
    exists ls. reflexivity.
  - exists []. cbn. rewrite List.app_nil_r. reflexivity.
Qed.

Lemma award_xp_xp (a : t) : xp (snd (award_xp a)) = xp a + xp_gained (hints_used a).
Proof. destruct (award_xp_state a) as [ls H]. rewrite H. reflexivity. Qed.





(** With ['correct'] false or absent, the validator's method calls three
    callbacks only: [add_terminal_line] (three times), [set_explain_visible]
    and [update_page]. *)
Lemma incorrect_result_callbacks {S : Type} (d : dict) (command : str)
    (cb : CommandValidator.Callbacks S) (st : S) :
  dict_get d (py "correct") = None \/ dict_get d (py "correct") = Some (JBool false) ->
  CommandValidator.process_validation_result (JObject d) command cb st
  = (Ret tt,
     CommandValidator.update_page cb
       (CommandValidator.set_explain_visible cb true
          (fold_left (fun x l => CommandValidator.add_terminal_line cb (fst l) (snd l) x)
             (incorrect_lines
                match dict_get d (py "feedback") with
                | Some x => x
                | None => JString (py "Incorrect.")
                end)
             st))).
Proof.
  intros H. unfold CommandValidator.process_validation_result, py_get.
  assert (E : match dict_get d (py "correct") with
              | Some x => Ret x
              | None => Ret (JBool false)
              end = Ret (JBool false))
    by (destruct H as [H | H]; rewrite H; reflexivity).
  rewrite E. cbn [truthy].
  destruct (dict_get d (py "feedback")); reflexivity.
Qed.

(** C10. For every validation result whose ['correct'] field is false or
    absent, [process_validation_result] returns normally, leaves [xp],
    [level], [missions_completed] and [mission_completed] unchanged, does not
    write the progress file, awards nothing, and changes nothing but the
    explain button (made visible) and the terminal (three lines, with the
    feedback). *)
Theorem incorrect_result_keeps_progress (d : dict) (command : str) (a : t) :
  dict_get d (py "correct") = None \/ dict_get d (py "correct") = Some (JBool false) ->
  command_validator a <> None ->
  let feedback := match dict_get d (py "feedback") with
                  | Some x => x
                  | None => JString (py "Incorrect.")
                  end in
  let a' := snd (process_validation_result (JObject d) command a) in
  fst (process_validation_result (JObject d) command a) = Ret tt
  /\ xp a' = xp a
  /\ level a' = level a
  /\ missions_completed a' = missions_completed a
  /\ mission_completed a' = mission_completed a
  /\ fs a' = fs a
  /\ explain_visible a' = true
  /\ terminal_output a' = terminal_output a ++ incorrect_lines feedback
  /\ a' = with_explain_visible true
            (with_terminal_output (terminal_output a ++ incorrect_lines feedback) a).
Proof.
  intros Hc Hv. cbv zeta. unfold process_validation_result.
  destruct (command_validator a) eqn:Ev; [|congruence].
  rewrite (incorrect_result_callbacks d command callbacks a Hc).
  cbn [fst snd]. unfold incorrect_lines, callbacks, add_terminal_line.
  cbn. rewrite <- !List.app_assoc. cbn [app].
  repeat split; reflexivity.
Qed.

Lemma incorrect_result_keeps_progress_witness :
  let result := [ (py "correct", JBool false); (py "feedback", JString (py "Use -sn")) ] in
  let a := sample_app (scripted []) in
  xp (snd (process_validation_result (JObject result) (py "nmap 10.0.0.1") a)) = 280
  /\ explain_visible (snd (process_validation_result (JObject result) (py "nmap 10.0.0.1") a))
     = true.
Proof.
  cbv zeta.
  destruct (incorrect_result_keeps_progress
              [ (py "correct", JBool false); (py "feedback", JString (py "Use -sn")) ]
              (py "nmap 10.0.0.1") (sample_app (scripted [])))
    as [_ [Hxp [_ [_ [_ [_ [Hex _]]]]]]].
  - right. reflexivity.
  - discriminate.
  - split; [exact Hxp | exact Hex].
Defined.

(** *** XP never goes down *)

(** Splits on the test or the scrutinee the goal is stuck on. *)
Ltac split_branch :=
  match goal with
  | |- context [match ?x with _ => _ end] =>
      lazymatch x with
      | context [match _ with _ => _ end] => fail
      | _ => destruct x eqn:?
      end
  end.

Ltac frame :=
  repeat first
    [ reflexivity
    | progress cbn [xp hints_used with_xp with_level with_last_topic_index
                    with_missions_completed with_current_mission with_hints_used
                    with_mission_completed with_command_history with_history_index
                    with_terminal_output with_command_input with_explain_visible
                    with_loading with_ai_model with_command_validator
                    with_mission_generator with_world with_fs
                    add_terminal_line set_loading save_progress]
    | rewrite fold_lines_frame by reflexivity
    | split_branch ].

Lemma show_help_xp (a : t) : xp (show_help a) = xp a.
Proof. unfold show_help. frame. Qed.

Lemma show_status_xp (a : t) : xp (show_status a) = xp a.
Proof. unfold show_status. frame. Qed.

Lemma clear_terminal_xp (a : t) : xp (clear_terminal a) = xp a.
Proof. unfold clear_terminal. frame. Qed.

Lemma generate_mission_async_xp (a : t) : xp (generate_mission_async a) = xp a.
Proof. unfold generate_mission_async. frame. Qed.

Lemma get_hint_xp (a : t) : xp (get_hint a) = xp a.
Proof. unfold get_hint. frame. Qed.

Lemma get_full_answer_xp (a : t) : xp (get_full_answer a) = xp a.
Proof. unfold get_full_answer. frame. Qed.

Lemma on_get_hint_xp (a : t) : xp (on_get_hint a) = xp a.
Proof.
  unfold on_get_hint.
  repeat split_branch; rewrite ?get_hint_xp, ?get_full_answer_xp; frame.
Qed.

Lemma on_explain_why_xp (a : t) : xp (on_explain_why a) = xp a.
Proof. unfold on_explain_why. frame. Qed.

Lemma on_key_down_xp (k : key) (a : t) : xp (on_key_down k a) = xp a.
Proof. unfold on_key_down. frame. Qed.

Lemma on_api_key_submit_xp (value : str) (configured : bool) (a : t) :
  xp (on_api_key_submit value configured a) = xp a.
Proof.
  unfold on_api_key_submit.
  repeat split_branch; rewrite ?generate_mission_async_xp; frame.
Qed.

(** The validator's method, run with the callbacks of the application,
    either leaves XP alone or awards once. *)
Lemma process_validation_result_xp (result : json) (command : str) (a : t) :
  let a' := snd (process_validation_result result command a) in
  xp a' = xp a \/ xp a' = xp a + xp_gained (hints_used a).
Proof.
  cbv zeta. unfold process_validation_result.
  destruct (command_validator a); [|left; reflexivity].
  unfold CommandValidator.process_validation_result, callbacks.
  cbn [CommandValidator.add_terminal_line CommandValidator.set_explain_visible
       CommandValidator.update_page CommandValidator.save_progress
       CommandValidator.update_missions_completed
       CommandValidator.set_mission_completed CommandValidator.award_xp].
  destruct (py_get result (py "correct") (JBool false)); [|left; reflexivity].
  destruct (truthy a0).
  - destruct (py_get result (py "simulated_output") (JString []))
      as [sim|]; [|left; reflexivity].
    destruct sim; try (left; reflexivity).
    destruct (py_get result (py "feedback") (JString (py "Correct!")));
      [|left; cbn [snd]; frame].
    right.
    match goal with
    | |- context [award_xp ?x] =>
        pose proof (award_xp_xp x) as Hx; destruct (award_xp x) as [total st]
    end.
    cbn [snd] in Hx |- *. frame. rewrite Hx. frame.
  - destruct (py_get result (py "feedback") (JString (py "Incorrect.")));
      left; cbn [snd]; frame.
Qed.

Lemma validate_command_async_xp (command : str) (a : t) :
  xp (validate_command_async command a) = xp a
  \/ xp (validate_command_async command a) = xp a + xp_gained (hints_used a).
Proof.
  unfold validate_command_async. cbv zeta.
  destruct (command_validator _) eqn:Ev; [|left; frame].
  destruct (truthy _); [|left; frame].
  destruct (CommandValidator.validate_command _ _ _ _ _) as [res w].
  destruct res as [result|e]; [|left; frame].
  destruct (truthy result); [|left; frame].
  match goal with
  | |- context [process_validation_result result command ?x] =>
      pose proof (process_validation_result_xp result command x) as Hx;
      cbv zeta in Hx;
      destruct (process_validation_result result command x) as [r a']
  end.
  cbn [snd] in Hx. cbn [xp hints_used with_world with_terminal_output with_loading
                        add_terminal_line set_loading] in Hx.
  destruct r; frame; exact Hx.
Qed.

Lemma on_command_submit_xp (a : t) :
  xp (on_command_submit a) = xp a
  \/ xp (on_command_submit a) = xp a + xp_gained (hints_used a).
Proof.
  unfold on_command_submit. cbv zeta.
  destruct (strip (command_input a)) as [|c command]; [left; frame|].
  destruct (lower_is _ _); [left; rewrite show_help_xp; frame|].
  destruct (lower_is _ _); [left; rewrite clear_terminal_xp; frame|].
  destruct (lower_is _ _); [left; rewrite show_status_xp; frame|].
  destruct (negb (startswith _ _)); [left; frame|].
  destruct (negb (truthy _)); [left; frame|].
  match goal with
  | |- context [validate_command_async ?c ?x] =>
      destruct (validate_command_async_xp c x) as [H | H]; rewrite H
  end; [left | right]; frame.
Qed.

(** One event either leaves XP alone or awards once, for the hints used so
    far. *)
Lemma step_xp (a : t) (e : event) :
  xp (step a e) = xp a \/ xp (step a e) = xp a + xp_gained (hints_used a).
Proof.
  destruct e; cbn [step].
  - destruct (on_command_submit_xp (with_command_input value a)) as [H | H];
      rewrite H; [left | right]; frame.
  - left. apply on_key_down_xp.
  - left. apply generate_mission_async_xp.
  - left. apply on_get_hint_xp.
  - left. apply on_explain_why_xp.
  - left. apply on_api_key_submit_xp.
Qed.

Lemma step_xp_le (a : t) (e : event) : xp a <= xp (step a e).
Proof.
  destruct (step_xp a e) as [H | H]; rewrite H;
    [|pose proof (xp_gained_positive (hints_used a))]; lia.
Qed.

Lemma exec_xp_le (es : list event) (a : t) : xp a <= xp (exec a es).
Proof.
  revert a. induction es as [|e es IH]; intros a; cbn [exec fold_left].
  - lia.
  - pose proof (step_xp_le a e). specialize (IH (step a e)).
    unfold exec in IH. lia.
Qed.

(** C6. XP never goes down: after any sequence of events the XP is at least
    what it was after any earlier part of the sequence; an event either
    leaves XP alone or adds the award of [award_xp]; and [award_xp] always
    adds a strictly positive amount. *)
Theorem xp_never_decreases (a : t) (es1 es2 : list event) :
  xp (exec a es1) <= xp (exec a (es1 ++ es2))
  /\ (forall e, xp (step a e) = xp a
                \/ xp (step a e) = xp (snd (award_xp a)))
  /\ xp a < xp (snd (award_xp a)).
Proof.
  split; [|split].
  - unfold exec. rewrite fold_left_app. apply (exec_xp_le es2).
  - intros e. rewrite award_xp_xp. apply step_xp.
  - rewrite award_xp_xp. pose proof (xp_gained_positive (hints_used a)). lia.
Qed.

End Application.

(** ** Removing the fences *)

(** Equality of two texts up to the bracketing of [++]. *)
Ltac list_eq :=
  cbn; repeat (rewrite <- !List.app_assoc; cbn [app]); reflexivity.

Section Fences.

Lemma lstrip_spaces (ws s : str) :
  all_space ws = true -> lstrip (ws ++ s) = lstrip s.
Proof.
  unfold all_space. induction ws as [|c ws IH]; cbn [forallb app lstrip]; intros H.
  - reflexivity.
  - apply andb_prop in H. destruct H as [Hc Hws]. rewrite Hc. auto.
Qed.

Lemma lstrip_solid (c : char) (s : str) :
  is_space c = false -> lstrip (c :: s) = c :: s.
Proof. intros H. cbn [lstrip]. rewrite H. reflexivity. Qed.

Lemma all_space_rev (ws : str) : all_space ws = true -> all_space (rev ws) = true.
Proof.
  unfold all_space. rewrite !forallb_forall. intros H x Hx.
  apply H. apply in_rev. exact Hx.
Qed.

Lemma rstrip_spaces (s ws : str) :
  all_space ws = true -> rstrip (s ++ ws) = rstrip s.
Proof.
  intros H. unfold rstrip. rewrite rev_app_distr.
  rewrite lstrip_spaces by (apply all_space_rev; exact H). reflexivity.
Qed.

Lemma rstrip_solid (s : str) (c : char) :
  is_space c = false -> rstrip (s ++ [c]) = s ++ [c].
Proof.
  intros H. unfold rstrip. rewrite rev_app_distr. cbn [rev app].
  rewrite lstrip_solid by exact H.
  cbn [rev]. rewrite rev_involutive. reflexivity.
Qed.

(** [strip] leaves a text that starts and ends with a solid character as it
    is, and removes white space around it. *)
Lemma strip_padded (ws0 ws3 : str) (c e : char) (m : str) :
  all_space ws0 = true -> all_space ws3 = true ->
  is_space c = false -> is_space e = false ->
  strip (ws0 ++ (c :: m ++ [e]) ++ ws3) = c :: m ++ [e].
Proof.
  intros H0 H3 Hc He. unfold strip.
  rewrite lstrip_spaces by exact H0.
  cbn [app]. rewrite lstrip_solid by exact Hc.
  change (c :: (m ++ [e]) ++ ws3) with ((c :: m ++ [e]) ++ ws3).
  rewrite rstrip_spaces by exact H3.
  change (c :: m ++ [e]) with ((c :: m) ++ [e]).
  apply rstrip_solid. exact He.
Qed.

Lemma strip_prefix_app (p s : str) : strip_prefix p (p ++ s) = Some s.
Proof.
  induction p as [|x p IH]; cbn [strip_prefix app].
  - reflexivity.
  - rewrite N.eqb_refl. exact IH.
Qed.

(** The opening fence and the white space after it go; a text that opens
    with a brace stays. *)
Lemma sub_leading_fence_fenced (ws1 rest : str) (c : char) :
  all_space ws1 = true -> is_space c = false ->
  sub_leading_fence (FENCE_OPEN ++ ws1 ++ c :: rest) = c :: rest.
Proof.
  intros H1 Hc. unfold sub_leading_fence.
  rewrite strip_prefix_app. rewrite lstrip_spaces by exact H1.
  apply lstrip_solid. exact Hc.
Qed.

Lemma sub_leading_fence_brace (rest : str) :
  sub_leading_fence (py "{" ++ rest) = py "{" ++ rest.
Proof. reflexivity. Qed.

(** The closing fence and the white space before it go; a text that closes
    with a brace stays. *)
Lemma sub_trailing_fence_fenced (s ws2 : str) (e : char) :
  all_space ws2 = true -> is_space e = false ->
  sub_trailing_fence ((s ++ [e]) ++ ws2 ++ FENCE_CLOSE) = s ++ [e].
Proof.
  intros H2 He. unfold sub_trailing_fence.
  rewrite !rev_app_distr. cbn [FENCE_CLOSE py list_ascii_of_string map rev app].
  cbn [N_of_ascii N_of_digits]. cbn.
  unfold cut_fence_rev. cbn [FENCE_CLOSE py list_ascii_of_string map rev app].
  cbn.
  rewrite lstrip_spaces by (apply all_space_rev; exact H2).
  rewrite lstrip_solid by exact He.
  cbn [rev]. rewrite rev_involutive. reflexivity.
Qed.

Lemma sub_trailing_fence_brace (s : str) :
  sub_trailing_fence (s ++ py "}") = s ++ py "}".
Proof.
  unfold sub_trailing_fence. rewrite rev_app_distr. reflexivity.
Qed.

(** The clean-up of a response returns the body of a fenced JSON object,
    whichever of the two fences are there. *)
Lemma clean_response_fenced (opened closed : bool) (ws0 ws1 ws2 ws3 inner : str) :
  all_space ws0 = true -> all_space ws1 = true ->
  all_space ws2 = true -> all_space ws3 = true ->
  clean_response (fenced opened closed ws0 ws1 ws2 ws3 (braces inner)) = braces inner.
Proof.
  intros H0 H1 H2 H3. unfold clean_response, fenced, braces.
  assert (Hb : is_space 123%N = false) by reflexivity.
  assert (He : is_space 125%N = false) by reflexivity.
  assert (Hq : is_space 96%N = false) by reflexivity.
  assert (Hstrip : strip (py "{" ++ inner ++ py "}") = py "{" ++ inner ++ py "}").
  { pose proof (strip_padded [] [] 123%N 125%N inner eq_refl eq_refl Hb He) as Hs.
    cbn [app] in Hs. rewrite List.app_nil_r in Hs. exact Hs. }
  destruct opened, closed.
  - (* both fences *)
    replace ((FENCE_OPEN ++ ws1) ++ (py "{" ++ inner ++ py "}") ++ (ws2 ++ FENCE_CLOSE) ++ ws3)
      with ((96%N :: (py "``json" ++ ws1 ++ (py "{" ++ inner ++ py "}") ++ ws2 ++ py "``")
                 ++ [96%N]) ++ ws3)
      by list_eq.
    rewrite strip_padded by auto.
    replace (96%N :: (py "``json" ++ ws1 ++ (py "{" ++ inner ++ py "}") ++ ws2 ++ py "``")
                 ++ [96%N])
      with (FENCE_OPEN ++ ws1 ++ 123%N :: ((inner ++ py "}") ++ ws2 ++ FENCE_CLOSE))
      by list_eq.
    rewrite sub_leading_fence_fenced by auto.
    replace (123%N :: (inner ++ py "}") ++ ws2 ++ FENCE_CLOSE)
      with (((123%N :: inner) ++ [125%N]) ++ ws2 ++ FENCE_CLOSE)
      by list_eq.
    rewrite sub_trailing_fence_fenced by auto.
    exact Hstrip.
  - (* opening fence only *)
    replace ((FENCE_OPEN ++ ws1) ++ (py "{" ++ inner ++ py "}") ++ [] ++ ws3)
      with ((96%N :: (py "``json" ++ ws1 ++ py "{" ++ inner) ++ [125%N]) ++ ws3)
      by list_eq.
    rewrite strip_padded by auto.
    replace (96%N :: (py "``json" ++ ws1 ++ py "{" ++ inner) ++ [125%N])
      with (FENCE_OPEN ++ ws1 ++ 123%N :: (inner ++ py "}"))
      by list_eq.
    rewrite sub_leading_fence_fenced by auto.
    change (123%N :: inner ++ py "}") with ((123%N :: inner) ++ py "}").
    rewrite sub_trailing_fence_brace. exact Hstrip.
  - (* closing fence only *)
    replace ([] ++ (py "{" ++ inner ++ py "}") ++ (ws2 ++ FENCE_CLOSE) ++ ws3)
      with ((123%N :: (inner ++ py "}" ++ ws2 ++ py "``") ++ [96%N]) ++ ws3)
      by list_eq.
    rewrite strip_padded by auto.
    replace (123%N :: (inner ++ py "}" ++ ws2 ++ py "``") ++ [96%N])
      with (py "{" ++ (inner ++ py "}" ++ ws2 ++ FENCE_CLOSE))
      by list_eq.
    rewrite sub_leading_fence_brace.
    replace (py "{" ++ inner ++ py "}" ++ ws2 ++ FENCE_CLOSE)
      with (((123%N :: inner) ++ [125%N]) ++ ws2 ++ FENCE_CLOSE)
      by list_eq.
    rewrite sub_trailing_fence_fenced by auto.
    exact Hstrip.
  - (* no fence *)
    replace ([] ++ (py "{" ++ inner ++ py "}") ++ [] ++ ws3)
      with ((123%N :: inner ++ [125%N]) ++ ws3) by reflexivity.
    rewrite strip_padded by auto.
    change (123%N :: inner ++ [125%N]) with (py "{" ++ inner ++ py "}").
    rewrite sub_leading_fence_brace.
    change (py "{" ++ inner ++ py "}") with ((123%N :: inner) ++ py "}").
    rewrite sub_trailing_fence_brace. exact Hstrip.
Qed.

End Fences.

(** ** The two call-and-parse operations *)

Section CallAndParse.

(** The recursion of [generate_mission], as the source writes it: the
    budget of the embedding never runs out. *)
Lemma generate_mission_eq (g : MissionGenerator.t) (retry : Z) (w : World) :
  MissionGenerator.generate_mission g retry w =
  if negb (MissionGenerator.model g) then (Ret JNull, g, w)
  else
    match MissionGenerator.get_next_topic g with
    | (Raise e, g1) => (Raise e, g1, w)
    | (Ret topic, g1) =>
        let (reply, w1) :=
          generate_content w (MissionPrompt topic (MissionGenerator.get_difficulty g1)) in
        match decode_reply w (calls w) reply with
        | Ret mission => (Ret mission, g1, w1)
        | Raise e =>
            if is_decode_error e then
              if retry <? 2
              then MissionGenerator.generate_mission g1 (retry + 1)
                     (sleep (3 * (retry + 1)) w1)
              else (Ret JNull, g1, w1)
            else
              if retry <? 2
              then MissionGenerator.generate_mission g1 (retry + 1)
                     (sleep (5 * (retry + 1)) w1)
              else (Raise e, g1, w1)
        end
    end.
Proof.
  unfold MissionGenerator.generate_mission.
  destruct (Z.ltb_spec retry 2) as [Hlt | Hge].
  - replace (Z.to_nat (2 - retry)) with (S (Z.to_nat (2 - (retry + 1)))) by lia.
    cbn [MissionGenerator.generate_mission_rec].
    destruct (Z.ltb_spec retry 2); [reflexivity | lia].
  - replace (Z.to_nat (2 - retry)) with O by lia.
    cbn [MissionGenerator.generate_mission_rec].
    destruct (Z.ltb_spec retry 2); [lia | reflexivity].
Qed.

Lemma validate_command_eq (v : CommandValidator.t) (command : str)
    (current_mission : json) (retry : Z) (w : World) :
  CommandValidator.validate_command v command current_mission retry w =
  if negb (CommandValidator.model v) || negb (truthy current_mission)
  then (Ret JNull, w)
  else
    match CommandValidator.validation_prompt command current_mission with
    | Raise e => (Raise e, w)
    | Ret system_prompt =>
        let (reply, w1) := generate_content w system_prompt in
        match decode_reply w (calls w) reply with
        | Ret result => (Ret result, w1)
        | Raise e =>
            if is_decode_error e then
              if retry <? 1
              then CommandValidator.validate_command v command current_mission
                     (retry + 1) w1
              else (Ret JNull, w1)
            else
              if retry <? 1
              then CommandValidator.validate_command v command current_mission
                     (retry + 1) w1
              else (Raise e, w1)
        end
    end.
Proof.
  unfold CommandValidator.validate_command.
  destruct (Z.ltb_spec retry 1) as [Hlt | Hge].
  - replace (Z.to_nat (1 - retry)) with (S (Z.to_nat (1 - (retry + 1)))) by lia.
    cbn [CommandValidator.validate_command_rec].
    destruct (Z.ltb_spec retry 1); [reflexivity | lia].
  - replace (Z.to_nat (1 - retry)) with O by lia.
    cbn [CommandValidator.validate_command_rec].
    destruct (Z.ltb_spec retry 1); [lia | reflexivity].
Qed.

(** [get_next_topic] never raises. *)
Lemma get_next_topic_returns (g : MissionGenerator.t) :
  exists topic,
    MissionGenerator.get_next_topic g
    = (Ret topic, snd (MissionGenerator.get_next_topic g)).
Proof.
  destruct (get_next_topic_in_range g) as [_ [topic [H _]]].
  exists topic. rewrite <- H.
  destruct (MissionGenerator.get_next_topic g). reflexivity.
Qed.

(** *** What the model will reply, seen from a later moment *)

Lemma replies_with_now (w : World) (r : Reply) :
  replies_with w 0 r -> forall p, replies w (calls w) p = r.
Proof. intros H p. specialize (H p). rewrite Nat.add_0_r in H. exact H. Qed.

Lemma replies_with_later (w : World) (k : nat) (r : Reply) :
  replies_with w (S k) r ->
  forall seconds p,
    replies_with
      (sleep seconds
         (mkWorld (replies w) (spare_depth w) (S (calls w)) (trace w ++ [Asked p])))
      k r.
Proof.
  intros H seconds p q. cbn [sleep replies calls].
  specialize (H q). rewrite <- H. f_equal. lia.
Qed.

Lemma replies_with_next (w : World) (k : nat) (r : Reply) :
  replies_with w (S k) r ->
  forall p,
    replies_with
      (mkWorld (replies w) (spare_depth w) (S (calls w)) (trace w ++ [Asked p])) k r.
Proof.
  intros H p q. cbn [replies calls].
  specialize (H q). rewrite <- H. f_equal. lia.
Qed.

Lemma fails_with_later (w : World) (k : nat) (r : Reply) (e : exn) :
  fails_with w (S k) r e ->
  forall seconds p,
    fails_with
      (sleep seconds
         (mkWorld (replies w) (spare_depth w) (S (calls w)) (trace w ++ [Asked p])))
      k r e.
Proof.
  unfold fails_with. intros H seconds p. cbn [sleep calls].
  rewrite <- H. unfold decode_reply. cbn [spare_depth].
  replace (S (calls w) + k)%nat with (calls w + S k)%nat by lia. reflexivity.
Qed.

Lemma fails_with_next (w : World) (k : nat) (r : Reply) (e : exn) :
  fails_with w (S k) r e ->
  forall p,
    fails_with
      (mkWorld (replies w) (spare_depth w) (S (calls w)) (trace w ++ [Asked p])) k r e.
Proof.
  unfold fails_with. intros H p. cbn [calls].
  rewrite <- H. unfold decode_reply. cbn [spare_depth].
  replace (S (calls w) + k)%nat with (calls w + S k)%nat by lia. reflexivity.
Qed.

Lemma answers_now (w : World) (text : str) :
  answers w 0 text -> forall p, replies w (calls w) p = Text text.
Proof. exact (replies_with_now w (Text text)). Qed.

Lemma malformed_fails (w : World) (k : nat) (text : str) :
  malformed (room w k) text -> fails_with w k (Text text) JSONDecodeError.
Proof. intros H. exact H. Qed.

(** *** One attempt *)

(** A reply that decodes after the clean-up is returned at once: one
    request, no sleep, no second attempt. *)
Lemma generate_mission_decoded (g : MissionGenerator.t) (retry : Z) (w : World)
    (r : Reply) (v : json) :
  MissionGenerator.model g = true ->
  replies_with w 0 r ->
  decode_reply w (calls w) r = Ret v ->
  exists p,
    MissionGenerator.generate_mission g retry w
    = (Ret v, snd (MissionGenerator.get_next_topic g),
       mkWorld (replies w) (spare_depth w) (S (calls w)) (trace w ++ [Asked p])).
Proof.
  intros Hm Ha Hv. rewrite generate_mission_eq. rewrite Hm. cbn [negb].
  destruct (get_next_topic_returns g) as [topic Ht]. rewrite Ht.
  unfold generate_content. rewrite (replies_with_now w r Ha), Hv.
  eexists. reflexivity.
Qed.

Lemma validate_command_decoded (v : CommandValidator.t) (command : str)
    (current_mission : json) (retry : Z) (w : World) (p : Prompt)
    (r : Reply) (result : json) :
  CommandValidator.model v = true ->
  truthy current_mission = true ->
  CommandValidator.validation_prompt command current_mission = Ret p ->
  replies_with w 0 r ->
  decode_reply w (calls w) r = Ret result ->
  CommandValidator.validate_command v command current_mission retry w
  = (Ret result,
     mkWorld (replies w) (spare_depth w) (S (calls w)) (trace w ++ [Asked p])).
Proof.
  intros Hm Ht Hp Ha Hv. rewrite validate_command_eq.
  rewrite Hm, Ht, Hp. cbn [negb orb].
  unfold generate_content. rewrite (replies_with_now w r Ha), Hv. reflexivity.
Qed.

Lemma generate_mission_first_try (g : MissionGenerator.t) (retry : Z) (w : World)
    (text : str) (v : json) :
  MissionGenerator.model g = true ->
  answers w 0 text ->
  json_loads (room w 0) (clean_response text) = Ret v ->
  exists p,
    MissionGenerator.generate_mission g retry w
    = (Ret v, snd (MissionGenerator.get_next_topic g),
       mkWorld (replies w) (spare_depth w) (S (calls w)) (trace w ++ [Asked p])).
Proof.
  intros Hm Ha Hv. apply (generate_mission_decoded g retry w (Text text) v Hm Ha).
  unfold room in Hv. rewrite Nat.add_0_r in Hv. exact Hv.
Qed.

Lemma validate_command_first_try (v : CommandValidator.t) (command : str)
    (current_mission : json) (retry : Z) (w : World) (p : Prompt)
    (text : str) (result : json) :
  CommandValidator.model v = true ->
  truthy current_mission = true ->
  CommandValidator.validation_prompt command current_mission = Ret p ->
  answers w 0 text ->
  json_loads (room w 0) (clean_response text) = Ret result ->
  CommandValidator.validate_command v command current_mission retry w
  = (Ret result,
     mkWorld (replies w) (spare_depth w) (S (calls w)) (trace w ++ [Asked p])).
Proof.
  intros Hm Ht Hp Ha Hv.
  apply (validate_command_decoded v command current_mission retry w p (Text text)
           result Hm Ht Hp Ha).
  unfold room in Hv. rewrite Nat.add_0_r in Hv. exact Hv.
Qed.

(** One attempt of [generate_mission] that ends in an exception: the topic
    has moved on, one request was made, and the operation sleeps and starts
    again or, from the third attempt on, gives up. *)
Lemma generate_mission_attempt_fails (g : MissionGenerator.t) (retry : Z)
    (w : World) (r : Reply) (e : exn) :
  MissionGenerator.model g = true ->
  replies_with w 0 r -> fails_with w 0 r e ->
  exists p,
    MissionGenerator.generate_mission g retry w
    = let g1 := snd (MissionGenerator.get_next_topic g) in
      let w1 := mkWorld (replies w) (spare_depth w) (S (calls w))
                        (trace w ++ [Asked p]) in
      if retry <? 2
      then MissionGenerator.generate_mission g1 (retry + 1) (sleep (pause e retry) w1)
      else (gives_up e, g1, w1).
Proof.
  intros Hm Ha Hbad. rewrite generate_mission_eq. rewrite Hm. cbn [negb].
  destruct (get_next_topic_returns g) as [topic Ht]. rewrite Ht.
  unfold generate_content. rewrite (replies_with_now w r Ha).
  unfold fails_with in Hbad. rewrite Nat.add_0_r in Hbad. rewrite Hbad.
  unfold pause, gives_up. cbv zeta.
  eexists. destruct (is_decode_error e); reflexivity.
Qed.

Lemma validate_command_attempt_fails (v : CommandValidator.t) (command : str)
    (mission : json) (retry : Z) (w : World) (p : Prompt) (r : Reply) (e : exn) :
  CommandValidator.model v = true ->
  truthy mission = true ->
  CommandValidator.validation_prompt command mission = Ret p ->
  replies_with w 0 r -> fails_with w 0 r e ->
  CommandValidator.validate_command v command mission retry w
  = let w1 := mkWorld (replies w) (spare_depth w) (S (calls w))
                      (trace w ++ [Asked p]) in
    if retry <? 1
    then CommandValidator.validate_command v command mission (retry + 1) w1
    else (gives_up e, w1).
Proof.
  intros Hm Ht Hp Ha Hbad. rewrite validate_command_eq.
  rewrite Hm, Ht, Hp. cbn [negb orb].
  unfold generate_content. rewrite (replies_with_now w r Ha).
  unfold fails_with in Hbad. rewrite Nat.add_0_r in Hbad. rewrite Hbad.
  unfold gives_up. cbv zeta.
  destruct (is_decode_error e); reflexivity.
Qed.

(** *** Every attempt fails *)

Lemma generate_mission_three_failures (g : MissionGenerator.t) (w : World)
    (r1 r2 r3 : Reply) (e1 e2 e3 : exn) :
  MissionGenerator.model g = true ->
  replies_with w 0 r1 -> replies_with w 1 r2 -> replies_with w 2 r3 ->
  fails_with w 0 r1 e1 -> fails_with w 1 r2 e2 -> fails_with w 2 r3 e3 ->
  exists p1 p2 p3,
    MissionGenerator.generate_mission g 0 w
    = (gives_up e3, after_topics 3 g,
       mkWorld (replies w) (spare_depth w) (calls w + 3)
               (trace w ++ [Asked p1; Slept (pause e1 0); Asked p2;
                            Slept (pause e2 1); Asked p3])).
Proof.
  intros Hm A1 A2 A3 B1 B2 B3.
  destruct (generate_mission_attempt_fails g 0 w r1 e1 Hm A1 B1) as [p1 E1].
  rewrite E1. cbv zeta. change (0 <? 2) with true. change (0 + 1) with 1.
  cbv iota.
  set (g1 := snd (MissionGenerator.get_next_topic g)).
  set (w1 := sleep (pause e1 0)
               (mkWorld (replies w) (spare_depth w) (S (calls w))
                        (trace w ++ [Asked p1]))).
  assert (A2' : replies_with w1 0 r2) by (apply replies_with_later; exact A2).
  assert (A3' : replies_with w1 1 r3) by (apply replies_with_later; exact A3).
  assert (B2' : fails_with w1 0 r2 e2) by (apply fails_with_later; exact B2).
  assert (B3' : fails_with w1 1 r3 e3) by (apply fails_with_later; exact B3).
  destruct (generate_mission_attempt_fails g1 1 w1 r2 e2 Hm A2' B2') as [p2 E2].
  rewrite E2. cbv zeta. change (1 <? 2) with true. change (1 + 1) with 2.
  cbv iota.
  set (g2 := snd (MissionGenerator.get_next_topic g1)).
  set (w2 := sleep (pause e2 1)
               (mkWorld (replies w1) (spare_depth w1) (S (calls w1))
                        (trace w1 ++ [Asked p2]))).
  assert (A3'' : replies_with w2 0 r3) by (apply replies_with_later; exact A3').
  assert (B3'' : fails_with w2 0 r3 e3) by (apply fails_with_later; exact B3').
  destruct (generate_mission_attempt_fails g2 2 w2 r3 e3 Hm A3'' B3'') as [p3 E3].
  rewrite E3. cbv zeta. change (2 <? 2) with false. cbv iota.
  exists p1, p2, p3.
  f_equal.
  unfold w2, w1, sleep. cbn [replies spare_depth calls trace].
  f_equal; [lia | list_eq].
Qed.

Lemma validate_command_two_failures (v : CommandValidator.t) (command : str)
    (mission : json) (w : World) (p : Prompt) (r1 r2 : Reply) (e1 e2 : exn) :
  CommandValidator.model v = true ->
  truthy mission = true ->
  CommandValidator.validation_prompt command mission = Ret p ->
  replies_with w 0 r1 -> replies_with w 1 r2 ->
  fails_with w 0 r1 e1 -> fails_with w 1 r2 e2 ->
  CommandValidator.validate_command v command mission 0 w
  = (gives_up e2,
     mkWorld (replies w) (spare_depth w) (calls w + 2)
             (trace w ++ [Asked p; Asked p])).
Proof.
  intros Hm Ht Hp A1 A2 B1 B2.
  rewrite (validate_command_attempt_fails v command mission 0 w p r1 e1)
    by assumption.
  cbv zeta. change (0 <? 1) with true. change (0 + 1) with 1. cbv iota.
  rewrite (validate_command_attempt_fails v command mission 1
             (mkWorld (replies w) (spare_depth w) (S (calls w))
                      (trace w ++ [Asked p])) p r2 e2)
    by (try assumption; try (apply replies_with_next; exact A2);
        try (apply fails_with_next; exact B2)).
  cbv zeta. change (1 <? 1) with false. cbv iota.
  cbn [replies spare_depth calls trace].
  f_equal. f_equal; [lia | list_eq].
Qed.

End CallAndParse.

Section Retries.

(** C2, as the code has it.  When every response is malformed after the
    clean-up ([json.loads] raises [JSONDecodeError] on it),
    [validate_command] makes two requests (one retry) and
    [generate_mission] three (two retries, after sleeping 3 and then 6
    seconds, each attempt moving to the next topic); both then return [None]
    and raise nothing. *)
Theorem malformed_responses_bounded_retries :
  (forall g w t1 t2 t3,
      MissionGenerator.model g = true ->
      answers w 0 t1 -> answers w 1 t2 -> answers w 2 t3 ->
      malformed (room w 0) t1 -> malformed (room w 1) t2 ->
      malformed (room w 2) t3 ->
      exists p1 p2 p3,
        MissionGenerator.generate_mission g 0 w
        = (Ret JNull, after_topics 3 g,
           mkWorld (replies w) (spare_depth w) (calls w + 3)
                   (trace w ++ [Asked p1; Slept 3; Asked p2; Slept 6; Asked p3])))
  /\ (forall v command current_mission w p t1 t2,
         CommandValidator.model v = true ->
         truthy current_mission = true ->
         CommandValidator.validation_prompt command current_mission = Ret p ->
         answers w 0 t1 -> answers w 1 t2 ->
         malformed (room w 0) t1 -> malformed (room w 1) t2 ->
         CommandValidator.validate_command v command current_mission 0 w
         = (Ret JNull,
            mkWorld (replies w) (spare_depth w) (calls w + 2)
                    (trace w ++ [Asked p; Asked p]))).
Proof.
  split.
  - intros g w t1 t2 t3 Hm A1 A2 A3 B1 B2 B3.
    exact (generate_mission_three_failures g w (Text t1) (Text t2) (Text t3)
             JSONDecodeError JSONDecodeError JSONDecodeError
             Hm A1 A2 A3 B1 B2 B3).
  - intros v command current_mission w p t1 t2 Hm Ht Hp A1 A2 B1 B2.
    exact (validate_command_two_failures v command current_mission w p
             (Text t1) (Text t2) JSONDecodeError JSONDecodeError
             Hm Ht Hp A1 A2 B1 B2).
Qed.

Lemma malformed_responses_bounded_retries_witness :
  fst (fst (MissionGenerator.generate_mission
              (MissionGenerator.mk true 1 (-1)) 0
              (scripted [py "Sorry, I cannot."; jtext "{'title': "; py "```json"])))
  = Ret JNull
  /\ fst (CommandValidator.validate_command
            (CommandValidator.mk true) (py "nmap -sn 10.0.0.0/24") sample_mission 0
            (scripted [py "Sorry, I cannot."; jtext "{'correct': tru}"]))
     = Ret JNull.
Proof.
  destruct malformed_responses_bounded_retries as [Hm Hv].
  split.
  - destruct (Hm (MissionGenerator.mk true 1 (-1))
                 (scripted [py "Sorry, I cannot."; jtext "{'title': "; py "```json"])
                 (py "Sorry, I cannot.") (jtext "{'title': ") (py "```json")
                 eq_refl (fun p => eq_refl) (fun p => eq_refl) (fun p => eq_refl)
                 ltac:(vm_compute; reflexivity) ltac:(vm_compute; reflexivity)
                 ltac:(vm_compute; reflexivity))
      as [p1 [p2 [p3 E]]].
    rewrite E. reflexivity.
  - rewrite (Hv (CommandValidator.mk true) (py "nmap -sn 10.0.0.0/24") sample_mission
                (scripted [py "Sorry, I cannot."; jtext "{'correct': tru}"]) _
                (py "Sorry, I cannot.") (jtext "{'correct': tru}")
                eq_refl eq_refl eq_refl (fun p => eq_refl) (fun p => eq_refl)
                ltac:(vm_compute; reflexivity) ltac:(vm_compute; reflexivity)).
    reflexivity.
Defined.

(** C2 as stated fails for [generate_mission]: with two malformed responses
    followed by a well-formed one, it does not give up after the first
    retry; it asks a third time and returns the mission. *)
Lemma generate_mission_retries_twice_counterexample :
  ~ retries_once_then_gives_up
      (MissionGenerator.mk true 1 (-1))
      (scripted [py "Sorry, I cannot."; jtext "{'title': "; sample_mission_text]).
Proof.
  intros H.
  destruct (H (py "Sorry, I cannot.") (jtext "{'title': ")
              (fun p => eq_refl) (fun p => eq_refl)
              ltac:(vm_compute; reflexivity) ltac:(vm_compute; reflexivity))
    as [Hnone _].
  vm_compute in Hnone. discriminate Hnone.
Qed.

(** What the code does on that input: three requests, and the mission. *)
Lemma generate_mission_third_attempt :
  let r := MissionGenerator.generate_mission
             (MissionGenerator.mk true 1 (-1)) 0
             (scripted [py "Sorry, I cannot."; jtext "{'title': "; sample_mission_text]) in
  fst (fst r) = Ret sample_mission
  /\ calls (snd r) = 3%nat
  /\ MissionGenerator.last_topic_index (snd (fst r)) = 2.
Proof. vm_compute. repeat split. Qed.

End Retries.

(** ** Integers in decimal *)

Section Numbers.

Lemma uint_of_digits_of_uint (u : Decimal.uint) :
  uint_of_digits (digits_of_uint u) = u.
Proof. induction u; cbn; congruence. Qed.

Lemma digits_of_uint_digits (u : Decimal.uint) :
  forallb is_digit (digits_of_uint u) = true.
Proof. induction u; cbn [digits_of_uint forallb]; try exact IHu; reflexivity. Qed.

Lemma span_digits_all (ds rest : str) :
  forallb is_digit ds = true ->
  ends_number rest = true ->
  span_digits (ds ++ rest) = (ds, rest).
Proof.
  intros Hd Hr. induction ds as [|c ds IH]; cbn [app].
  - destruct rest as [|c rest]; [reflexivity|].
    cbn [span_digits]. unfold ends_number in Hr.
    destruct (is_digit c); [discriminate Hr | reflexivity].
  - cbn [forallb] in Hd. apply andb_prop in Hd. destruct Hd as [Hc Hd].
    cbn [span_digits]. rewrite Hc, (IH Hd). reflexivity.
Qed.

Lemma span_digits_of_uint (u : Decimal.uint) (rest : str) :
  ends_number rest = true ->
  span_digits (digits_of_uint u ++ rest) = (digits_of_uint u, rest).
Proof. apply span_digits_all. apply digits_of_uint_digits. Qed.

Lemma unorm_zero_head (v x : Decimal.uint) :
  Decimal.unorm v = Decimal.D0 x -> x = Decimal.Nil.
Proof.
  induction v; cbn; intros H; try discriminate H; auto.
  injection H as <-. reflexivity.
Qed.

(** The decimal writing of a positive number does not start with 0. *)
Lemma to_uint_head (p : positive) :
  exists c ds,
    digits_of_uint (Pos.to_uint p) = c :: ds
    /\ is_digit c = true /\ (c =? 48)%N = false
    /\ exists u, ds = digits_of_uint u.
Proof.
  assert (Hn : Decimal.unorm (Pos.to_uint p) = Pos.to_uint p).
  { rewrite <- (DecimalPos.Unsigned.to_of (Pos.to_uint p)).
    rewrite DecimalPos.Unsigned.of_to. reflexivity. }
  pose proof (DecimalPos.Unsigned.to_uint_nonzero p) as Hz.
  pose proof (DecimalPos.Unsigned.to_uint_nonnil p) as Hnil.
  destruct (Pos.to_uint p) as [|u|u|u|u|u|u|u|u|u|u] eqn:E;
    [congruence | | | | | | | | | | ];
    try (eexists; exists (digits_of_uint u); cbn [digits_of_uint];
         split; [reflexivity | split; [reflexivity | split; [reflexivity | eauto]]]).
  exfalso. apply Hz. cbn in Hn.
  apply unorm_zero_head in Hn. subst u. reflexivity.
Qed.

Lemma int_of_digits_pos (p : positive) :
  int_of_digits (digits_of_uint (Pos.to_uint p)) = Z.pos p.
Proof.
  unfold int_of_digits. rewrite uint_of_digits_of_uint.
  unfold N.of_uint. rewrite DecimalPos.Unsigned.of_to. reflexivity.
Qed.

Lemma int_digits_ok_pos (p : positive) :
  int_digits_ok (digits_of_uint (Pos.to_uint p)) = true.
Proof.
  destruct (to_uint_head p) as [c [ds [E [Hd [H0 [u Hu]]]]]].
  rewrite E. unfold int_digits_ok. rewrite H0, Hd. subst ds.
  apply digits_of_uint_digits.
Qed.

Lemma scan_tail (rest : str) :
  ends_number rest = true ->
  scan_frac rest = ([], rest) /\ scan_exp rest = ([], rest).
Proof.
  intros H. destruct rest as [|c rest]; [split; reflexivity|].
  unfold ends_number in H.
  apply andb_prop in H. destruct H as [H He2].
  apply andb_prop in H. destruct H as [H He1].
  apply andb_prop in H. destruct H as [_ Hdot].
  apply negb_true_iff in Hdot, He1, He2.
  unfold scan_frac, scan_exp. rewrite Hdot, He1, He2. split; reflexivity.
Qed.

(** The first character of the digits of an integer literal is a digit. *)
Lemma int_digits_ok_head (ds : str) :
  int_digits_ok ds = true ->
  exists c r, ds = c :: r /\ is_digit c = true.
Proof.
  destruct ds as [|c r]; [discriminate|]. intros H. exists c, r.
  split; [reflexivity|]. cbn [int_digits_ok] in H.
  destruct (N.eqb_spec c 48) as [->|_]; [reflexivity|].
  apply andb_prop in H. tauto.
Qed.

Lemma scan_int_part_digits (ds rest : str) :
  int_digits_ok ds = true ->
  ends_number rest = true ->
  scan_int_part (ds ++ rest) = Some (ds, rest).
Proof.
  intros Hok Hr. destruct ds as [|c r]; [discriminate Hok|].
  cbn [int_digits_ok] in Hok. cbn [app scan_int_part].
  destruct (c =? 48)%N.
  - destruct r; [reflexivity | discriminate Hok].
  - apply andb_prop in Hok. destruct Hok as [Hc Hds].
    rewrite Hc, (span_digits_all r rest Hds Hr). reflexivity.
Qed.

Lemma digit_is_no_minus (c : char) : is_digit c = true -> (c =? 45)%N = false.
Proof.
  unfold is_digit. intros Hd. apply andb_prop in Hd. destruct Hd as [Hlo _].
  apply N.leb_le in Hlo. apply N.eqb_neq. lia.
Qed.

(** Scanning an integer literal: the integer, and the text after it; or
    [ValueError] when it has more digits than [int] accepts. *)
Lemma scan_number_digits (negative : bool) (ds rest : str) :
  int_digits_ok ds = true ->
  ends_number rest = true ->
  scan_number ((if negative then [45%N] else []) ++ ds ++ rest)
  = if (MAX_STR_DIGITS <? length ds)%nat then PRaise ValueError
    else POk (JInt (if negative then - int_of_digits ds else int_of_digits ds)) rest.
Proof.
  intros Hok Hr. destruct (scan_tail rest Hr) as [Hf He].
  pose proof (scan_int_part_digits ds rest Hok Hr) as Hi.
  unfold scan_number. destruct negative; cbn [app].
  - change (45 =? 45)%N with true. cbv iota. rewrite Hi, Hf, He. reflexivity.
  - destruct (int_digits_ok_head ds Hok) as [c [r [-> Hc]]].
    cbn [app] in Hi |- *. rewrite (digit_is_no_minus c Hc).
    rewrite Hi, Hf, He. reflexivity.
Qed.

(** Scanning the decimal writing of an integer gives the integer back and
    stops right after it. *)
Lemma scan_number_str_of_int (z : Z) (rest : str) :
  printable z ->
  ends_number rest = true ->
  scan_number (str_of_int z ++ rest) = POk (JInt z) rest.
Proof.
  unfold printable. intros Hp Hr. destruct z as [|p|p]; cbn [str_of_int Z.abs] in *.
  - pose proof (scan_number_digits false [48%N] rest eq_refl Hr) as H.
    cbn [app] in H |- *. exact H.
  - pose proof (scan_number_digits false _ rest (int_digits_ok_pos p) Hr) as H.
    apply Nat.ltb_ge in Hp. rewrite Hp, int_of_digits_pos in H.
    cbn [app] in H. exact H.
  - pose proof (scan_number_digits true _ rest (int_digits_ok_pos p) Hr) as H.
    apply Nat.ltb_ge in Hp. rewrite Hp, int_of_digits_pos in H.
    cbn [app] in H |- *. exact H.
Qed.

(** A value that starts with a digit or a minus sign is a number or
    nothing. *)
Lemma parse_value_number (fuel room : nat) (c : char) (s : str) :
  is_digit c = true \/ c = 45%N ->
  parse_value (S fuel) room (c :: s)
  = match scan_number (c :: s) with
    | PErr =>
        match strip_prefix (py "-Infinity") (c :: s) with
        | Some r => POk (JFloat (py "-Infinity")) r
        | None => PErr
        end
    | res => res
    end.
Proof.
  intros Hc. cbn [parse_value].
  assert (Hne : (c =? 34)%N = false /\ (c =? 123)%N = false /\ (c =? 91)%N = false
                /\ (c =? 110)%N = false /\ (c =? 116)%N = false
                /\ (c =? 102)%N = false /\ (c =? 78)%N = false
                /\ (c =? 73)%N = false).
  { destruct Hc as [Hd | ->]; [|repeat split; reflexivity].
    unfold is_digit in Hd. apply andb_prop in Hd. destruct Hd as [Hlo Hhi].
    apply N.leb_le in Hlo, Hhi.
    repeat split; apply N.eqb_neq; lia. }
  destruct Hne as [H1 [H2 [H3 [H4 [H5 [H6 [H7 H8]]]]]]].
  rewrite H1, H2, H3. unfold scan_atom.
  cbn [py list_ascii_of_string map strip_prefix].
  change (N_of_ascii "n") with 110%N. change (N_of_ascii "t") with 116%N.
  change (N_of_ascii "f") with 102%N. change (N_of_ascii "N") with 78%N.
  change (N_of_ascii "I") with 73%N.
  rewrite (N.eqb_sym 110 c), (N.eqb_sym 116 c), (N.eqb_sym 102 c),
          (N.eqb_sym 78 c), (N.eqb_sym 73 c).
  rewrite H4, H5, H6, H7, H8.
  destruct (scan_number (c :: s)); reflexivity.
Qed.

(** The first character of a written integer: a digit or the minus sign. *)
Lemma str_of_int_head (z : Z) :
  exists c ds,
    str_of_int z = c :: ds /\ (is_digit c = true \/ c = 45%N).
Proof.
  destruct z as [|p|p]; cbn [str_of_int].
  - exists 48%N, []. split; [reflexivity | left; reflexivity].
  - destruct (to_uint_head p) as [c [ds [E [Hd _]]]].
    exists c, ds. split; [exact E | left; exact Hd].
  - eexists _, _. split; [reflexivity | right; reflexivity].
Qed.

Lemma parse_value_int (fuel room : nat) (z : Z) (rest : str) :
  printable z ->
  ends_number rest = true ->
  parse_value (S fuel) room (str_of_int z ++ rest) = POk (JInt z) rest.
Proof.
  intros Hp Hr. pose proof (scan_number_str_of_int z rest Hp Hr) as Hs.
  destruct (str_of_int_head z) as [c [ds [E Hc]]].
  rewrite E in Hs |- *. cbn [app] in Hs |- *.
  rewrite (parse_value_number fuel room c (ds ++ rest) Hc), Hs. reflexivity.
Qed.

End Numbers.

(** ** The progress file *)

Section ProgressFile.

Lemma scanstring_plain (key rest acc : str) :
  plain key = true ->
  scanstring (key ++ 34%N :: rest) None acc = POk (rev acc ++ key) rest.
Proof.
  revert acc. induction key as [|c key IH]; intros acc Hp.
  - cbn. rewrite List.app_nil_r. reflexivity.
  - unfold plain in Hp. cbn [forallb] in Hp.
    apply andb_prop in Hp. destruct Hp as [Hc Hk].
    apply andb_prop in Hc. destruct Hc as [Hc Hctl].
    apply andb_prop in Hc. destruct Hc as [Hq Hb].
    apply negb_true_iff in Hq, Hb, Hctl.
    cbn [app scanstring]. rewrite Hq, Hb, Hctl. cbn [flush].
    rewrite IH by exact Hk. cbn [rev]. rewrite <- List.app_assoc. reflexivity.
Qed.

Lemma skip_ws_int (z : Z) (rest : str) :
  skip_ws (str_of_int z ++ rest) = str_of_int z ++ rest.
Proof.
  destruct (str_of_int_head z) as [c [ds [E Hc]]]. rewrite E. cbn [app skip_ws].
  assert (H : is_json_ws c = false).
  { destruct Hc as [Hd | ->]; [|reflexivity].
    unfold is_digit in Hd. apply andb_prop in Hd. destruct Hd as [Hlo Hhi].
    apply N.leb_le in Hlo, Hhi. unfold is_json_ws.
    repeat (apply orb_false_intro); apply N.eqb_neq; lia. }
  rewrite H. reflexivity.
Qed.

Lemma parse_members_eq (fuel room : nat) (s : str) (acc : list (str * json)) :
  parse_members (S fuel) room s acc
  = match s with
    | c :: r =>
        if (c =? 34)%N then
          match scanstring r None [] with
          | POk k r1 =>
              match skip_ws r1 with
              | c2 :: r2 =>
                  if (c2 =? 58)%N then
                    match parse_value fuel room (skip_ws r2) with
                    | POk v r3 =>
                        match skip_ws r3 with
                        | c4 :: r4 =>
                            if (c4 =? 125)%N
                            then POk (JObject (dict_of_pairs (rev ((k, v) :: acc)))) r4
                            else if (c4 =? 44)%N
                            then parse_members fuel room (skip_ws r4) ((k, v) :: acc)
                            else PErr
                        | [] => PErr
                        end
                    | PErr => PErr
                    | PRaise e => PRaise e
                    | PFuel => PFuel
                    end
                  else PErr
              | [] => PErr
              end
          | PErr => PErr
          | PRaise e => PRaise e
          | PFuel => PFuel
          end
        else PErr
    | [] => PErr
    end.
Proof. reflexivity. Qed.

(** One member whose value is an integer: the scanner reads the pair and
    looks at what follows. *)
Lemma parse_members_int (fuel room : nat) (kv : string * Z) (rest : str)
    (acc : list (str * json)) :
  plain (py (fst kv)) = true ->
  printable (snd kv) ->
  ends_number rest = true ->
  parse_members (S (S fuel)) room (member_text kv ++ rest) acc
  = match skip_ws rest with
    | c :: r =>
        if (c =? 125)%N
        then POk (JObject (dict_of_pairs (rev (member_value kv :: acc)))) r
        else if (c =? 44)%N
        then parse_members (S fuel) room (skip_ws r) (member_value kv :: acc)
        else PErr
    | [] => PErr
    end.
Proof.
  intros Hk Hz Hr. unfold member_text.
  rewrite <- !List.app_assoc. cbn [app].
  rewrite parse_members_eq. change (34 =? 34)%N with true. cbv iota.
  rewrite scanstring_plain by exact Hk. cbn [rev app].
  change (py ": ") with [58%N; 32%N]. cbn [app skip_ws].
  change (is_json_ws 58) with false. cbv iota.
  change (58 =? 58)%N with true. cbv iota.
  cbn [skip_ws]. change (is_json_ws 32) with true. cbv iota.
  rewrite skip_ws_int. rewrite parse_value_int by assumption.
  reflexivity.
Qed.

Lemma dump_items_cons (kv : string * Z) (items : list (string * Z)) :
  dump_items (kv :: items)
  = dump_item kv
      ++ match items with
         | [] => []
         | _ :: _ => py "," ++ [NEWLINE] ++ dump_items items
         end.
Proof.
  destruct items; cbn [dump_items]; [rewrite List.app_nil_r|]; reflexivity.
Qed.

(** The items of a dumped dict, read back one after the other. *)
Lemma parse_members_dump (room : nat) (items : list (string * Z)) :
  forall (kv : string * Z) (acc : list (str * json)) (fuel : nat) (tail : str),
    forallb (fun kv => plain (py (fst kv))) (kv :: items) = true ->
    Forall (fun kv => printable (snd kv)) (kv :: items) ->
    parse_members (S (S (length items + fuel))) room
      (member_text kv
         ++ match items with
            | [] => []
            | _ :: _ => py "," ++ [NEWLINE] ++ dump_items items
            end
         ++ [NEWLINE; 125%N] ++ tail)
      acc
    = POk (JObject (dict_of_pairs (rev acc ++ map member_value (kv :: items)))) tail.
Proof.
  induction items as [|kv' items IH]; intros kv acc fuel tail Hp Hz;
    cbn [forallb] in Hp; apply andb_prop in Hp; destruct Hp as [Hk Hrest];
    inversion Hz as [|? ? Hz1 Hzrest]; subst.
  - cbn [app length Nat.add].
    rewrite parse_members_int by (try exact Hk; try exact Hz1; reflexivity).
    cbn [skip_ws]. change (is_json_ws NEWLINE) with true. cbv iota.
    change (is_json_ws 125) with false. cbv iota.
    change (125 =? 125)%N with true. cbv iota.
    cbn [rev map]. reflexivity.
  - cbv beta iota. rewrite dump_items_cons.
    change (dump_item kv') with (py "  " ++ member_text kv').
    rewrite <- !List.app_assoc.
    rewrite parse_members_int by (try exact Hk; try exact Hz1; reflexivity).
    change (parse_members (S (S (length items + fuel))) room
              (member_text kv'
                 ++ match items with
                    | [] => []
                    | _ :: _ => py "," ++ [NEWLINE] ++ dump_items items
                    end ++ [NEWLINE; 125%N] ++ tail)
              (member_value kv :: acc)
            = POk (JObject (dict_of_pairs
                              (rev acc ++ map member_value (kv :: kv' :: items))))
                  tail).
    rewrite (IH kv' (member_value kv :: acc) fuel tail Hrest Hzrest).
    cbn [rev map]. rewrite <- List.app_assoc. reflexivity.
Qed.

Lemma dump_items_length (items : list (string * Z)) :
  (length items <= length (dump_items items))%nat.
Proof.
  induction items as [|kv items IH]; [cbn; lia|].
  rewrite dump_items_cons. unfold dump_item.
  rewrite !length_app. cbn [length py list_ascii_of_string map].
  destruct items as [|kv' items]; [cbn [length]; lia|].
  rewrite !length_app. cbn [length py list_ascii_of_string map] in IH |- *.
  lia.
Qed.

(** [json.loads] reads a dumped dict of integers back. *)
Lemma json_loads_dump (spare : nat) (kv : string * Z) (items : list (string * Z)) :
  forallb (fun kv => plain (py (fst kv))) (kv :: items) = true ->
  Forall (fun kv => printable (snd kv)) (kv :: items) ->
  json_loads spare (dump_int_dict (kv :: items))
  = Ret (JObject (dict_of_pairs (map member_value (kv :: items)))).
Proof.
  intros Hp Hz.
  assert (Hfuel : exists k,
             loads_fuel (dump_int_dict (kv :: items))
             = S (S (S (length items + k)))).
  { unfold loads_fuel, dump_int_dict.
    pose proof (dump_items_length (kv :: items)) as Hl.
    rewrite !length_app. cbn [length py list_ascii_of_string map] in Hl |- *.
    exists (2 * (1 + (1 + (length (dump_items (kv :: items)) + (1 + 1)))) + 2
            - (3 + length items))%nat.
    lia. }
  destruct Hfuel as [k Hk].
  unfold json_loads. rewrite Hk. clear Hk.
  unfold dump_int_dict. rewrite dump_items_cons.
  change (dump_item kv) with (py "  " ++ member_text kv).
  rewrite <- !List.app_assoc.
  change (py "{" ++ [NEWLINE] ++ py "  " ++ member_text kv
            ++ match items with
               | [] => []
               | _ :: _ => py "," ++ [NEWLINE] ++ dump_items items
               end ++ [NEWLINE] ++ py "}")
    with (123%N :: NEWLINE :: 32%N :: 32%N ::
            (member_text kv
               ++ match items with
                  | [] => []
                  | _ :: _ => py "," ++ [NEWLINE] ++ dump_items items
                  end ++ [NEWLINE; 125%N] ++ [])).
  change (123 =? BOM)%N with false. cbv iota.
  cbn [skip_ws]. change (is_json_ws 123) with false. cbv iota.
  cbn [parse_value].
  change (123 =? 34)%N with false. change (123 =? 123)%N with true. cbv iota.
  change (skip_ws (NEWLINE :: 32%N :: 32%N ::
                     (member_text kv
                        ++ match items with
                           | [] => []
                           | _ :: _ => py "," ++ [NEWLINE] ++ dump_items items
                           end ++ [NEWLINE; 125%N] ++ [])))
    with (34%N :: (py (fst kv) ++ [34%N] ++ py ": " ++ str_of_int (snd kv))
                 ++ match items with
                    | [] => []
                    | _ :: _ => py "," ++ [NEWLINE] ++ dump_items items
                    end ++ [NEWLINE; 125%N] ++ []).
  change (34 =? 125)%N with false. cbv iota.
  change (34%N :: (py (fst kv) ++ [34%N] ++ py ": " ++ str_of_int (snd kv))
                 ++ match items with
                    | [] => []
                    | _ :: _ => py "," ++ [NEWLINE] ++ dump_items items
                    end ++ [NEWLINE; 125%N] ++ [])
    with (member_text kv
            ++ match items with
               | [] => []
               | _ :: _ => py "," ++ [NEWLINE] ++ dump_items items
               end ++ [NEWLINE; 125%N] ++ []).
  rewrite (parse_members_dump spare items kv [] k [] Hp Hz).
  reflexivity.
Qed.

Lemma progress_items_dict (data : ProgressData Z) :
  dict_of_pairs (map member_value (progress_items data))
  = [ (py "xp", JInt (pd_xp data));
      (py "level", JInt (pd_level data));
      (py "last_topic_index", JInt (pd_last_topic_index data));
      (py "missions_completed", JInt (pd_missions_completed data)) ].
Proof. reflexivity. Qed.

(** C7. Saving a record of the four counters and loading it back, the
    write having succeeded and the file being left alone in between, yields
    that record: [load_progress] returns the four values saved, whatever the
    manager held before.  The write succeeds when the file can be opened for
    writing and [json.dump] agrees to print the four integers, none of which
    may have more than 4300 digits. *)
Theorem save_then_load_roundtrip (spare : nat) (data : ProgressData Z)
    (pm : ProgressManager.t) (fs : disk) :
  writable fs = true ->
  printable_counters data ->
  ProgressManager.load_progress spare pm (ProgressManager.save_progress data fs)
  = (Ret (progress_map JInt data),
     ProgressManager.mk (JInt (pd_xp data)) (JInt (pd_level data))
                        (JInt (pd_last_topic_index data))
                        (JInt (pd_missions_completed data))).
Proof.
  intros Hw [Hx [Hl [Hi Hm]]]. unfold ProgressManager.save_progress. rewrite Hw.
  unfold ProgressManager.load_progress. cbn [progress_file].
  unfold progress_items at 1.
  rewrite json_loads_dump
    by (try reflexivity; repeat (constructor; [assumption|]); constructor).
  change (map member_value
            [("xp"%string, pd_xp data); ("level"%string, pd_level data);
             ("last_topic_index"%string, pd_last_topic_index data);
             ("missions_completed"%string, pd_missions_completed data)])
    with (map member_value (progress_items data)).
  rewrite progress_items_dict.
  reflexivity.
Qed.

Lemma save_then_load_roundtrip_witness :
  fst (ProgressManager.load_progress 0 ProgressManager.init
         (ProgressManager.save_progress (mkProgress 1250 4 8 17) (mkDisk Absent true)))
  = Ret (mkProgress (JInt 1250) (JInt 4) (JInt 8) (JInt 17)).
Proof.
  rewrite (save_then_load_roundtrip 0 (mkProgress 1250 4 8 17) ProgressManager.init
             (mkDisk Absent true) eq_refl
             ltac:(unfold printable_counters, printable; cbn; unfold MAX_STR_DIGITS;
                   repeat split; lia)).
  reflexivity.
Defined.

End ProgressFile.

(** ** The decoder never runs out of budget *)

Section DecoderBudget.

Lemma skip_ws_length (s : str) : (length (skip_ws s) <= length s)%nat.
Proof.
  induction s as [|c s IH]; cbn [skip_ws]; [lia|].
  destruct (is_json_ws c); cbn [length]; lia.
Qed.

Lemma strip_prefix_length (p s r : str) :
  strip_prefix p s = Some r -> (length r + length p = length s)%nat.
Proof.
  revert s. induction p as [|x p IH]; intros s H; cbn [strip_prefix] in H.
  - injection H as <-. cbn. lia.
  - destruct s as [|y s]; [discriminate H|].
    destruct (x =? y)%N; [|discriminate H].
    apply IH in H. cbn [length]. lia.
Qed.

Lemma span_digits_length (s ds r : str) :
  span_digits s = (ds, r) -> (length ds + length r = length s)%nat.
Proof.
  revert ds r. induction s as [|c s IH]; intros ds r H; cbn [span_digits] in H.
  - injection H as <- <-. reflexivity.
  - destruct (is_digit c).
    + destruct (span_digits s) as [ds' r'] eqn:E.
      injection H as <- <-. specialize (IH ds' r' eq_refl). cbn [length]. lia.
    + injection H as <- <-. reflexivity.
Qed.

Lemma scan_frac_length (s f r : str) :
  scan_frac s = (f, r) -> (length r <= length s)%nat.
Proof.
  unfold scan_frac. destruct s as [|c s]; [intros H; injection H as <- <-; lia|].
  destruct (c =? 46)%N; [|intros H; injection H as <- <-; lia].
  destruct (span_digits s) as [ds r'] eqn:E. apply span_digits_length in E.
  destruct ds; intros H; injection H as <- <-; cbn [length] in *; lia.
Qed.

Lemma scan_exp_length (s e r : str) :
  scan_exp s = (e, r) -> (length r <= length s)%nat.
Proof.
  unfold scan_exp. destruct s as [|c s]; [intros H; injection H as <- <-; lia|].
  destruct ((c =? 101) || (c =? 69))%N; [|intros H; injection H as <- <-; lia].
  destruct s as [|g s1]; [intros H; injection H as <- <-; lia|].
  destruct ((g =? 45) || (g =? 43))%N.
  - destruct (span_digits s1) as [ds r'] eqn:E. apply span_digits_length in E.
    destruct ds; intros H; injection H as <- <-; cbn [length] in *; lia.
  - destruct (span_digits (g :: s1)) as [ds r'] eqn:E. apply span_digits_length in E.
    destruct ds; intros H; injection H as <- <-; cbn [length] in *; lia.
Qed.

Lemma scan_number_length (s : str) (v : json) (r : str) :
  scan_number s = POk v r -> (length r < length s)%nat.
Proof.
  unfold scan_number.
  set (nr := match s with
             | [] => (false, s)
             | c :: r0 => if (c =? 45)%N then (true, r0) else (false, s)
             end).
  assert (Hnr : (length (snd nr) <= length s)%nat).
  { subst nr. destruct s as [|c r0]; [cbn; lia|].
    destruct (c =? 45)%N; cbn [snd length]; lia. }
  destruct nr as [neg r0]. cbn [snd] in Hnr.
  unfold scan_int_part.
  destruct r0 as [|c r1]; [discriminate|].
  assert (Hi : forall ip r2,
             (if (c =? 48)%N then Some ([c], r1)
              else if is_digit c
                   then let (ds, r') := span_digits r1 in Some (c :: ds, r')
                   else None) = Some (ip, r2) ->
             (length r2 < length (c :: r1))%nat).
  { intros ip r2 H. destruct (c =? 48)%N.
    - injection H as <- <-. cbn [length]. lia.
    - destruct (is_digit c); [|discriminate H].
      destruct (span_digits r1) as [ds r'] eqn:E. apply span_digits_length in E.
      injection H as <- <-. cbn [length]. lia. }
  destruct (if (c =? 48)%N then _ else _) as [[ip r2]|]; [|discriminate].
  specialize (Hi ip r2 eq_refl).
  destruct (scan_frac r2) as [fr r3] eqn:Ef. apply scan_frac_length in Ef.
  destruct (scan_exp r3) as [ex r4] eqn:Ee. apply scan_exp_length in Ee.
  intros H.
  assert (r = r4).
  { destruct fr, ex; try (destruct (_ <? _)%nat; [discriminate H|]);
      injection H as _ <-; reflexivity. }
  subst r. lia.
Qed.

Lemma scan_number_budget (s : str) : scan_number s <> PFuel.
Proof.
  unfold scan_number.
  repeat match goal with
         | |- context [match ?x with _ => _ end] => destruct x
         | |- context [if ?x then _ else _] => destruct x
         end; discriminate.
Qed.

Lemma scan_atom_length (s : str) (v : json) (r : str) :
  scan_atom s = POk v r -> (length r < length s)%nat.
Proof.
  unfold scan_atom.
  repeat match goal with
         | |- context [strip_prefix ?p s] =>
             let E := fresh "E" in
             destruct (strip_prefix p s) eqn:E;
             [ apply strip_prefix_length in E; cbn [length py list_ascii_of_string map] in E;
               intros H; injection H as _ <-; lia | clear E ]
         | |- context [scan_number s] =>
             let E := fresh "E" in
             destruct (scan_number s) as [v' r'| |e|] eqn:E;
             [ apply scan_number_length in E; intros H; injection H as _ <-; exact E
             | clear E | discriminate | discriminate ]
         end.
  discriminate.
Qed.

Lemma scan_atom_budget (s : str) : scan_atom s <> PFuel.
Proof.
  unfold scan_atom. pose proof (scan_number_budget s) as Hn.
  destruct (strip_prefix (py "null") s); [discriminate|].
  destruct (strip_prefix (py "true") s); [discriminate|].
  destruct (strip_prefix (py "false") s); [discriminate|].
  destruct (scan_number s); try discriminate; [|congruence].
  destruct (strip_prefix (py "NaN") s); [discriminate|].
  destruct (strip_prefix (py "Infinity") s); [discriminate|].
  destruct (strip_prefix (py "-Infinity") s); discriminate.
Qed.

Lemma scanstring_length (s : str) :
  forall pend acc x r,
    scanstring s pend acc = POk x r -> (length r < length s)%nat.
Proof.
  assert (G : forall n s, (length s <= n)%nat ->
                forall pend acc x r,
                  scanstring s pend acc = POk x r -> (length r < length s)%nat);
    [|intros; eapply (G (length s)); eauto].
  clear s. induction n as [|n IHn]; intros s Hn pend acc x r H;
    (destruct s as [|c s]; [discriminate H|]); [cbn [length] in Hn; lia|].
  assert (IH : forall y, (length y < length (c :: s))%nat ->
                 forall pend acc x r,
                   scanstring y pend acc = POk x r -> (length r < length y)%nat)
    by (intros y Hy; apply IHn; cbn [length] in *; lia).
  clear IHn Hn.
  cbn [scanstring] in H.
  destruct (c =? 34)%N; [injection H as _ <-; cbn [length]; lia|].
  destruct (c =? 92)%N.
  - destruct s as [|e r1]; [discriminate H|].
    destruct (e =? 117)%N.
    + destruct r1 as [|h1 [|h2 [|h3 [|h4 r2]]]]; try discriminate H.
      destruct (hex4 h1 h2 h3 h4); [|discriminate H].
      assert (Hlt : (length r2 < length (c :: e :: h1 :: h2 :: h3 :: h4 :: r2))%nat)
        by (cbn [length]; lia).
      destruct pend;
        repeat match type of H with
               | (if ?b then _ else _) = _ => destruct b
               end;
        apply (IH r2 Hlt) in H; cbn [length] in *; lia.
    + destruct (unescape e); [|discriminate H].
      assert (Hlt : (length r1 < length (c :: e :: r1))%nat) by (cbn [length]; lia).
      apply (IH r1 Hlt) in H. cbn [length]. lia.
  - destruct (c <? 32)%N; [discriminate H|].
    assert (Hlt : (length s < length (c :: s))%nat) by (cbn [length]; lia).
    apply (IH s Hlt) in H. cbn [length]. lia.
Qed.

Lemma scanstring_budget (s : str) :
  forall pend acc, scanstring s pend acc <> PFuel.
Proof.
  assert (G : forall n s, (length s <= n)%nat ->
                forall pend acc, scanstring s pend acc <> PFuel);
    [|intros; eapply (G (length s)); eauto].
  clear s. induction n as [|n IHn]; intros s Hn pend acc;
    (destruct s as [|c s]; [discriminate|]); [cbn [length] in Hn; lia|].
  assert (IH : forall y, (length y < length (c :: s))%nat ->
                 forall pend acc, scanstring y pend acc <> PFuel)
    by (intros y Hy; apply IHn; cbn [length] in *; lia).
  clear IHn Hn.
  cbn [scanstring].
  destruct (c =? 34)%N; [discriminate|].
  destruct (c =? 92)%N.
  - destruct s as [|e r1]; [discriminate|].
    destruct (e =? 117)%N.
    + destruct r1 as [|h1 [|h2 [|h3 [|h4 r2]]]]; try discriminate.
      destruct (hex4 h1 h2 h3 h4); [|discriminate].
      assert (Hlt : (length r2 < length (c :: e :: h1 :: h2 :: h3 :: h4 :: r2))%nat)
        by (cbn [length]; lia).
      destruct pend;
        repeat match goal with
               | |- (if ?b then _ else _) <> _ => destruct b
               end;
        apply (IH r2 Hlt).
    + destruct (unescape e); [|discriminate].
      apply IH. cbn [length]. lia.
  - destruct (c <? 32)%N; [discriminate|].
    apply IH. cbn [length]. lia.
Qed.

Lemma skip_ws_cons_length (s : str) (c : N) (r : str) :
  skip_ws s = c :: r -> (length r < length s)%nat.
Proof.
  intros H. pose proof (skip_ws_length s) as Hl. rewrite H in Hl.
  cbn [length] in Hl. lia.
Qed.

Lemma within_budget_err (s : str) : within_budget PErr s.
Proof. split; [discriminate | intros v r H; discriminate H]. Qed.

Lemma within_budget_raise (e : exn) (s : str) : within_budget (PRaise e) s.
Proof. split; [discriminate | intros v r H; discriminate H]. Qed.

Lemma within_budget_ok (v : json) (r s : str) :
  (length r < length s)%nat -> within_budget (POk v r) s.
Proof.
  intros H. split; [discriminate|].
  intros v' r' E. injection E as _ <-. exact H.
Qed.

Lemma within_budget_shorter (res : parsed json) (s s' : str) :
  within_budget res s -> (length s <= length s')%nat -> within_budget res s'.
Proof.
  intros [H1 H2] Hl. split; [exact H1|].
  intros v r E. specialize (H2 v r E). lia.
Qed.

Lemma parse_budget (n : nat) :
  (forall room s, (2 * length s < n)%nat -> within_budget (parse_value n room s) s)
  /\ (forall room s acc, (2 * length s + 1 < n)%nat ->
                         within_budget (parse_elements n room s acc) s)
  /\ (forall room s acc, (2 * length s < n)%nat ->
                         within_budget (parse_members n room s acc) s).
Proof.
  induction n as [|n [IHv [IHe IHm]]].
  - repeat split; intros; lia.
  - split; [|split].
    + (* parse_value *)
      intros room s Hn. destruct s as [|c r]; [apply within_budget_err|].
      cbn [parse_value]. cbn [length] in Hn.
      destruct (c =? 34)%N.
      { destruct (scanstring r None []) as [x r'| |e|] eqn:E.
        - apply scanstring_length in E. apply within_budget_ok. cbn [length]. lia.
        - apply within_budget_err.
        - apply within_budget_raise.
        - exfalso. exact (scanstring_budget r None [] E). }
      destruct (c =? 123)%N.
      { destruct room as [|room']; [apply within_budget_raise|].
        destruct (skip_ws r) as [|c1 r1] eqn:E; [apply within_budget_err|].
        pose proof (skip_ws_length r) as Hl. rewrite E in Hl.
        destruct (c1 =? 125)%N.
        - apply within_budget_ok. cbn [length] in *. lia.
        - apply within_budget_shorter with (s := c1 :: r1);
            [apply IHm | ]; cbn [length] in *; lia. }
      destruct (c =? 91)%N.
      { destruct room as [|room']; [apply within_budget_raise|].
        destruct (skip_ws r) as [|c1 r1] eqn:E; [apply within_budget_err|].
        pose proof (skip_ws_length r) as Hl. rewrite E in Hl.
        destruct (c1 =? 93)%N.
        - apply within_budget_ok. cbn [length] in *. lia.
        - apply within_budget_shorter with (s := c1 :: r1);
            [apply IHe | ]; cbn [length] in *; lia. }
      split; [apply scan_atom_budget | apply scan_atom_length].
    + (* parse_elements *)
      intros room s acc Hn. cbn [parse_elements].
      destruct (IHv room s ltac:(lia)) as [Hf Hl].
      destruct (parse_value n room s) as [v r| |e|] eqn:E;
        [|apply within_budget_err | apply within_budget_raise | congruence].
      specialize (Hl v r eq_refl).
      destruct (skip_ws r) as [|c r'] eqn:Er; [apply within_budget_err|].
      apply skip_ws_cons_length in Er.
      destruct (c =? 93)%N; [apply within_budget_ok; lia|].
      destruct (c =? 44)%N; [|apply within_budget_err].
      pose proof (skip_ws_length r') as Hs.
      apply within_budget_shorter with (s := skip_ws r'); [apply IHe|]; lia.
    + (* parse_members *)
      intros room s acc Hn. rewrite parse_members_eq.
      destruct s as [|c r]; [apply within_budget_err|]. cbn [length] in Hn.
      destruct (c =? 34)%N; [|apply within_budget_err].
      destruct (scanstring r None []) as [k r1| |e|] eqn:E;
        [|apply within_budget_err | apply within_budget_raise
         |exfalso; exact (scanstring_budget r None [] E)].
      apply scanstring_length in E.
      destruct (skip_ws r1) as [|c2 r2] eqn:E1; [apply within_budget_err|].
      apply skip_ws_cons_length in E1.
      destruct (c2 =? 58)%N; [|apply within_budget_err].
      pose proof (skip_ws_length r2) as Hs2.
      destruct (IHv room (skip_ws r2) ltac:(lia)) as [Hf Hl].
      destruct (parse_value n room (skip_ws r2)) as [v r3| |e|] eqn:E3;
        [|apply within_budget_err | apply within_budget_raise | congruence].
      specialize (Hl v r3 eq_refl).
      destruct (skip_ws r3) as [|c4 r4] eqn:E4; [apply within_budget_err|].
      apply skip_ws_cons_length in E4.
      destruct (c4 =? 125)%N; [apply within_budget_ok; cbn [length]; lia|].
      destruct (c4 =? 44)%N; [|apply within_budget_err].
      pose proof (skip_ws_length r4) as Hs4.
      apply within_budget_shorter with (s := skip_ws r4);
        [apply IHm|]; cbn [length]; lia.
Qed.

(** The budget [json_loads] hands out is always enough: when it answers
    [JSONDecodeError], the text is not JSON. *)
Theorem json_loads_budget (spare : nat) (s : str) :
  parse_value (loads_fuel s) (S spare) (skip_ws s) <> PFuel.
Proof.
  destruct (parse_budget (loads_fuel s)) as [Hv _].
  pose proof (skip_ws_length s) as Hl.
  apply (Hv (S spare) (skip_ws s)). unfold loads_fuel. lia.
Qed.

End DecoderBudget.

(** ** Loading the progress file *)

Section Loading.

Import ProgressManager.

(** What [load_progress] guards against, for a manager as constructed: with
    no file, a file that cannot be opened or a file that is not JSON it
    returns the defaults; with a JSON object it returns the fields of the
    object, each missing one replaced by its default.  In none of these
    cases does it raise. *)
Lemma load_progress_fallbacks (spare : nat) (w : bool) :
  load_progress spare init (mkDisk Absent w)
    = (Ret (mkProgress (JInt 0) (JInt 1) (JInt (-1)) (JInt 0)), init)
  /\ load_progress spare init (mkDisk Unreadable w)
    = (Ret (mkProgress (JInt 0) (JInt 1) (JInt (-1)) (JInt 0)), init)
  /\ (forall text,
         json_loads spare text = Raise JSONDecodeError ->
         load_progress spare init (mkDisk (Content text) w)
         = (Ret (mkProgress (JInt 0) (JInt 1) (JInt (-1)) (JInt 0)), init))
  /\ (forall text d,
         json_loads spare text = Ret (JObject d) ->
         load_progress spare init (mkDisk (Content text) w)
         = (Ret (mkProgress (loaded_field d "xp" 0) (loaded_field d "level" 1)
                            (loaded_field d "last_topic_index" (-1))
                            (loaded_field d "missions_completed" 0)),
            mk (loaded_field d "xp" 0) (loaded_field d "level" 1)
               (loaded_field d "last_topic_index" (-1))
               (loaded_field d "missions_completed" 0))).
Proof.
  split; [reflexivity|]. split; [reflexivity|]. split.
  - intros text H. unfold load_progress. cbn [progress_file]. rewrite H. reflexivity.
  - intros text d H. unfold load_progress. cbn [progress_file]. rewrite H.
    unfold py_get, loaded_field.
    destruct (dict_get d (py "xp")), (dict_get d (py "level")),
             (dict_get d (py "last_topic_index")),
             (dict_get d (py "missions_completed")); reflexivity.
Qed.

(** A file that holds JSON other than an object makes [load_progress]
    raise: the value has no [get] method, and [AttributeError] is not among
    the exceptions caught. *)
Lemma load_progress_non_object (spare : nat) (pm : t) (w : bool) (text : str)
    (v : json) :
  json_loads spare text = Ret v ->
  (forall d, v <> JObject d) ->
  load_progress spare pm (mkDisk (Content text) w) = (Raise AttributeError, pm).
Proof.
  intros H Hv. unfold load_progress. cbn [progress_file]. rewrite H.
  destruct v; try reflexivity. exfalso. exact (Hv d eq_refl).
Qed.

(** C8 fails on the code: [load_progress] is not total.  On a progress file
    that holds the JSON array [[]], a manager as constructed raises
    [AttributeError] and returns nothing. *)
Theorem load_progress_raises_on_json_array (spare : nat) :
  json_loads spare (py "[]") = Ret (JArray [])
  /\ load_progress spare init (mkDisk (Content (py "[]")) true)
     = (Raise AttributeError, init).
Proof. split; vm_compute; reflexivity. Qed.

End Loading.

(** ** JSON texts and what the decoder makes of them *)

Section WrittenJson.

Lemma str_eqb_eq (x y : str) : str_eqb x y = true -> x = y.
Proof.
  revert y. induction x as [|c x IH]; intros [|d y] H; cbn [str_eqb] in H;
    try discriminate H; [reflexivity|].
  apply andb_prop in H. destruct H as [Hc Hx].
  apply N.eqb_eq in Hc. subst d. f_equal. apply IH. exact Hx.
Qed.

Lemma str_eqb_refl (x : str) : str_eqb x x = true.
Proof.
  induction x as [|c x IH]; cbn [str_eqb]; [reflexivity|].
  rewrite N.eqb_refl. exact IH.
Qed.

(** *** Escapes *)

Lemma hexval_hex_digit (upper : bool) (n : N) :
  (n < 16)%N -> hexval (hex_digit upper n) = Some n.
Proof.
  intros H.
  assert (E : In n [0; 1; 2; 3; 4; 5; 6; 7; 8; 9; 10; 11; 12; 13; 14; 15]%N).
  { destruct n as [|p]; [left; reflexivity|].
    do 4 (try (destruct p as [p|p|])); try lia; cbn; tauto. }
  cbn [In] in E.
  repeat (destruct E as [<- | E]; [destruct upper; reflexivity|]).
  destruct E.
Qed.

Lemma hex4_hex_digits (upper : nat -> bool) (u : N) :
  (u < 65536)%N ->
  match hex_digits upper u with
  | [a; b; c; d] => hex4 a b c d = Some u
  | _ => False
  end.
Proof.
  intros H. unfold hex_digits, hex4.
  rewrite !hexval_hex_digit
    by (try (apply N.mod_lt; discriminate);
        apply N.Div0.div_lt_upper_bound; exact H).
  f_equal.
  pose proof (N.div_mod u 16 ltac:(discriminate)) as E1.
  pose proof (N.div_mod (u / 16) 16 ltac:(discriminate)) as E2.
  pose proof (N.div_mod (u / 256) 16 ltac:(discriminate)) as E3.
  rewrite N.Div0.div_div in E2. change (16 * 16)%N with 256%N in E2.
  rewrite N.Div0.div_div in E3. change (256 * 16)%N with 4096%N in E3.
  lia.
Qed.

Lemma scanstring_character (c : char) (r : str) (pend : option N) (acc : str) :
  (negb (c =? 34) && negb (c =? 92) && (32 <=? c))%N = true ->
  scanstring (c :: r) pend acc = scanstring r None (c :: flush pend acc).
Proof.
  intros H. apply andb_prop in H. destruct H as [H H32].
  apply andb_prop in H. destruct H as [H34 H92].
  apply negb_true_iff in H34, H92. apply N.leb_le in H32.
  cbn [scanstring]. rewrite H34, H92.
  replace (c <? 32)%N with false by (symmetry; apply N.ltb_ge; exact H32).
  reflexivity.
Qed.

Lemma scanstring_escaped (e : escape) (r : str) (pend : option N) (acc : str) :
  scanstring (92%N :: escape_letter e :: r) pend acc
  = scanstring r None (escape_char e :: flush pend acc).
Proof. destruct e; reflexivity. Qed.

Lemma scanstring_unicode (upper : nat -> bool) (u : N) (r : str)
    (pend : option N) (acc : str) :
  (u < 65536)%N ->
  scanstring ([92; 117]%N ++ hex_digits upper u ++ r) pend acc
  = match pend with
    | Some hi =>
        if is_low_surrogate u then scanstring r None (join_surrogates hi u :: acc)
        else if is_high_surrogate u then scanstring r (Some u) (hi :: acc)
        else scanstring r None (u :: hi :: acc)
    | None =>
        if is_high_surrogate u then scanstring r (Some u) acc
        else scanstring r None (u :: acc)
    end.
Proof.
  intros H. pose proof (hex4_hex_digits upper u H) as E.
  unfold hex_digits in *. cbn [app scanstring].
  change (92 =? 34)%N with false. change (92 =? 92)%N with true.
  change (117 =? 117)%N with true. cbv iota. rewrite E. reflexivity.
Qed.

(** A string literal is read as the characters it spells, whatever was
    read before. *)
Lemma scanstring_spelled (ps : list spelling) :
  forall (pend : option N) (acc rest : str),
    spellings_ok ps = true ->
    match pend with
    | Some _ => splits_pair (Unicode (fun _ => false) 55296) ps = false
    | None => True
    end ->
    scanstring (concat (map spelling_text ps) ++ 34%N :: rest) pend acc
    = POk (rev (flush pend acc) ++ literal_value ps) rest.
Proof.
  induction ps as [|p ps IH]; intros pend acc rest Hok Hp.
  - cbn [map concat app scanstring literal_value].
    change (34 =? 34)%N with true. cbv iota. rewrite List.app_nil_r. reflexivity.
  - cbn [spellings_ok] in Hok.
    apply andb_prop in Hok. destruct Hok as [Hok Hps].
    apply andb_prop in Hok. destruct Hok as [Hp1 Hsp].
    apply negb_true_iff in Hsp.
    cbn [map concat literal_value]. rewrite <- List.app_assoc.
    destruct p as [c|e|upper u|uh ul c]; cbn [spelling_text spelling_char spelling_ok] in *.
    + cbn [app]. rewrite (scanstring_character c _ pend acc Hp1).
      rewrite (IH None _ rest Hps I). cbn [flush rev].
      rewrite <- List.app_assoc. reflexivity.
    + cbn [app]. rewrite scanstring_escaped.
      rewrite (IH None _ rest Hps I). cbn [flush rev].
      rewrite <- List.app_assoc. reflexivity.
    + apply N.ltb_lt in Hp1.
      rewrite <- List.app_assoc.
      rewrite (scanstring_unicode upper u _ pend acc Hp1).
      assert (Hnext : is_high_surrogate u = true ->
                      splits_pair (Unicode (fun _ => false) 55296) ps = false).
      { intros Hh. unfold splits_pair in Hsp |- *.
        destruct ps as [|[| |up' u'|] ps']; try reflexivity.
        unfold is_high_surrogate in Hh. rewrite Hh in Hsp. cbn [andb] in Hsp |- *.
        exact Hsp. }
      destruct pend as [hi|].
      * assert (Hl : is_low_surrogate u = false).
        { unfold splits_pair in Hp. unfold is_low_surrogate.
          cbn in Hp. exact Hp. }
        rewrite Hl. destruct (is_high_surrogate u) eqn:Hh.
        -- rewrite (IH (Some u) _ rest Hps (Hnext eq_refl)).
           cbn [flush rev]. rewrite <- !List.app_assoc. reflexivity.
        -- rewrite (IH None _ rest Hps I).
           cbn [flush rev]. rewrite <- !List.app_assoc. reflexivity.
      * destruct (is_high_surrogate u) eqn:Hh.
        -- rewrite (IH (Some u) _ rest Hps (Hnext eq_refl)).
           cbn [flush rev]. rewrite <- !List.app_assoc. reflexivity.
        -- rewrite (IH None _ rest Hps I).
           cbn [flush rev]. rewrite <- !List.app_assoc. reflexivity.
    + apply andb_prop in Hp1. destruct Hp1 as [Hlo Hhi].
      apply N.leb_le in Hlo. apply N.ltb_lt in Hhi.
      pose proof (N.div_mod (c - 65536) 1024 ltac:(discriminate)) as Hd.
      assert (Hq : ((c - 65536) / 1024 < 1024)%N)
        by (apply N.Div0.div_lt_upper_bound; lia).
      assert (Hr : ((c - 65536) mod 1024 < 1024)%N)
        by (apply N.mod_lt; discriminate).
      remember ((c - 65536) / 1024)%N as q eqn:Eq.
      remember ((c - 65536) mod 1024)%N as r eqn:Er.
      clear Eq Er.
      set (h := (55296 + q)%N).
      set (l := (56320 + r)%N).
      assert (Hh1 : is_high_surrogate h = true).
      { unfold is_high_surrogate, h. apply andb_true_intro.
        split; apply N.leb_le; lia. }
      assert (Hh2 : is_low_surrogate h = false).
      { unfold is_low_surrogate, h. apply andb_false_intro1.
        apply N.leb_gt. lia. }
      assert (Hl1 : is_low_surrogate l = true).
      { unfold is_low_surrogate, l. apply andb_true_intro.
        split; apply N.leb_le; lia. }
      assert (Hj : join_surrogates h l = c).
      { unfold join_surrogates, h, l. lia. }
      rewrite <- !List.app_assoc.
      rewrite (scanstring_unicode uh h _ pend acc ltac:(unfold h; lia)).
      rewrite Hh1, Hh2.
      replace (match pend with
               | Some hi => scanstring
                              ([92%N; 117%N] ++ hex_digits ul l
                               ++ concat (map spelling_text ps) ++ 34%N :: rest)
                              (Some h) (hi :: acc)
               | None => scanstring
                           ([92%N; 117%N] ++ hex_digits ul l
                            ++ concat (map spelling_text ps) ++ 34%N :: rest)
                           (Some h) acc
               end)
        with (scanstring ([92%N; 117%N] ++ hex_digits ul l
                          ++ concat (map spelling_text ps) ++ 34%N :: rest)
                         (Some h) (flush pend acc))
        by (destruct pend; reflexivity).
      rewrite (scanstring_unicode ul l _ (Some h) _ ltac:(unfold l; lia)).
      rewrite Hl1, Hj. rewrite (IH None _ rest Hps I).
      cbn [flush rev]. rewrite <- !List.app_assoc. reflexivity.
Qed.

Lemma scanstring_literal (ps : list spelling) (rest : str) :
  spellings_ok ps = true ->
  scanstring (concat (map spelling_text ps) ++ 34%N :: rest) None []
  = POk (literal_value ps) rest.
Proof.
  intros H. exact (scanstring_spelled ps None [] rest H I).
Qed.

(** *** Numbers *)

Lemma digit_cases (c : char) :
  is_digit c = true ->
  In c [48; 49; 50; 51; 52; 53; 54; 55; 56; 57]%N.
Proof.
  unfold is_digit. intros H. apply andb_prop in H. destruct H as [Hlo Hhi].
  apply N.leb_le in Hlo, Hhi. cbn [In].
  assert (E : (c = 48 \/ c = 49 \/ c = 50 \/ c = 51 \/ c = 52 \/ c = 53
               \/ c = 54 \/ c = 55 \/ c = 56 \/ c = 57)%N) by lia.
  intuition (subst; auto).
Qed.

Lemma of_uint_acc_value (ds : str) :
  forall p : positive,
    forallb is_digit ds = true ->
    Z.pos (Pos.of_uint_acc (uint_of_digits ds) p)
    = fold_left (fun n c => 10 * n + Z.of_N (c - 48)) ds (Z.pos p).
Proof.
  induction ds as [|c ds IH]; intros p H; [reflexivity|].
  cbn [forallb] in H. apply andb_prop in H. destruct H as [Hc Hds].
  apply digit_cases in Hc. cbn [In] in Hc. cbn [fold_left uint_of_digits].
  repeat (destruct Hc as [<- | Hc];
          [cbn [cons_digit N.sub Pos.sub_mask Pos.succ_double_mask
                Pos.double_mask Pos.pred_double Pos.of_uint_acc];
           rewrite (IH _ Hds); f_equal; lia|]).
  destruct Hc.
Qed.

(** [int] reads a run of digits as the number it stands for in base ten. *)
Lemma int_of_digits_value (ds : str) :
  forallb is_digit ds = true -> int_of_digits ds = digits_value ds.
Proof.
  unfold int_of_digits, digits_value, N.of_uint.
  induction ds as [|c ds IH]; intros H; [reflexivity|].
  cbn [forallb] in H. apply andb_prop in H. destruct H as [Hc Hds].
  apply digit_cases in Hc. cbn [In] in Hc. cbn [fold_left uint_of_digits].
  destruct Hc as [<- | Hc]; [exact (IH Hds)|].
  repeat (destruct Hc as [<- | Hc];
          [cbn [cons_digit N.sub Pos.sub_mask Pos.succ_double_mask
                Pos.double_mask Pos.pred_double Pos.of_uint Z.of_N];
           rewrite (of_uint_acc_value ds _ Hds); reflexivity|]).
  destruct Hc.
Qed.

Lemma int_digits_ok_digits (ds : str) :
  int_digits_ok ds = true -> forallb is_digit ds = true.
Proof.
  destruct ds as [|c r]; [discriminate|]. cbn [int_digits_ok forallb].
  destruct (N.eqb_spec c 48) as [->|_].
  - destruct r; [reflexivity | discriminate].
  - intros H. exact H.
Qed.

Lemma some_digits_head (ds : str) :
  some_digits ds = true ->
  exists c r, ds = c :: r /\ is_digit c = true /\ forallb is_digit ds = true.
Proof.
  destruct ds as [|c r]; [discriminate|]. cbn [some_digits].
  intros H. exists c, r. split; [reflexivity|]. split; [|exact H].
  cbn [forallb] in H. apply andb_prop in H. tauto.
Qed.

Lemma span_digits_run (ds rest : str) :
  forallb is_digit ds = true ->
  stops_digits rest = true ->
  span_digits (ds ++ rest) = (ds, rest).
Proof.
  intros Hd Hr. induction ds as [|c ds IH]; cbn [app].
  - destruct rest as [|c rest]; [reflexivity|].
    cbn [span_digits]. cbn [stops_digits] in Hr.
    apply negb_true_iff in Hr. rewrite Hr. reflexivity.
  - cbn [forallb] in Hd. apply andb_prop in Hd. destruct Hd as [Hc Hds].
    cbn [span_digits]. rewrite Hc, (IH Hds). reflexivity.
Qed.

Lemma scan_int_part_run (ds rest : str) :
  int_digits_ok ds = true ->
  stops_digits rest = true ->
  scan_int_part (ds ++ rest) = Some (ds, rest).
Proof.
  intros Hok Hr. destruct ds as [|c r]; [discriminate Hok|].
  cbn [int_digits_ok] in Hok. cbn [app scan_int_part].
  destruct (c =? 48)%N.
  - destruct r; [reflexivity | discriminate Hok].
  - apply andb_prop in Hok. destruct Hok as [Hc Hds].
    rewrite Hc, (span_digits_run r rest Hds Hr). reflexivity.
Qed.

Lemma scan_frac_written (ds rest : str) :
  some_digits ds = true ->
  stops_digits rest = true ->
  scan_frac ([46%N] ++ ds ++ rest) = ([46%N] ++ ds, rest).
Proof.
  intros Hd Hr. destruct (some_digits_head ds Hd) as [c [r [-> [_ Hall]]]].
  cbn [app scan_frac]. change (46 =? 46)%N with true. cbv iota.
  change (c :: r ++ rest) with ((c :: r) ++ rest).
  rewrite (span_digits_run (c :: r) rest Hall Hr). reflexivity.
Qed.

Lemma scan_exp_written (e : exponent) (rest : str) :
  some_digits (exponent_digits e) = true ->
  stops_digits rest = true ->
  scan_exp (exponent_text e ++ rest) = (exponent_text e, rest).
Proof.
  intros Hd Hr. unfold exponent_text.
  destruct (some_digits_head _ Hd) as [c [r [E [Hc Hall]]]].
  assert (Hm : (if upper_e e then 69%N else 101%N) = 69%N
               \/ (if upper_e e then 69%N else 101%N) = 101%N)
    by (destruct (upper_e e); auto).
  remember (if upper_e e then 69%N else 101%N) as m eqn:Em. clear Em.
  assert (Hmark : ((m =? 101) || (m =? 69))%N = true)
    by (destruct Hm as [-> | ->]; reflexivity).
  pose proof (span_digits_run _ rest Hall Hr) as Hs.
  destruct (exponent_sign e); cbn [sign_text app scan_exp]; rewrite Hmark.
  - (* no sign *)
    rewrite E in Hs |- *. cbn [app] in Hs |- *.
    assert (Hg : ((c =? 45) || (c =? 43))%N = false).
    { unfold is_digit in Hc. apply andb_prop in Hc. destruct Hc as [Hlo _].
      apply N.leb_le in Hlo. apply orb_false_intro; apply N.eqb_neq; lia. }
    rewrite Hg, Hs. reflexivity.
  - change ((43 =? 45) || (43 =? 43))%N with true. cbv iota.
    rewrite Hs, E. reflexivity.
  - change ((45 =? 45) || (45 =? 43))%N with true. cbv iota.
    rewrite Hs, E. reflexivity.
Qed.

Lemma scan_frac_skipped (c : char) (r : str) :
  (c =? 46)%N = false -> scan_frac (c :: r) = ([], c :: r).
Proof. intros H. cbn [scan_frac]. rewrite H. reflexivity. Qed.

Lemma ends_number_stops (rest : str) :
  ends_number rest = true -> stops_digits rest = true.
Proof.
  destruct rest as [|c r]; [reflexivity|]. cbn [ends_number stops_digits].
  intros H. apply andb_prop in H. destruct H as [H _].
  apply andb_prop in H. destruct H as [H _].
  apply andb_prop in H. tauto.
Qed.

(** What follows the integer part of a number ends the run of its
    digits. *)
Lemma number_tail_stops (n : number) (rest : str) :
  ends_number rest = true ->
  stops_digits (match fraction n with
                | Some ds => [46%N] ++ ds
                | None => []
                end
                ++ match exponent_part n with
                   | Some e => exponent_text e
                   | None => []
                   end ++ rest) = true.
Proof.
  intros Hr. destruct (fraction n); [reflexivity|].
  destruct (exponent_part n) as [e|].
  - unfold exponent_text. destruct (upper_e e); reflexivity.
  - exact (ends_number_stops rest Hr).
Qed.

Lemma exponent_tail_stops (n : number) (rest : str) :
  ends_number rest = true ->
  stops_digits (match exponent_part n with
                | Some e => exponent_text e
                | None => []
                end ++ rest) = true.
Proof.
  intros Hr. destruct (exponent_part n) as [e|].
  - unfold exponent_text. destruct (upper_e e); reflexivity.
  - exact (ends_number_stops rest Hr).
Qed.

(** The scanner on a number as it is written: the number, or [ValueError]
    for an integer of more than 4300 digits. *)
Lemma scan_number_written (n : number) (rest : str) :
  number_ok n = true ->
  ends_number rest = true ->
  scan_number (number_text n ++ rest)
  = if is_integer n && (MAX_STR_DIGITS <? length (int_part n))%nat
    then PRaise ValueError
    else POk (number_value n) rest.
Proof.
  intros Hok Hr. unfold number_ok in Hok.
  apply andb_prop in Hok. destruct Hok as [Hok He].
  apply andb_prop in Hok. destruct Hok as [Hi Hf].
  destruct (int_digits_ok_head _ Hi) as [c [r [Ec Hc]]].
  pose proof (digit_is_no_minus c Hc) as Hm.
  pose proof (scan_int_part_run (int_part n) _ Hi (number_tail_stops n rest Hr))
    as Hint.
  pose proof (exponent_tail_stops n rest Hr) as Hstop.
  pose proof (int_of_digits_value _ (int_digits_ok_digits _ Hi)) as Hval.
  assert (Hfrac :
            scan_frac (match fraction n with
                       | Some ds => [46%N] ++ ds
                       | None => []
                       end
                       ++ match exponent_part n with
                          | Some e => exponent_text e
                          | None => []
                          end ++ rest)
            = (match fraction n with
               | Some ds => [46%N] ++ ds
               | None => []
               end,
               match exponent_part n with
               | Some e => exponent_text e
               | None => []
               end ++ rest)).
  { destruct (fraction n) as [ds|].
    - rewrite <- List.app_assoc. exact (scan_frac_written ds _ Hf Hstop).
    - cbn [app]. destruct (exponent_part n) as [e|].
      + unfold exponent_text. cbn [app].
        apply scan_frac_skipped. destruct (upper_e e); reflexivity.
      + exact (proj1 (scan_tail rest Hr)). }
  assert (Hexp :
            scan_exp (match exponent_part n with
                      | Some e => exponent_text e
                      | None => []
                      end ++ rest)
            = (match exponent_part n with
               | Some e => exponent_text e
               | None => []
               end, rest)).
  { destruct (exponent_part n) as [e|].
    - exact (scan_exp_written e rest He (ends_number_stops rest Hr)).
    - exact (proj2 (scan_tail rest Hr)). }
  unfold number_value, is_integer, number_text, scan_number.
  rewrite <- !List.app_assoc.
  assert (Hsign :
            match (if negative n then [45%N] else []) ++ int_part n
                  ++ match fraction n with
                     | Some ds => [46%N] ++ ds
                     | None => []
                     end
                  ++ match exponent_part n with
                     | Some e => exponent_text e
                     | None => []
                     end ++ rest with
            | [] => (false, (if negative n then [45%N] else []) ++ int_part n
                  ++ match fraction n with
                     | Some ds => [46%N] ++ ds
                     | None => []
                     end
                  ++ match exponent_part n with
                     | Some e => exponent_text e
                     | None => []
                     end ++ rest)
            | c0 :: r0 =>
                if (c0 =? 45)%N then (true, r0)
                else (false, (if negative n then [45%N] else []) ++ int_part n
                  ++ match fraction n with
                     | Some ds => [46%N] ++ ds
                     | None => []
                     end
                  ++ match exponent_part n with
                     | Some e => exponent_text e
                     | None => []
                     end ++ rest)
            end
            = (negative n, int_part n
                  ++ match fraction n with
                     | Some ds => [46%N] ++ ds
                     | None => []
                     end
                  ++ match exponent_part n with
                     | Some e => exponent_text e
                     | None => []
                     end ++ rest)).
  { destruct (negative n); cbn [app]; [reflexivity|].
    rewrite Ec. cbn [app]. rewrite Hm. reflexivity. }
  rewrite Hsign, Hint, Hfrac, Hexp, Hval.
  destruct (fraction n) as [ds|], (exponent_part n) as [e|];
    cbn [app andb]; try reflexivity.
Qed.

(** *** More budget changes nothing *)

Lemma parse_value_eq (fuel room : nat) (s : str) :
  parse_value (S fuel) room s
  = match s with
    | [] => PErr
    | c :: r =>
        if (c =? 34)%N then
          match scanstring r None [] with
          | POk x r' => POk (JString x) r'
          | PErr => PErr
          | PRaise e => PRaise e
          | PFuel => PFuel
          end
        else if (c =? 123)%N then
          match room with
          | O => PRaise RecursionError
          | S room' =>
              match skip_ws r with
              | c1 :: r1 =>
                  if (c1 =? 125)%N then POk (JObject []) r1
                  else parse_members fuel room' (c1 :: r1) []
              | [] => PErr
              end
          end
        else if (c =? 91)%N then
          match room with
          | O => PRaise RecursionError
          | S room' =>
              match skip_ws r with
              | c1 :: r1 =>
                  if (c1 =? 93)%N then POk (JArray []) r1
                  else parse_elements fuel room' (c1 :: r1) []
              | [] => PErr
              end
          end
        else scan_atom s
    end.
Proof. reflexivity. Qed.

Lemma parse_elements_eq (fuel room : nat) (s : str) (acc : list json) :
  parse_elements (S fuel) room s acc
  = match parse_value fuel room s with
    | POk v r =>
        match skip_ws r with
        | c :: r' =>
            if (c =? 93)%N then POk (JArray (rev (v :: acc))) r'
            else if (c =? 44)%N then parse_elements fuel room (skip_ws r') (v :: acc)
            else PErr
        | [] => PErr
        end
    | PErr => PErr
    | PRaise e => PRaise e
    | PFuel => PFuel
    end.
Proof. reflexivity. Qed.

Lemma parse_more_budget (n : nat) :
  (forall room s m,
      parse_value n room s <> PFuel -> (n <= m)%nat ->
      parse_value m room s = parse_value n room s)
  /\ (forall room s acc m,
         parse_elements n room s acc <> PFuel -> (n <= m)%nat ->
         parse_elements m room s acc = parse_elements n room s acc)
  /\ (forall room s acc m,
         parse_members n room s acc <> PFuel -> (n <= m)%nat ->
         parse_members m room s acc = parse_members n room s acc).
Proof.
  induction n as [|n [IHv [IHe IHm]]].
  - repeat split; intros; exfalso; apply H; reflexivity.
  - split; [|split].
    + intros room s m H Hm. destruct m as [|m]; [lia|].
      rewrite parse_value_eq in H. rewrite !parse_value_eq.
      destruct s as [|c r]; [reflexivity|].
      destruct (c =? 34)%N; [reflexivity|].
      destruct (c =? 123)%N.
      { destruct room as [|room']; [reflexivity|].
        destruct (skip_ws r) as [|c1 r1]; [reflexivity|].
        destruct (c1 =? 125)%N; [reflexivity|].
        apply IHm; [exact H | lia]. }
      destruct (c =? 91)%N; [|reflexivity].
      destruct room as [|room']; [reflexivity|].
      destruct (skip_ws r) as [|c1 r1]; [reflexivity|].
      destruct (c1 =? 93)%N; [reflexivity|].
      apply IHe; [exact H | lia].
    + intros room s acc m H Hm. destruct m as [|m]; [lia|].
      rewrite parse_elements_eq in H. rewrite !parse_elements_eq.
      assert (Hv : parse_value n room s <> PFuel)
        by (intros E; rewrite E in H; apply H; reflexivity).
      rewrite (IHv room s m Hv ltac:(lia)).
      destruct (parse_value n room s) as [v r| |e|]; try reflexivity.
      destruct (skip_ws r) as [|c r']; [reflexivity|].
      destruct (c =? 93)%N; [reflexivity|].
      destruct (c =? 44)%N; [|reflexivity].
      apply IHe; [exact H | lia].
    + intros room s acc m H Hm. destruct m as [|m]; [lia|].
      rewrite parse_members_eq in H. rewrite !parse_members_eq.
      destruct s as [|c r]; [reflexivity|].
      destruct (c =? 34)%N; [|reflexivity].
      destruct (scanstring r None []) as [k r1| |e|]; try reflexivity.
      destruct (skip_ws r1) as [|c2 r2]; [reflexivity|].
      destruct (c2 =? 58)%N; [|reflexivity].
      assert (Hv : parse_value n room (skip_ws r2) <> PFuel)
        by (intros E; rewrite E in H; apply H; reflexivity).
      rewrite (IHv room (skip_ws r2) m Hv ltac:(lia)).
      destruct (parse_value n room (skip_ws r2)) as [v r3| |e|]; try reflexivity.
      destruct (skip_ws r3) as [|c4 r4]; [reflexivity|].
      destruct (c4 =? 125)%N; [reflexivity|].
      destruct (c4 =? 44)%N; [|reflexivity].
      apply IHm; [exact H | lia].
Qed.

Lemma parse_value_more (n m room : nat) (s : str) (v : json) (r : str) :
  parse_value n room s = POk v r -> (n <= m)%nat ->
  parse_value m room s = POk v r.
Proof.
  intros E Hm. rewrite <- E.
  apply (proj1 (parse_more_budget n)); [rewrite E; discriminate | exact Hm].
Qed.

Lemma parse_elements_more (n m room : nat) (s : str) (acc : list json)
    (v : json) (r : str) :
  parse_elements n room s acc = POk v r -> (n <= m)%nat ->
  parse_elements m room s acc = POk v r.
Proof.
  intros E Hm. rewrite <- E.
  apply (proj1 (proj2 (parse_more_budget n))); [rewrite E; discriminate | exact Hm].
Qed.

Lemma parse_members_more (n m room : nat) (s : str) (acc : list (str * json))
    (v : json) (r : str) :
  parse_members n room s acc = POk v r -> (n <= m)%nat ->
  parse_members m room s acc = POk v r.
Proof.
  intros E Hm. rewrite <- E.
  apply (proj2 (proj2 (parse_more_budget n))); [rewrite E; discriminate | exact Hm].
Qed.

(** *** White space *)

Lemma skip_ws_space (ws s : str) :
  json_space ws = true -> skip_ws (ws ++ s) = skip_ws s.
Proof.
  unfold json_space. induction ws as [|c ws IH]; intros H; [reflexivity|].
  cbn [forallb] in H. apply andb_prop in H. destruct H as [Hc Hws].
  cbn [app skip_ws]. rewrite Hc. exact (IH Hws).
Qed.

Lemma skip_ws_solid (c : char) (s : str) :
  is_json_ws c = false -> skip_ws (c :: s) = c :: s.
Proof. intros H. cbn [skip_ws]. rewrite H. reflexivity. Qed.

(** What follows a value inside an array or an object, after white space:
    a comma or the closing bracket.  Any of them ends a number. *)
Lemma ends_number_space (ws : str) (c : char) (s : str) :
  json_space ws = true ->
  c = 44%N \/ c = 93%N \/ c = 125%N ->
  ends_number (ws ++ c :: s) = true.
Proof.
  intros Hws Hc. destruct ws as [|x ws].
  - cbn [app]. destruct Hc as [-> | [-> | ->]]; reflexivity.
  - unfold json_space in Hws. cbn [forallb] in Hws.
    apply andb_prop in Hws. destruct Hws as [Hx _].
    cbn [app ends_number]. unfold is_json_ws in Hx.
    repeat (apply orb_prop in Hx; destruct Hx as [Hx | Hx]);
      apply N.eqb_eq in Hx; subst x; reflexivity.
Qed.

(** *** The first character of a value *)

Lemma syntax_text_head (v : syntax) :
  syntax_ok v = true ->
  exists c r,
    syntax_text v = c :: r
    /\ is_json_ws c = false /\ (c =? 93)%N = false /\ (c =? 125)%N = false
    /\ (c =? BOM)%N = false.
Proof.
  destruct v as [ps| | | |n|inside items|inside members]; intros Hok;
    try (eexists; eexists; split; [reflexivity|]; repeat split; reflexivity).
  cbn [syntax_ok] in Hok. cbn [syntax_text]. unfold number_ok in Hok.
  apply andb_prop in Hok. destruct Hok as [Hok _].
  apply andb_prop in Hok. destruct Hok as [Hi _].
  unfold number_text. destruct (negative n).
  - eexists; eexists; split; [reflexivity|]; repeat split; reflexivity.
  - destruct (int_digits_ok_head _ Hi) as [c [r [E Hc]]]. rewrite E.
    eexists; eexists; split; [reflexivity|].
    unfold is_digit in Hc. apply andb_prop in Hc. destruct Hc as [Hlo Hhi].
    apply N.leb_le in Hlo, Hhi. unfold is_json_ws.
    unfold BOM.
    repeat split;
      repeat (apply orb_false_intro); apply N.eqb_neq; lia.
Qed.

(** *** Objects without a repeated name *)

Lemma dict_set_fresh (d : dict) (k : str) (v : json) :
  existsb (str_eqb k) (map fst d) = false ->
  dict_set d k v = d ++ [(k, v)].
Proof.
  induction d as [|[k' v'] d IH]; intros H; [reflexivity|].
  cbn [map fst existsb] in H. apply orb_false_elim in H. destruct H as [Hk Hd].
  cbn [dict_set app].
  assert (Hk' : str_eqb k' k = false).
  { destruct (str_eqb k' k) eqn:E; [|reflexivity].
    apply str_eqb_eq in E. subst k'. rewrite str_eqb_refl in Hk. discriminate Hk. }
  rewrite Hk', (IH Hd). reflexivity.
Qed.

Lemma existsb_app_false {A : Type} (f : A -> bool) (l l' : list A) :
  existsb f (l ++ l') = false -> existsb f l = false /\ existsb f l' = false.
Proof. rewrite existsb_app. apply orb_false_elim. Qed.

Lemma distinct_app_cons (l : list str) (k : str) (r : list str) :
  distinct (l ++ k :: r) = true ->
  existsb (str_eqb k) l = false /\ distinct ((l ++ [k]) ++ r) = true.
Proof.
  induction l as [|x l IH]; cbn [app distinct existsb]; intros H.
  - split; [reflexivity | exact H].
  - apply andb_prop in H. destruct H as [Hx Hd].
    destruct (IH Hd) as [Hk Hd'].
    apply negb_true_iff in Hx. rewrite existsb_app in Hx.
    apply orb_false_elim in Hx. destruct Hx as [Hxl Hxr].
    cbn [existsb] in Hxr. apply orb_false_elim in Hxr. destruct Hxr as [Hxk Hxr].
    split.
    + apply orb_false_intro; [|exact Hk].
      destruct (str_eqb k x) eqn:E; [|reflexivity].
      apply str_eqb_eq in E. subst x. rewrite str_eqb_refl in Hxk. discriminate Hxk.
    + rewrite Hd'. rewrite andb_true_r. apply negb_true_iff.
      rewrite !existsb_app. cbn [existsb]. rewrite Hxl, Hxk, Hxr. reflexivity.
Qed.

Lemma fold_dict_set_distinct (pairs : list (str * json)) :
  forall d : dict,
    distinct (map fst d ++ map fst pairs) = true ->
    fold_left (fun d kv => dict_set d (fst kv) (snd kv)) pairs d = d ++ pairs.
Proof.
  induction pairs as [|[k v] pairs IH]; intros d H.
  - cbn [fold_left]. rewrite List.app_nil_r. reflexivity.
  - cbn [map fst] in H. destruct (distinct_app_cons _ _ _ H) as [Hk Hd].
    cbn [fold_left fst snd]. rewrite (dict_set_fresh d k v Hk).
    rewrite IH.
    + rewrite <- List.app_assoc. reflexivity.
    + rewrite map_app. exact Hd.
Qed.

(** [dict] keeps pairs with different names as they come. *)
Lemma dict_of_pairs_distinct (pairs : list (str * json)) :
  distinct (map fst pairs) = true -> dict_of_pairs pairs = pairs.
Proof.
  intros H. unfold dict_of_pairs.
  exact (fold_dict_set_distinct pairs [] H).
Qed.

(** *** Values *)

Lemma skip_ws_value (ws : str) (v : syntax) (rest : str) :
  json_space ws = true -> syntax_ok v = true ->
  skip_ws (ws ++ syntax_text v ++ rest) = syntax_text v ++ rest.
Proof.
  intros Hws Hv. rewrite (skip_ws_space _ _ Hws).
  destruct (syntax_text_head v Hv) as [c [r [E [Hc _]]]].
  rewrite E. cbn [app]. exact (skip_ws_solid c _ Hc).
Qed.

Lemma skip_ws_mark (ws : str) (c : char) (rest : str) :
  json_space ws = true -> is_json_ws c = false ->
  skip_ws (ws ++ c :: rest) = c :: rest.
Proof.
  intros Hws Hc. rewrite (skip_ws_space _ _ Hws). exact (skip_ws_solid c _ Hc).
Qed.

Lemma separated_one {A : Type} (text : A -> str) (x : A) :
  separated text [x] = text x.
Proof. reflexivity. Qed.

Lemma separated_more {A : Type} (text : A -> str) (x y : A) (l : list A) :
  separated text (x :: y :: l) = text x ++ [44%N] ++ separated text (y :: l).
Proof. reflexivity. Qed.

Lemma parse_value_string (fuel room : nat) (ps : list spelling) (rest : str) :
  spellings_ok ps = true ->
  parse_value (S fuel) room (literal_text ps ++ rest)
  = POk (JString (literal_value ps)) rest.
Proof.
  intros H. unfold literal_text. rewrite <- !List.app_assoc. cbn [app].
  rewrite parse_value_eq. change (34 =? 34)%N with true. cbv iota.
  rewrite (scanstring_literal ps rest H). reflexivity.
Qed.

Lemma parse_value_written_number (fuel room : nat) (n : number) (rest : str) :
  number_ok n = true ->
  (if is_integer n then (length (int_part n) <=? MAX_STR_DIGITS)%nat else true) = true ->
  ends_number rest = true ->
  parse_value (S fuel) room (number_text n ++ rest) = POk (number_value n) rest.
Proof.
  intros Hok Hshort Hr.
  pose proof (scan_number_written n rest Hok Hr) as Hs.
  assert (Hlong : is_integer n && (MAX_STR_DIGITS <? length (int_part n))%nat = false).
  { destruct (is_integer n); [|reflexivity]. cbn [andb].
    apply Nat.leb_le in Hshort. apply Nat.ltb_ge. exact Hshort. }
  rewrite Hlong in Hs.
  assert (Hhead : exists c s, number_text n ++ rest = c :: s
                              /\ (is_digit c = true \/ c = 45%N)).
  { unfold number_ok in Hok.
    apply andb_prop in Hok. destruct Hok as [Hok _].
    apply andb_prop in Hok. destruct Hok as [Hi _].
    unfold number_text. destruct (negative n).
    - eexists; eexists. split; [reflexivity | right; reflexivity].
    - destruct (int_digits_ok_head _ Hi) as [c [r [E Hc]]]. rewrite E.
      eexists; eexists. split; [reflexivity | left; exact Hc]. }
  destruct Hhead as [c [s [E Hc]]]. rewrite E in Hs |- *.
  rewrite (parse_value_number fuel room c s Hc), Hs. reflexivity.
Qed.

(** A value that is no array and no object. *)
Lemma parse_value_flat (fuel room : nat) (v : syntax) (rest : str) :
  depth v = 0%nat ->
  syntax_ok v = true ->
  integers_short v = true ->
  ends_number rest = true ->
  parse_value (S fuel) room (syntax_text v ++ rest) = POk (syntax_value v) rest.
Proof.
  intros Hd Hok Hshort Hr.
  destruct v as [ps| | | |n|inside items|inside members];
    try discriminate Hd; try reflexivity.
  - exact (parse_value_string fuel room ps rest Hok).
  - exact (parse_value_written_number fuel room n rest Hok Hshort Hr).
Qed.

Lemma parse_elements_written (room : nat) (IHv : reads_values room) :
  forall (tail : list (element syntax)) (it : element syntax) (acc : list json)
         (rest : str),
    forallb (fun it => element_spaces it && syntax_ok (element_value it))
            (it :: tail) = true ->
    forallb (fun it => integers_short (element_value it)) (it :: tail) = true ->
    (fold_right (fun it d => Nat.max (depth (element_value it)) d) O (it :: tail)
     <= room)%nat ->
    exists fuel,
      parse_elements fuel room
        (skip_ws (separated (element_written syntax_text) (it :: tail)
                  ++ 93%N :: rest)) acc
      = POk (JArray (rev acc
                     ++ map (fun it => syntax_value (element_value it)) (it :: tail)))
            rest.
Proof.
  induction tail as [|it2 tail IH]; intros it acc rest Hok Hshort Hdepth;
    cbn [forallb] in Hok, Hshort; cbn [fold_right] in Hdepth;
    apply andb_prop in Hok; destruct Hok as [Hit Hok];
    apply andb_prop in Hit; destruct Hit as [Hsp Hv];
    apply andb_prop in Hsp; destruct Hsp as [Hb Ha];
    apply andb_prop in Hshort; destruct Hshort as [Hs Hshort].
  - destruct (IHv (element_value it) (after_element it ++ 93%N :: rest) Hv Hs
                  ltac:(lia) (ends_number_space _ 93%N rest Ha ltac:(auto)))
      as [f Hf].
    exists (S f). rewrite parse_elements_eq, separated_one.
    unfold element_written. rewrite <- !List.app_assoc.
    rewrite (skip_ws_value _ _ _ Hb Hv), Hf.
    rewrite (skip_ws_mark _ 93%N rest Ha eq_refl).
    change (93 =? 93)%N with true. cbv iota. cbn [rev map]. reflexivity.
  - destruct (IHv (element_value it)
                  (after_element it ++ 44%N
                   :: separated (element_written syntax_text) (it2 :: tail)
                   ++ 93%N :: rest) Hv Hs
                  ltac:(lia) (ends_number_space _ 44%N _ Ha ltac:(auto)))
      as [f1 Hf1].
    destruct (IH it2 (syntax_value (element_value it) :: acc) rest
                 ltac:(cbn [forallb]; exact Hok)
                 ltac:(cbn [forallb]; exact Hshort)
                 ltac:(cbn [fold_right]; lia))
      as [f2 Hf2].
    exists (S (Nat.max f1 f2)). rewrite parse_elements_eq, separated_more.
    unfold element_written at 1. rewrite <- !List.app_assoc. cbn [app].
    rewrite (skip_ws_value _ _ _ Hb Hv).
    rewrite (parse_value_more f1 (Nat.max f1 f2) room _ _ _ Hf1 ltac:(lia)).
    rewrite (skip_ws_mark _ 44%N _ Ha eq_refl).
    change (44 =? 93)%N with false. change (44 =? 44)%N with true. cbv iota.
    rewrite (parse_elements_more f2 (Nat.max f1 f2) room _ _ _ _ Hf2 ltac:(lia)).
    cbn [rev map]. rewrite <- !List.app_assoc. reflexivity.
Qed.

Lemma parse_members_written (room : nat) (IHv : reads_values room) :
  forall (tail : list (member syntax)) (m : member syntax)
         (acc : list (str * json)) (rest : str),
    forallb (fun m => member_spaces m && spellings_ok (member_key m)
                      && syntax_ok (named_value m)) (m :: tail) = true ->
    forallb (fun m => integers_short (named_value m)) (m :: tail) = true ->
    (fold_right (fun m d => Nat.max (depth (named_value m)) d) O (m :: tail)
     <= room)%nat ->
    exists fuel,
      parse_members fuel room
        (skip_ws (separated (member_written syntax_text) (m :: tail)
                  ++ 125%N :: rest)) acc
      = POk (JObject
               (dict_of_pairs
                  (rev acc
                   ++ map (fun m => (member_name m, syntax_value (named_value m)))
                          (m :: tail))))
            rest.
Proof.
  induction tail as [|m2 tail IH]; intros m acc rest Hok Hshort Hdepth;
    cbn [forallb] in Hok, Hshort; cbn [fold_right] in Hdepth;
    apply andb_prop in Hok; destruct Hok as [Hm Hok];
    apply andb_prop in Hm; destruct Hm as [Hm Hv];
    apply andb_prop in Hm; destruct Hm as [Hsp Hk];
    apply andb_prop in Hsp; destruct Hsp as [Hsp H4];
    apply andb_prop in Hsp; destruct Hsp as [Hsp H3];
    apply andb_prop in Hsp; destruct Hsp as [H1 H2];
    apply andb_prop in Hshort; destruct Hshort as [Hs Hshort].
  - destruct (IHv (named_value m) (after_value m ++ 125%N :: rest) Hv Hs
                  ltac:(lia) (ends_number_space _ 125%N rest H4 ltac:(auto)))
      as [f Hf].
    exists (S f). rewrite separated_one.
    unfold member_written, literal_text. rewrite <- !List.app_assoc. cbn [app].
    rewrite (skip_ws_mark _ 34%N _ H1 eq_refl).
    rewrite parse_members_eq. change (34 =? 34)%N with true. cbv iota.
    rewrite (scanstring_literal _ _ Hk).
    rewrite (skip_ws_mark _ 58%N _ H2 eq_refl).
    change (58 =? 58)%N with true. cbv iota.
    rewrite (skip_ws_value _ _ _ H3 Hv), Hf.
    rewrite (skip_ws_mark _ 125%N rest H4 eq_refl).
    change (125 =? 125)%N with true. cbv iota. cbn [rev map]. reflexivity.
  - destruct (IHv (named_value m)
                  (after_value m ++ 44%N
                   :: separated (member_written syntax_text) (m2 :: tail)
                   ++ 125%N :: rest) Hv Hs
                  ltac:(lia) (ends_number_space _ 44%N _ H4 ltac:(auto)))
      as [f1 Hf1].
    destruct (IH m2 ((member_name m, syntax_value (named_value m)) :: acc) rest
                 ltac:(cbn [forallb]; exact Hok)
                 ltac:(cbn [forallb]; exact Hshort)
                 ltac:(cbn [fold_right]; lia))
      as [f2 Hf2].
    exists (S (Nat.max f1 f2)). rewrite separated_more.
    unfold member_written at 1. unfold literal_text.
    rewrite <- !List.app_assoc. cbn [app].
    rewrite (skip_ws_mark _ 34%N _ H1 eq_refl).
    rewrite parse_members_eq. change (34 =? 34)%N with true. cbv iota.
    rewrite (scanstring_literal _ _ Hk).
    rewrite (skip_ws_mark _ 58%N _ H2 eq_refl).
    change (58 =? 58)%N with true. cbv iota.
    rewrite (skip_ws_value _ _ _ H3 Hv).
    rewrite (parse_value_more f1 (Nat.max f1 f2) room _ _ _ Hf1 ltac:(lia)).
    rewrite (skip_ws_mark _ 44%N _ H4 eq_refl).
    change (44 =? 125)%N with false. change (44 =? 44)%N with true. cbv iota.
    unfold member_name in Hf2 |- *.
    rewrite (parse_members_more f2 (Nat.max f1 f2) room _ _ _ _ Hf2 ltac:(lia)).
    cbn [rev map]. rewrite <- !List.app_assoc. reflexivity.
Qed.

Lemma skip_ws_elements (it : element syntax) (tail : list (element syntax))
    (rest : str) :
  element_spaces it && syntax_ok (element_value it) = true ->
  exists c r,
    skip_ws (separated (element_written syntax_text) (it :: tail) ++ rest) = c :: r
    /\ (c =? 93)%N = false.
Proof.
  intros H. apply andb_prop in H. destruct H as [Hsp Hv].
  apply andb_prop in Hsp. destruct Hsp as [Hb _].
  destruct (syntax_text_head _ Hv) as [c [r [E [_ [H93 _]]]]].
  destruct tail as [|it2 tail];
    [rewrite separated_one | rewrite separated_more];
    unfold element_written; rewrite <- !List.app_assoc;
    rewrite (skip_ws_value _ _ _ Hb Hv), E; cbn [app];
    eexists; eexists; (split; [reflexivity | exact H93]).
Qed.

Lemma skip_ws_members (m : member syntax) (tail : list (member syntax))
    (rest : str) :
  member_spaces m = true ->
  exists r,
    skip_ws (separated (member_written syntax_text) (m :: tail) ++ rest)
    = 34%N :: r.
Proof.
  intros Hsp.
  apply andb_prop in Hsp. destruct Hsp as [Hsp _].
  apply andb_prop in Hsp. destruct Hsp as [Hsp _].
  apply andb_prop in Hsp. destruct Hsp as [H1 _].
  destruct tail as [|m2 tail];
    [rewrite separated_one | rewrite separated_more];
    unfold member_written, literal_text; rewrite <- !List.app_assoc; cbn [app];
    rewrite (skip_ws_mark _ 34%N _ H1 eq_refl);
    eexists; reflexivity.
Qed.

(** The scanner reads a value as it is written, when no integer in it is
    too long and the interpreter has room for its brackets. *)
Lemma parse_value_written (room : nat) : reads_values room.
Proof.
  induction room as [|room IH]; intros v rest Hok Hshort Hdepth Hr;
    (destruct (depth v) as [|d] eqn:Ed;
     [exists 1%nat; exact (parse_value_flat 0 _ v rest Ed Hok Hshort Hr)|]);
    [lia|].
  destruct v as [ps| | | |n|inside items|inside members]; try discriminate Ed;
    cbn [depth] in Ed; cbn [syntax_ok] in Hok; cbn [integers_short] in Hshort;
    cbn [syntax_text syntax_value]; rewrite <- !List.app_assoc; cbn [app].
  - apply andb_prop in Hok. destruct Hok as [Hin Hok].
    destruct items as [|it tail].
    + exists 1%nat. rewrite parse_value_eq.
      change (91 =? 34)%N with false. change (91 =? 123)%N with false.
      change (91 =? 91)%N with true. cbv iota. cbn [separated app].
      rewrite (skip_ws_mark _ 93%N rest Hin eq_refl). reflexivity.
    + destruct (parse_elements_written room IH tail it [] rest Hok Hshort
                  ltac:(lia)) as [f Hf].
      assert (Hit : element_spaces it && syntax_ok (element_value it) = true)
        by (cbn [forallb] in Hok; apply andb_prop in Hok; tauto).
      destruct (skip_ws_elements it tail (93%N :: rest) Hit) as [c [r [E H93]]].
      exists (S f). rewrite parse_value_eq.
      change (91 =? 34)%N with false. change (91 =? 123)%N with false.
      change (91 =? 91)%N with true. cbv iota.
      rewrite (skip_ws_space _ _ Hin), E, H93, <- E. exact Hf.
  - apply andb_prop in Hok. destruct Hok as [Hok Hdist].
    apply andb_prop in Hok. destruct Hok as [Hin Hok].
    destruct members as [|m tail].
    + exists 1%nat. rewrite parse_value_eq.
      change (123 =? 34)%N with false. change (123 =? 123)%N with true.
      cbv iota. cbn [separated app].
      rewrite (skip_ws_mark _ 125%N rest Hin eq_refl). reflexivity.
    + destruct (parse_members_written room IH tail m [] rest Hok Hshort
                  ltac:(lia)) as [f Hf].
      assert (Hm : member_spaces m = true).
      { cbn [forallb] in Hok. apply andb_prop in Hok. destruct Hok as [Hok _].
        apply andb_prop in Hok. destruct Hok as [Hok _].
        apply andb_prop in Hok. tauto. }
      destruct (skip_ws_members m tail (125%N :: rest) Hm) as [r E].
      exists (S f). rewrite parse_value_eq.
      change (123 =? 34)%N with false. change (123 =? 123)%N with true.
      cbv iota.
      rewrite (skip_ws_space _ _ Hin), E.
      change (34 =? 125)%N with false. cbv iota. rewrite <- E, Hf.
      cbn [rev app]. rewrite dict_of_pairs_distinct; [reflexivity|].
      rewrite map_map. cbn [fst]. exact Hdist.
Qed.

(** The budget does not matter, once the scanner has answered. *)
Lemma parse_value_any_budget (n m room : nat) (s : str) (v : json) (r : str) :
  parse_value n room s = POk v r ->
  parse_value m room s <> PFuel ->
  parse_value m room s = POk v r.
Proof.
  intros E H. destruct (Nat.le_ge_cases n m) as [Hle | Hge].
  - exact (parse_value_more n m room s v r E Hle).
  - rewrite <- E. symmetry.
    exact (proj1 (parse_more_budget m) room s n H Hge).
Qed.

(** [json.loads] on a value as it is written. *)
Lemma json_loads_written (spare : nat) (v : syntax) :
  syntax_ok v = true ->
  integers_short v = true ->
  (depth v <= S spare)%nat ->
  json_loads spare (syntax_text v) = Ret (syntax_value v).
Proof.
  intros Hok Hshort Hdepth.
  destruct (parse_value_written (S spare) v [] Hok Hshort Hdepth eq_refl)
    as [f Hf].
  rewrite List.app_nil_r in Hf.
  destruct (syntax_text_head v Hok) as [c [r [E [Hws [_ [_ Hbom]]]]]].
  unfold json_loads.
  assert (Hskip : skip_ws (syntax_text v) = syntax_text v)
    by (rewrite E; exact (skip_ws_solid c r Hws)).
  rewrite Hskip.
  assert (Hb : parse_value (loads_fuel (syntax_text v)) (S spare) (syntax_text v)
               <> PFuel).
  { apply (proj1 (parse_budget (loads_fuel (syntax_text v)))).
    unfold loads_fuel. lia. }
  rewrite (parse_value_any_budget f _ (S spare) _ _ _ Hf Hb).
  rewrite E at 1. rewrite Hbom. reflexivity.
Qed.

(** *** The two operations on an object as it is written *)

Lemma object_text_braces (inside : str) (members : list (member syntax)) :
  syntax_text (SObject inside members)
  = braces (inside ++ separated (member_written syntax_text) members).
Proof.
  cbn [syntax_text]. unfold braces. rewrite <- !List.app_assoc. reflexivity.
Qed.

Lemma json_loads_fenced_object (opened closed : bool)
    (ws0 ws1 ws2 ws3 inside : str) (members : list (member syntax)) (spare : nat) :
  all_space ws0 = true -> all_space ws1 = true ->
  all_space ws2 = true -> all_space ws3 = true ->
  syntax_ok (SObject inside members) = true ->
  integers_short (SObject inside members) = true ->
  (depth (SObject inside members) <= S spare)%nat ->
  json_loads spare
    (clean_response (fenced opened closed ws0 ws1 ws2 ws3
                            (syntax_text (SObject inside members))))
  = Ret (syntax_value (SObject inside members)).
Proof.
  intros H0 H1 H2 H3 Hok Hshort Hdepth.
  rewrite object_text_braces, clean_response_fenced by assumption.
  rewrite <- object_text_braces.
  exact (json_loads_written spare _ Hok Hshort Hdepth).
Qed.

(** C1. A response made of a JSON object with exactly the mission keys, or
    exactly the validation keys, with or without a leading [```json] marker
    and with or without a trailing [```] marker (and white space around
    them), is cleaned to the object's text and decoded, and
    [generate_mission] returns the mission and [validate_command] the
    verdict that the text stands for, after one request and no retry; this
    holds within the two limits of the interpreter, that is, when no integer
    in the text has more than 4300 digits and its arrays and objects are
    nested no deeper than [json.loads] has room for.  The object is any text
    of the JSON grammar: white space where the grammar allows it, the
    members in any order, each name once, strings with any escapes, and
    values of any kind. *)
Theorem fenced_object_is_parsed (opened closed : bool)
    (ws0 ws1 ws2 ws3 inside : str) (members : list (member syntax)) :
  all_space ws0 = true -> all_space ws1 = true ->
  all_space ws2 = true -> all_space ws3 = true ->
  syntax_ok (SObject inside members) = true ->
  integers_short (SObject inside members) = true ->
  let text := fenced opened closed ws0 ws1 ws2 ws3
                     (syntax_text (SObject inside members)) in
  (forall spare,
      (depth (SObject inside members) <= S spare)%nat ->
      json_loads spare (clean_response text)
      = Ret (syntax_value (SObject inside members)))
  /\ (exactly_keys MISSION_KEYS members ->
      forall g retry w,
        MissionGenerator.model g = true ->
        answers w 0 text ->
        (depth (SObject inside members) <= S (room w 0))%nat ->
        exists p,
          MissionGenerator.generate_mission g retry w
          = (Ret (syntax_value (SObject inside members)),
             snd (MissionGenerator.get_next_topic g),
             mkWorld (replies w) (spare_depth w) (S (calls w))
                     (trace w ++ [Asked p])))
  /\ (exactly_keys VALIDATION_KEYS members ->
      forall v command current_mission retry w p,
        CommandValidator.model v = true ->
        truthy current_mission = true ->
        CommandValidator.validation_prompt command current_mission = Ret p ->
        answers w 0 text ->
        (depth (SObject inside members) <= S (room w 0))%nat ->
        CommandValidator.validate_command v command current_mission retry w
        = (Ret (syntax_value (SObject inside members)),
           mkWorld (replies w) (spare_depth w) (S (calls w))
                   (trace w ++ [Asked p]))).
Proof.
  intros H0 H1 H2 H3 Hok Hshort. cbv zeta.
  split; [|split].
  - intros spare Hd.
    exact (json_loads_fenced_object opened closed ws0 ws1 ws2 ws3 inside members
             spare H0 H1 H2 H3 Hok Hshort Hd).
  - intros _ g retry w Hm Ha Hd.
    apply generate_mission_first_try
      with (text := fenced opened closed ws0 ws1 ws2 ws3
                           (syntax_text (SObject inside members)));
      [exact Hm | exact Ha |].
    exact (json_loads_fenced_object opened closed ws0 ws1 ws2 ws3 inside members
             (room w 0) H0 H1 H2 H3 Hok Hshort Hd).
  - intros _ v command current_mission retry w p Hm Ht Hp Ha Hd.
    apply validate_command_first_try
      with (text := fenced opened closed ws0 ws1 ws2 ws3
                           (syntax_text (SObject inside members)));
      [exact Hm | exact Ht | exact Hp | exact Ha |].
    exact (json_loads_fenced_object opened closed ws0 ws1 ws2 ws3 inside members
             (room w 0) H0 H1 H2 H3 Hok Hshort Hd).
Qed.

Lemma fenced_object_is_parsed_witness :
  fst (fst (MissionGenerator.generate_mission
              (MissionGenerator.mk true 1 (-1)) 0 (scripted [written_mission_text])))
  = Ret (JObject
           [ (py "description",
              JString (py "Find the hosts" ++ [10; 233; 128269]%N));
             (py "title", JString (py "Operation Dawn"));
             (py "target_ip", JString (py "10.0.0.0/24"));
             (py "difficulty", JInt 2);
             (py "topic_category",
              JArray [JString (py "Host Discovery"); JFloat (py "-0.5E+1"); JNull]) ])
  /\ fst (CommandValidator.validate_command
            (CommandValidator.mk true) (py "nmap -sn 10.0.0.0/24") sample_mission 0
            (scripted [written_verdict_text]))
     = Ret (JObject
              [ (py "feedback", JString (py "Well done"));
                (py "correct", JBool true);
                (py "simulated_output", JString (py "Host is up" ++ [10%N])) ]).
Proof.
  split.
  - destruct (fenced_object_is_parsed true true [] [NEWLINE] [NEWLINE] []
                [] written_mission
                eq_refl eq_refl eq_refl eq_refl
                ltac:(vm_compute; reflexivity) ltac:(vm_compute; reflexivity))
      as [_ [Hm _]].
    destruct (Hm ltac:(apply perm_swap)
                 (MissionGenerator.mk true 1 (-1)) 0
                 (scripted [written_mission_text]) eq_refl (fun p => eq_refl)
                 ltac:(vm_compute; lia))
      as [p Hp].
    rewrite Hp. vm_compute. reflexivity.
  - destruct (fenced_object_is_parsed true false [] [NEWLINE] [] [NEWLINE]
                [] written_verdict
                eq_refl eq_refl eq_refl eq_refl
                ltac:(vm_compute; reflexivity) ltac:(vm_compute; reflexivity))
      as [_ [_ Hv]].
    rewrite (Hv ltac:(unfold exactly_keys;
                      apply (perm_swap (py "correct") (py "feedback")
                                       [py "simulated_output"]))
                (CommandValidator.mk true) (py "nmap -sn 10.0.0.0/24")
                sample_mission 0 (scripted [written_verdict_text]) _
                eq_refl eq_refl eq_refl (fun p => eq_refl)
                ltac:(vm_compute; lia)).
    vm_compute. reflexivity.
Defined.

(** The text of the mission above. *)
Lemma written_mission_is_text :
  syntax_text (SObject [] written_mission)
  = jtext "{
  'description': 'Find the hosts\n\u00E9\uD83D\udd0d',
  '\u0074itle' : 'Operation Dawn', 'target_ip':'10.0.0.0\/24', 'difficulty': 2 ,'topic_category':['Host Discovery', -0.5E+1, null ]
}".
Proof. vm_compute. reflexivity. Qed.

(** C1 as stated fails: a JSON object with exactly the mission keys whose
    difficulty is an integer of 4301 digits is not returned. *)
Lemma long_integer_object_counterexample :
  ~ returns_every_object
      (MissionGenerator.mk true 1 (-1))
      (scripted [long_integer_text; long_integer_text; long_integer_text]).
Proof.
  intros H.
  specialize (H [] long_integer_mission ltac:(vm_compute; reflexivity)
                ltac:(apply Permutation_refl) (fun p => eq_refl)).
  assert (E : fst (fst (MissionGenerator.generate_mission
                          (MissionGenerator.mk true 1 (-1)) 0
                          (scripted [long_integer_text; long_integer_text;
                                     long_integer_text])))
              = Raise ValueError) by (vm_compute; reflexivity).
  rewrite E in H. discriminate H.
Qed.

(** What the code does on that input: [json.loads] raises [ValueError],
    which the second [except] clause takes; three requests, 5 and 10
    seconds of sleep, and the exception in the end. *)
Lemma long_integer_object_raises :
  MissionGenerator.generate_mission
    (MissionGenerator.mk true 1 (-1)) 0
    (scripted [long_integer_text; long_integer_text; long_integer_text])
  = (Raise ValueError, MissionGenerator.mk true 1 2,
     mkWorld (replies (scripted [long_integer_text; long_integer_text;
                                 long_integer_text]))
             (fun _ => 900%nat) 3
             [ Asked (MissionPrompt "Host Discovery" "Easy"); Slept 5;
               Asked (MissionPrompt "Port Scanning" "Easy"); Slept 10;
               Asked (MissionPrompt "Service/OS Detection" "Easy") ]).
Proof. vm_compute. reflexivity. Qed.

End WrittenJson.

Section MissingKeys.

(** C3, as the code has it.  A response made of a JSON object, with or
    without the fence markers, is returned as the object it stands for after
    one request, whatever its keys: neither operation checks them, and no
    retry is made.  As for C1, this holds when no integer in the text has
    more than 4300 digits and its arrays and objects are nested no deeper
    than [json.loads] has room for. *)
Theorem object_lacking_keys_is_returned (opened closed : bool)
    (ws0 ws1 ws2 ws3 inside : str) (members : list (member syntax)) :
  all_space ws0 = true -> all_space ws1 = true ->
  all_space ws2 = true -> all_space ws3 = true ->
  syntax_ok (SObject inside members) = true ->
  integers_short (SObject inside members) = true ->
  let text := fenced opened closed ws0 ws1 ws2 ws3
                     (syntax_text (SObject inside members)) in
  (forall g retry w,
      MissionGenerator.model g = true ->
      answers w 0 text ->
      (depth (SObject inside members) <= S (room w 0))%nat ->
      exists p,
        MissionGenerator.generate_mission g retry w
        = (Ret (syntax_value (SObject inside members)),
           snd (MissionGenerator.get_next_topic g),
           mkWorld (replies w) (spare_depth w) (S (calls w))
                   (trace w ++ [Asked p])))
  /\ (forall v command current_mission retry w p,
         CommandValidator.model v = true ->
         truthy current_mission = true ->
         CommandValidator.validation_prompt command current_mission = Ret p ->
         answers w 0 text ->
         (depth (SObject inside members) <= S (room w 0))%nat ->
         CommandValidator.validate_command v command current_mission retry w
         = (Ret (syntax_value (SObject inside members)),
            mkWorld (replies w) (spare_depth w) (S (calls w))
                    (trace w ++ [Asked p]))).
Proof.
  intros H0 H1 H2 H3 Hok Hshort. cbv zeta. split.
  - intros g retry w Hm Ha Hd.
    apply generate_mission_first_try
      with (text := fenced opened closed ws0 ws1 ws2 ws3
                           (syntax_text (SObject inside members)));
      [exact Hm | exact Ha |].
    exact (json_loads_fenced_object opened closed ws0 ws1 ws2 ws3 inside members
             (room w 0) H0 H1 H2 H3 Hok Hshort Hd).
  - intros v command current_mission retry w p Hm Ht Hp Ha Hd.
    apply validate_command_first_try
      with (text := fenced opened closed ws0 ws1 ws2 ws3
                           (syntax_text (SObject inside members)));
      [exact Hm | exact Ht | exact Hp | exact Ha |].
    exact (json_loads_fenced_object opened closed ws0 ws1 ws2 ws3 inside members
             (room w 0) H0 H1 H2 H3 Hok Hshort Hd).
Qed.

Lemma object_lacking_keys_is_returned_witness :
  (syntax_text (SObject [] title_only) = jtext "{'title': 'Operation Dawn'}"
   /\ lacks_a_key MISSION_KEYS [(py "title", JString (py "Operation Dawn"))] = true
   /\ fst (fst (MissionGenerator.generate_mission
                  (MissionGenerator.mk true 1 (-1)) 0
                  (scripted [jtext "{'title': 'Operation Dawn'}"])))
      = Ret (JObject [(py "title", JString (py "Operation Dawn"))]))
  /\ (syntax_text (SObject [] feedback_only) = jtext "{'feedback': 'Close.'}"
      /\ lacks_a_key VALIDATION_KEYS [(py "feedback", JString (py "Close."))] = true
      /\ fst (CommandValidator.validate_command
                (CommandValidator.mk true) (py "nmap -sn 10.0.0.0/24") sample_mission 0
                (scripted [jtext "{'feedback': 'Close.'}"]))
         = Ret (JObject [(py "feedback", JString (py "Close."))])).
Proof.
  split; (split; [reflexivity|]; split; [reflexivity|]).
  - destruct (object_lacking_keys_is_returned false false [] [] [] []
                [] title_only eq_refl eq_refl eq_refl eq_refl eq_refl eq_refl)
      as [Hm _].
    destruct (Hm (MissionGenerator.mk true 1 (-1)) 0
                 (scripted [jtext "{'title': 'Operation Dawn'}"])
                 eq_refl (fun p => eq_refl) ltac:(vm_compute; lia))
      as [p E].
    rewrite E. reflexivity.
  - destruct (object_lacking_keys_is_returned false false [] [] [] []
                [] feedback_only eq_refl eq_refl eq_refl eq_refl eq_refl eq_refl)
      as [_ Hv].
    rewrite (Hv (CommandValidator.mk true) (py "nmap -sn 10.0.0.0/24")
                sample_mission 0 (scripted [jtext "{'feedback': 'Close.'}"]) _
                eq_refl eq_refl eq_refl (fun p => eq_refl)
                ltac:(vm_compute; lia)).
    reflexivity.
Defined.

(** C3 as stated fails: the object with the single key [title] is a valid
    JSON object lacking four mission keys, and [generate_mission] returns
    it. *)
Lemma missing_keys_returned_counterexample :
  ~ refuses_missing_keys
      (MissionGenerator.mk true 1 (-1))
      (scripted [jtext "{'title': 'Operation Dawn'}"])
      (jtext "{'title': 'Operation Dawn'}").
Proof.
  intros H.
  apply (H [(py "title", JString (py "Operation Dawn"))]).
  - intros p. reflexivity.
  - vm_compute. reflexivity.
  - reflexivity.
  - vm_compute. reflexivity.
Qed.

End MissingKeys.

(** * Further properties of the code *)

(** ** Levels, awards and topics *)

Section LevelsAndAwards.

(** The level of every XP, the negative ones included. *)
Lemma calculate_level_range (x : Z) :
  (x < 0 /\ ProgressManager.calculate_level x = 5)
  \/ (0 <= x <= 299 /\ ProgressManager.calculate_level x = 1)
  \/ (300 <= x <= 699 /\ ProgressManager.calculate_level x = 2)
  \/ (700 <= x <= 1199 /\ ProgressManager.calculate_level x = 3)
  \/ (1200 <= x <= 1999 /\ ProgressManager.calculate_level x = 4)
  \/ (2000 <= x /\ ProgressManager.calculate_level x = 5).
Proof.
  rewrite calculate_level_cases.
  repeat match goal with
         | |- context [ (?a <=? ?b) ] => destruct (Z.leb_spec a b)
         end; cbn [andb]; lia.
Qed.

(** X1. [calculate_level] falls through its loop for a negative XP and
    returns 5; on non-negative XP it never goes down when XP goes up. *)
Theorem calculate_level_edges (x y : Z) :
  (x < 0 -> ProgressManager.calculate_level x = 5)
  /\ (0 <= x <= y ->
      ProgressManager.calculate_level x <= ProgressManager.calculate_level y).
Proof.
  pose proof (calculate_level_range x) as Hx.
  pose proof (calculate_level_range y) as Hy.
  split; intros H; lia.
Qed.

Lemma calculate_level_edges_witness :
  ProgressManager.calculate_level (-1) = 5
  /\ ProgressManager.calculate_level 299 <= ProgressManager.calculate_level 300.
Proof.
  split.
  - apply (calculate_level_edges (-1) 0). lia.
  - apply (calculate_level_edges 299 300). lia.
Defined.

(** One award moves a non-negative XP up by at most one level. *)
Lemma calculate_level_award (x h : Z) :
  0 <= x ->
  ProgressManager.calculate_level x
  <= ProgressManager.calculate_level (x + NmapDojoApp.xp_gained h)
  <= ProgressManager.calculate_level x + 1.
Proof.
  intros Hx.
  assert (Hg : 25 <= NmapDojoApp.xp_gained h <= 100).
  { unfold NmapDojoApp.xp_gained, XP_FIRST_TRY, XP_ONE_HINT, XP_TWO_HINTS.
    destruct (h =? 0); [lia|]. destruct (h =? 1); lia. }
  pose proof (calculate_level_range x) as H1.
  pose proof (calculate_level_range (x + NmapDojoApp.xp_gained h)) as H2.
  lia.
Qed.

(** X2. The award is one of 100, 50 and 25, and a mission solved with more
    hints never pays more than one solved with fewer. *)
Theorem xp_gained_decreases_with_hints (h1 h2 : Z) :
  0 <= h1 <= h2 ->
  NmapDojoApp.xp_gained h2 <= NmapDojoApp.xp_gained h1
  /\ (NmapDojoApp.xp_gained h1 = 100 \/ NmapDojoApp.xp_gained h1 = 50
      \/ NmapDojoApp.xp_gained h1 = 25).
Proof.
  intros H. unfold NmapDojoApp.xp_gained, XP_FIRST_TRY, XP_ONE_HINT, XP_TWO_HINTS.
  destruct (Z.eqb_spec h1 0), (Z.eqb_spec h1 1), (Z.eqb_spec h2 0), (Z.eqb_spec h2 1);
    lia.
Qed.

Lemma xp_gained_decreases_with_hints_witness :
  NmapDojoApp.xp_gained 3 <= NmapDojoApp.xp_gained 1.
Proof. apply (xp_gained_decreases_with_hints 1 3). lia. Defined.

(** X3. The topic and the difficulty of a prompt fit together: the topic
    comes from the combined list, and an advanced topic is only ever asked
    at difficulty Hard or Expert. *)
Theorem advanced_topics_are_hard (g : MissionGenerator.t) (topic : string) :
  fst (MissionGenerator.get_next_topic g) = Ret topic ->
  In topic ALL_TOPICS
  /\ (In topic ADVANCED_TOPICS ->
      MissionGenerator.get_difficulty (snd (MissionGenerator.get_next_topic g))
        = "Hard"%string
      \/ MissionGenerator.get_difficulty (snd (MissionGenerator.get_next_topic g))
        = "Expert"%string).
Proof.
  intros Ht.
  destruct (get_next_topic_in_range g) as [_ [topic' [Ht' Hn]]].
  rewrite Ht in Ht'. injection Ht' as <-.
  apply nth_error_In in Hn.
  unfold MissionGenerator.get_difficulty.
  cbn [MissionGenerator.get_next_topic snd MissionGenerator.level].
  unfold MissionGenerator.active_topics in Hn.
  destruct (Z.leb_spec (MissionGenerator.level g) 3) as [Hl | Hl].
  - split.
    + unfold ALL_TOPICS. apply in_or_app. left. exact Hn.
    + intros Ha. exfalso.
      cbn in Hn, Ha.
      repeat match goal with
             | H : _ \/ _ |- _ => destruct H
             | H : False |- _ => destruct H
             end; subst; discriminate.
  - split; [exact Hn|]. intros _.
    destruct (Z.leb_spec (MissionGenerator.level g) 2); [lia|].
    destruct (Z.eqb_spec (MissionGenerator.level g) 3); [lia|].
    destruct (Z.eqb_spec (MissionGenerator.level g) 4); [left | right]; reflexivity.
Qed.

Lemma advanced_topics_are_hard_witness :
  In "IPv6 Scanning"%string ALL_TOPICS
  /\ MissionGenerator.get_difficulty
       (snd (MissionGenerator.get_next_topic (MissionGenerator.mk true 4 7)))
     = "Hard"%string.
Proof.
  destruct (advanced_topics_are_hard (MissionGenerator.mk true 4 7)
              "IPv6 Scanning"%string eq_refl) as [Hin Hd].
  split; [exact Hin|].
  destruct (Hd ltac:(cbn; tauto)) as [H | H]; [exact H | discriminate H].
Defined.

End LevelsAndAwards.

(** ** The application: what a step does to the progress *)

(** Splits on the test or the scrutinee the goal is stuck on. *)
Ltac branch :=
  match goal with
  | |- context [match ?x with _ => _ end] =>
      lazymatch x with
      | context [match _ with _ => _ end] => fail
      | _ => destruct x eqn:?
      end
  end.

(** Projections of a state built by the setters of [NmapDojoApp]. *)
Ltac app_cbn :=
  try unfold NmapDojoApp.add_terminal_line, NmapDojoApp.set_loading,
             NmapDojoApp.save_progress in *;
  cbn [NmapDojoApp.xp NmapDojoApp.level NmapDojoApp.last_topic_index
       NmapDojoApp.missions_completed NmapDojoApp.current_mission
       NmapDojoApp.hints_used NmapDojoApp.mission_completed
       NmapDojoApp.command_history NmapDojoApp.history_index
       NmapDojoApp.terminal_output NmapDojoApp.command_input
       NmapDojoApp.explain_visible NmapDojoApp.loading NmapDojoApp.ai_model
       NmapDojoApp.command_validator NmapDojoApp.mission_generator
       NmapDojoApp.world NmapDojoApp.fs
       NmapDojoApp.with_xp NmapDojoApp.with_level NmapDojoApp.with_last_topic_index
       NmapDojoApp.with_missions_completed NmapDojoApp.with_current_mission
       NmapDojoApp.with_hints_used NmapDojoApp.with_mission_completed
       NmapDojoApp.with_command_history NmapDojoApp.with_history_index
       NmapDojoApp.with_terminal_output NmapDojoApp.with_command_input
       NmapDojoApp.with_explain_visible NmapDojoApp.with_loading
       NmapDojoApp.with_ai_model NmapDojoApp.with_command_validator
       NmapDojoApp.with_mission_generator NmapDojoApp.with_world NmapDojoApp.with_fs
       NmapDojoApp.add_terminal_line NmapDojoApp.set_loading
       NmapDojoApp.save_progress fst snd].

Ltac app_cbn_all :=
  try unfold NmapDojoApp.add_terminal_line, NmapDojoApp.set_loading,
             NmapDojoApp.save_progress in *;
  cbn [NmapDojoApp.xp NmapDojoApp.level NmapDojoApp.last_topic_index
       NmapDojoApp.missions_completed NmapDojoApp.current_mission
       NmapDojoApp.hints_used NmapDojoApp.mission_completed
       NmapDojoApp.command_history NmapDojoApp.history_index
       NmapDojoApp.terminal_output NmapDojoApp.command_input
       NmapDojoApp.explain_visible NmapDojoApp.loading NmapDojoApp.ai_model
       NmapDojoApp.command_validator NmapDojoApp.mission_generator
       NmapDojoApp.world NmapDojoApp.fs
       NmapDojoApp.with_xp NmapDojoApp.with_level NmapDojoApp.with_last_topic_index
       NmapDojoApp.with_missions_completed NmapDojoApp.with_current_mission
       NmapDojoApp.with_hints_used NmapDojoApp.with_mission_completed
       NmapDojoApp.with_command_history NmapDojoApp.with_history_index
       NmapDojoApp.with_terminal_output NmapDojoApp.with_command_input
       NmapDojoApp.with_explain_visible NmapDojoApp.with_loading
       NmapDojoApp.with_ai_model NmapDojoApp.with_command_validator
       NmapDojoApp.with_mission_generator NmapDojoApp.with_world NmapDojoApp.with_fs
       NmapDojoApp.add_terminal_line NmapDojoApp.set_loading
       NmapDojoApp.save_progress fst snd] in *.

Section AppProgress.

Import NmapDojoApp.

(** Printing many lines appends them to the terminal and does nothing
    else. *)
Lemma fold_lines_eq (color : string) (ls : list str) (a : t) :
  fold_left (fun x l => add_terminal_line [Str l] color x) ls a
  = with_terminal_output
      (terminal_output a ++ map (fun l => ([Str l], color)) ls) a.
Proof.
  revert a. induction ls as [|l ls IH]; intros a; cbn [fold_left map].
  - rewrite List.app_nil_r. destruct a. reflexivity.
  - rewrite IH. app_cbn. rewrite <- List.app_assoc. reflexivity.
Qed.

Lemma show_level_up_notification_eq (old_level new_level : Z) (a : t) :
  (old_level <? new_level) = true ->
  show_level_up_notification old_level new_level a
  = with_terminal_output
      (terminal_output a ++ level_up_lines old_level new_level) a.
Proof.
  intros H. unfold show_level_up_notification, level_up_lines. rewrite H.
  destruct (4 <=? new_level); app_cbn; rewrite <- !List.app_assoc; reflexivity.
Qed.

(** [award_xp], in full. *)
Lemma award_xp_eq (a : t) :
  let total := xp a + xp_gained (hints_used a) in
  let new_level := ProgressManager.calculate_level total in
  award_xp a
  = (total,
     with_terminal_output (terminal_output a ++ level_up_lines (level a) new_level)
       (with_level new_level (with_xp total a))).
Proof.
  cbv zeta. unfold award_xp. cbv zeta. unfold calculate_level. app_cbn.
  destruct (level a <? ProgressManager.calculate_level (xp a + xp_gained (hints_used a)))
    eqn:E.
  - rewrite show_level_up_notification_eq by exact E. reflexivity.
  - unfold level_up_lines. rewrite E. rewrite List.app_nil_r. reflexivity.
Qed.

(** The state after the success branch, in full. *)
Lemma correct_result_state (d : dict) (command : str) (a : t)
    (c : json) (s : str) :
  command_validator a <> None ->
  dict_get d (py "correct") = Some c ->
  truthy c = true ->
  match dict_get d (py "simulated_output") with
  | Some v => v
  | None => JString []
  end = JString s ->
  let feedback := match dict_get d (py "feedback") with
                  | Some x => x
                  | None => JString (py "Correct!")
                  end in
  let total := xp a + xp_gained (hints_used a) in
  let new_level := ProgressManager.calculate_level total in
  let completed := missions_completed a + 1 in
  process_validation_result (JObject d) command a
  = (Ret tt,
     with_explain_visible false
       (with_terminal_output
          (terminal_output a ++ success_lines s feedback (level a) new_level total)
          (with_fs (ProgressManager.save_progress
                      (mkProgress total new_level (last_topic_index a) completed)
                      (fs a))
             (with_missions_completed completed
                (with_mission_completed true
                   (with_level new_level (with_xp total a))))))).
Proof.
  intros Hv Hc Ht Hs. cbv zeta. unfold process_validation_result.
  destruct (command_validator a) eqn:Ev; [|congruence].
  unfold CommandValidator.process_validation_result, callbacks.
  cbn [CommandValidator.add_terminal_line CommandValidator.set_explain_visible
       CommandValidator.update_page CommandValidator.save_progress
       CommandValidator.update_missions_completed
       CommandValidator.set_mission_completed CommandValidator.award_xp].
  unfold py_get. rewrite Hc, Ht.
  destruct (dict_get d (py "simulated_output")) as [v|];
    [subst v | injection Hs as <-];
    rewrite fold_lines_eq;
    (destruct (dict_get d (py "feedback")) as [fb|]);
    rewrite award_xp_eq; cbv zeta; cbv beta iota;
    unfold success_lines, output_lines; app_cbn;
    rewrite <- !List.app_assoc; cbn [app]; reflexivity.
Qed.

(** X4. A verdict whose ['correct'] counts as true and whose simulated
    output is a string (or absent) is rewarded in full, as long as the new
    counters are integers Python agrees to print: XP goes up by the award
    for the hints used, the level is recomputed, the mission is marked
    completed and counted, the counters are saved, the explain button is
    hidden, and the terminal gets the simulated output line by line, the
    feedback, the level-up notice if any and the new total.  What counts as
    true is what [if] takes: a float does unless it is zero once read, as
    [1e-400] is. *)
Theorem correct_result_rewards (d : dict) (command : str) (a : t)
    (c : json) (s : str) :
  printable_counters
    (mkProgress (xp a + xp_gained (hints_used a))
                (ProgressManager.calculate_level (xp a + xp_gained (hints_used a)))
                (last_topic_index a) (missions_completed a + 1)) ->
  command_validator a <> None ->
  dict_get d (py "correct") = Some c ->
  truthy c = true ->
  match dict_get d (py "simulated_output") with
  | Some v => v
  | None => JString []
  end = JString s ->
  let feedback := match dict_get d (py "feedback") with
                  | Some x => x
                  | None => JString (py "Correct!")
                  end in
  let total := xp a + xp_gained (hints_used a) in
  let new_level := ProgressManager.calculate_level total in
  let completed := missions_completed a + 1 in
  process_validation_result (JObject d) command a
  = (Ret tt,
     with_explain_visible false
       (with_terminal_output
          (terminal_output a ++ success_lines s feedback (level a) new_level total)
          (with_fs (ProgressManager.save_progress
                      (mkProgress total new_level (last_topic_index a) completed)
                      (fs a))
             (with_missions_completed completed
                (with_mission_completed true
                   (with_level new_level (with_xp total a))))))).
Proof. intros _. exact (correct_result_state d command a c s). Qed.

Lemma correct_result_rewards_witness :
  let a := sample_app (scripted []) in
  let r := process_validation_result sample_verdict (py "nmap -sn 10.0.0.0/24") a in
  xp (snd r) = 330 /\ level (snd r) = 2 /\ missions_completed (snd r) = 3
  /\ mission_completed (snd r) = true.
Proof.
  cbv zeta. unfold sample_verdict.
  rewrite (correct_result_rewards
             [ (py "correct", JBool true);
               (py "feedback", JString (py "Well done"));
               (py "simulated_output", JString (py "Host is up")) ]
             (py "nmap -sn 10.0.0.0/24") (sample_app (scripted []))
             (JBool true) (py "Host is up")
             ltac:(vm_compute; repeat split; lia)
             ltac:(discriminate) eq_refl eq_refl eq_refl).
  repeat split.
Defined.

(** The success branch stops at [split] when the output is no string. *)
Lemma correct_result_no_text {S : Type} (d : dict) (command : str)
    (cb : CommandValidator.Callbacks S) (st : S) (c v : json) :
  dict_get d (py "correct") = Some c ->
  truthy c = true ->
  dict_get d (py "simulated_output") = Some v ->
  (forall s, v <> JString s) ->
  CommandValidator.process_validation_result (JObject d) command cb st
  = (Raise AttributeError,
     CommandValidator.add_terminal_line cb [Lit EmptyString] COLOR_TEXT_WHITE st).
Proof.
  intros Hc Ht Hs Hv. unfold CommandValidator.process_validation_result, py_get.
  rewrite Hc, Ht, Hs.
  destruct v; try reflexivity. exfalso. exact (Hv s eq_refl).
Qed.

(** X5. A verdict whose ['correct'] counts as true and whose simulated
    output is not a string is not rewarded: the method prints one blank line
    and raises [AttributeError] before [award_xp], [save_progress] or any
    other callback is called.  What counts as true is what [if] takes: a
    float does unless it is zero once read, as [1e-400] is. *)
Theorem correct_result_without_text_raises {S : Type} (d : dict) (command : str)
    (cb : CommandValidator.Callbacks S) (st : S) (c v : json) :
  dict_get d (py "correct") = Some c ->
  truthy c = true ->
  dict_get d (py "simulated_output") = Some v ->
  (forall s, v <> JString s) ->
  CommandValidator.process_validation_result (JObject d) command cb st
  = (Raise AttributeError,
     CommandValidator.add_terminal_line cb [Lit EmptyString] COLOR_TEXT_WHITE st).
Proof. exact (correct_result_no_text d command cb st c v). Qed.

Lemma correct_result_without_text_raises_witness :
  let r := process_validation_result
             (JObject [ (py "correct", JBool true);
                        (py "simulated_output", JArray [JString (py "Host is up")]) ])
             (py "nmap -sn 10.0.0.0/24") (sample_app (scripted [])) in
  fst r = Raise AttributeError /\ xp (snd r) = 280.
Proof.
  cbv zeta. unfold process_validation_result. cbn [command_validator sample_app].
  rewrite (correct_result_without_text_raises
             [ (py "correct", JBool true);
               (py "simulated_output", JArray [JString (py "Host is up")]) ]
             (py "nmap -sn 10.0.0.0/24") callbacks (sample_app (scripted []))
             (JBool true) (JArray [JString (py "Host is up")])
             eq_refl eq_refl eq_refl ltac:(discriminate)).
  split; reflexivity.
Defined.

(** *** One step: the progress is left alone or one mission is rewarded *)

Lemma fold_lines_unfolded (color : string) (ls : list str) (a : t) :
  fold_left (fun x l => with_terminal_output
                          (terminal_output x ++ [([Str l], color)]) x) ls a
  = with_terminal_output
      (terminal_output a ++ map (fun l => ([Str l], color)) ls) a.
Proof. exact (fold_lines_eq color ls a). Qed.

Ltac app_frame :=
  repeat first
    [ reflexivity
    | rewrite fold_lines_eq
    | rewrite fold_lines_unfolded
    | progress app_cbn
    | branch ].

Lemma views_untouched (a b a' b' : t) :
  before_view a = before_view b -> after_view a' = after_view b' ->
  untouched a a' -> untouched b b'.
Proof.
  unfold before_view, after_view, untouched. intros Hb Ha [Hx [Hl [Hm Hf]]].
  injection Hb as E1 E2 E3 E4 E5 E6. injection Ha as F1 F2 F3 F4 F5 F6 F7.
  repeat split; congruence.
Qed.

Lemma views_rewarded (a b a' b' : t) :
  before_view a = before_view b -> after_view a' = after_view b' ->
  rewarded a a' -> rewarded b b'.
Proof.
  unfold before_view, after_view, rewarded, counters.
  intros Hb Ha [Hx [Hl [Hm [Hc [He [Hi Hf]]]]]].
  injection Hb as E1 E2 E3 E4 E5 E6. injection Ha as F1 F2 F3 F4 F5 F6 F7.
  repeat split; congruence.
Qed.

Lemma same_views_untouched (a a' : t) :
  (xp a', level a', missions_completed a', fs a')
  = (xp a, level a, missions_completed a, fs a) ->
  untouched a a'.
Proof. intros H. injection H as E1 E2 E3 E4. repeat split; assumption. Qed.

Lemma incorrect_result_keeps_progress_helper (d : dict) (command : str) (a : t) :
  dict_get d (py "correct") = None \/ dict_get d (py "correct") = Some (JBool false) ->
  command_validator a <> None ->
  untouched a (snd (process_validation_result (JObject d) command a)).
Proof.
  intros Hc Hv. unfold process_validation_result.
  destruct (command_validator a) eqn:Ev; [|congruence].
  rewrite (incorrect_result_callbacks d command callbacks a Hc).
  apply same_views_untouched.
  cbn [snd fold_left incorrect_lines callbacks CommandValidator.add_terminal_line
       CommandValidator.set_explain_visible CommandValidator.update_page].
  app_cbn. reflexivity.
Qed.

(** The method of the validator with the callbacks of the application. *)
Lemma process_validation_result_progress (result : json) (command : str) (a : t) :
  untouched a (snd (process_validation_result result command a))
  \/ rewarded a (snd (process_validation_result result command a)).
Proof.
  destruct (command_validator a) eqn:Ev;
    [|left; unfold process_validation_result; rewrite Ev; repeat split; reflexivity].
  assert (Hv : command_validator a <> None) by congruence.
  destruct result as [| | | | | |d];
    try solve [left; unfold process_validation_result; rewrite Ev;
               repeat split; reflexivity].
  destruct (dict_get d (py "correct")) as [c|] eqn:Ec.
  - destruct (truthy c) eqn:Et.
    + destruct (dict_get d (py "simulated_output")) as [v|] eqn:Es.
      * destruct v as [| | | |s| |];
          try solve [left; unfold process_validation_result; rewrite Ev;
                     rewrite (correct_result_no_text d command callbacks a c _ Ec Et Es)
                       by discriminate;
                     apply same_views_untouched;
                     cbn [snd callbacks CommandValidator.add_terminal_line];
                     app_cbn; reflexivity].
        right.
        rewrite (correct_result_state d command a c s Hv Ec Et)
          by (rewrite Es; reflexivity).
        cbn [snd]. unfold rewarded, counters. app_cbn. repeat split.
      * right.
        rewrite (correct_result_state d command a c [] Hv Ec Et)
          by (rewrite Es; reflexivity).
        cbn [snd]. unfold rewarded, counters. app_cbn. repeat split.
    + left. unfold process_validation_result. rewrite Ev.
      unfold CommandValidator.process_validation_result, py_get. rewrite Ec, Et.
      destruct (dict_get d (py "feedback"));
        apply same_views_untouched;
        cbn [snd callbacks CommandValidator.add_terminal_line
             CommandValidator.set_explain_visible CommandValidator.update_page];
        app_cbn; reflexivity.
  - left. destruct (incorrect_result_keeps_progress_helper d command a (or_introl Ec) Hv)
      as [Hx [Hl [Hm Hf]]].
    repeat split; assumption.
Qed.

Ltac untouched_by_frame :=
  apply same_views_untouched; app_frame.

Lemma show_help_untouched (a : t) : untouched a (show_help a).
Proof. unfold show_help. untouched_by_frame. Qed.

Lemma show_status_untouched (a : t) : untouched a (show_status a).
Proof. unfold show_status. untouched_by_frame. Qed.

Lemma clear_terminal_untouched (a : t) : untouched a (clear_terminal a).
Proof. unfold clear_terminal. untouched_by_frame. Qed.

Lemma generate_mission_async_untouched (a : t) : untouched a (generate_mission_async a).
Proof. unfold generate_mission_async. untouched_by_frame. Qed.

Lemma on_get_hint_untouched (a : t) : untouched a (on_get_hint a).
Proof. unfold on_get_hint, get_hint, get_full_answer. untouched_by_frame. Qed.

Lemma on_explain_why_untouched (a : t) : untouched a (on_explain_why a).
Proof. unfold on_explain_why. untouched_by_frame. Qed.

Lemma on_key_down_untouched (k : key) (a : t) : untouched a (on_key_down k a).
Proof. unfold on_key_down. untouched_by_frame. Qed.

Lemma on_api_key_submit_untouched (value : str) (configured : bool) (a : t) :
  untouched a (on_api_key_submit value configured a).
Proof.
  unfold on_api_key_submit.
  destruct value; [repeat split|]. destruct configured.
  - match goal with
    | |- untouched _ (generate_mission_async ?x) =>
        apply (views_untouched x a (generate_mission_async x) (generate_mission_async x));
          [reflexivity | reflexivity | apply generate_mission_async_untouched]
    end.
  - untouched_by_frame.
Qed.

Lemma validate_command_async_progress (command : str) (a : t) :
  untouched a (validate_command_async command a)
  \/ rewarded a (validate_command_async command a).
Proof.
  unfold validate_command_async. cbv zeta.
  destruct (command_validator _) eqn:Ev; [|left; untouched_by_frame].
  destruct (truthy _); [|left; untouched_by_frame].
  destruct (CommandValidator.validate_command _ _ _ _ _) as [res w].
  destruct res as [result|e]; [|left; untouched_by_frame].
  destruct (truthy result); [|left; untouched_by_frame].
  match goal with
  | |- context [process_validation_result result command ?x] =>
      pose proof (process_validation_result_progress result command x) as Hx;
      destruct (process_validation_result result command x) as [r a'];
      cbn [snd] in Hx;
      destruct Hx as [Hx | Hx]; [left | right];
      [ apply (views_untouched x a a'); [reflexivity | | exact Hx]
      | apply (views_rewarded x a a'); [reflexivity | | exact Hx] ];
      destruct r; unfold after_view; app_cbn; reflexivity
  end.
Qed.

Lemma on_command_submit_progress (a : t) :
  untouched a (on_command_submit a) \/ rewarded a (on_command_submit a).
Proof.
  unfold on_command_submit. cbv zeta.
  destruct (strip (command_input a)) as [|c command]; [left; untouched_by_frame|].
  set (a1 := with_command_input [] _).
  assert (Hb : before_view a1 = before_view a) by reflexivity.
  destruct (lower_is _ _);
    [left; apply (views_untouched a1 a (show_help a1) (show_help a1) Hb eq_refl);
     apply show_help_untouched|].
  destruct (lower_is _ _);
    [left; apply (views_untouched a1 a (clear_terminal a1) (clear_terminal a1) Hb eq_refl);
     apply clear_terminal_untouched|].
  destruct (lower_is _ _);
    [left; apply (views_untouched a1 a (show_status a1) (show_status a1) Hb eq_refl);
     apply show_status_untouched|].
  destruct (negb (startswith _ _)); [left; untouched_by_frame|].
  destruct (negb (truthy _)); [left; untouched_by_frame|].
  match goal with
  | |- context [validate_command_async ?cmd ?x] =>
      destruct (validate_command_async_progress cmd x) as [H | H]; [left | right];
      [ apply (views_untouched x a _ _ eq_refl eq_refl H)
      | apply (views_rewarded x a _ _ eq_refl eq_refl H) ]
  end.
Qed.

(** One event and the progress. *)
Lemma step_progress (a : t) (e : event) :
  untouched a (step a e) \/ rewarded a (step a e).
Proof.
  destruct e; cbn [step].
  - destruct (on_command_submit_progress (with_command_input value a)) as [H | H];
      [left | right].
    + apply (views_untouched (with_command_input value a) a _ _ eq_refl eq_refl H).
    + apply (views_rewarded (with_command_input value a) a _ _ eq_refl eq_refl H).
  - left. apply on_key_down_untouched.
  - left. apply generate_mission_async_untouched.
  - left. apply on_get_hint_untouched.
  - left. apply on_explain_why_untouched.
  - left. apply on_api_key_submit_untouched.
Qed.


(** *** The level follows the XP *)

Lemma step_consistent (a : t) (e : event) :
  consistent a ->
  consistent (step a e) /\ level a <= level (step a e) <= level a + 1.
Proof.
  intros [Hx Hl].
  destruct (step_progress a e) as [[Ex [El _]] | [Ex [El _]]].
  - unfold consistent. rewrite Ex, El. repeat split; try assumption; lia.
  - pose proof (calculate_level_award (xp a) (hints_used a) Hx) as Hc.
    pose proof (xp_gained_positive (hints_used a)) as Hg.
    unfold consistent. rewrite El, Ex, Hl. repeat split; lia.
Qed.

(** X7. Once [level] is [calculate_level] of a non-negative [xp], it stays
    so for ever: after any events the level is the one the table gives for
    the XP, it has not gone down, and a single event raises it by at most
    one. *)
Theorem level_follows_xp (a : t) (es : list event) :
  consistent a ->
  consistent (exec a es)
  /\ level a <= level (exec a es)
  /\ (forall e, level a <= level (step a e) <= level a + 1).
Proof.
  intros Hc. split; [|split].
  - revert a Hc. induction es as [|e es IH]; intros a Hc; [exact Hc|].
    apply (IH (step a e)). apply step_consistent. exact Hc.
  - revert a Hc. induction es as [|e es IH]; intros a Hc; [cbn; lia|].
    destruct (step_consistent a e Hc) as [Hc' Hl].
    specialize (IH (step a e) Hc'). cbn [exec fold_left] in *. unfold exec in IH. lia.
  - intros e. apply step_consistent. exact Hc.
Qed.

Lemma level_follows_xp_witness :
  let a := sample_app (scripted [sample_verdict_text]) in
  level (exec a [CommandSubmit (py "nmap -sn 10.0.0.0/24")]) = 2
  /\ xp (exec a [CommandSubmit (py "nmap -sn 10.0.0.0/24")]) = 330.
Proof.
  cbv zeta.
  destruct (level_follows_xp (sample_app (scripted [sample_verdict_text]))
              [CommandSubmit (py "nmap -sn 10.0.0.0/24")])
    as [[_ Hl] _].
  - split; [cbn; lia | reflexivity].
  - split; [rewrite Hl|]; vm_compute; reflexivity.
Defined.

(** *** The progress file follows the counters *)

(** Loading what was just saved (the file of C7, read by any manager). *)
Lemma load_after_save (spare : nat) (data : ProgressData Z)
    (pm : ProgressManager.t) (d : disk) :
  writable d = true ->
  printable_counters data ->
  ProgressManager.load_progress spare pm (ProgressManager.save_progress data d)
  = (Ret (progress_map JInt data),
     ProgressManager.mk (JInt (pd_xp data)) (JInt (pd_level data))
                        (JInt (pd_last_topic_index data))
                        (JInt (pd_missions_completed data))).
Proof.
  intros Hw [Hx [Hl [Hi Hm]]]. unfold ProgressManager.save_progress. rewrite Hw.
  unfold ProgressManager.load_progress. cbn [progress_file].
  unfold progress_items at 1.
  rewrite json_loads_dump
    by (try reflexivity; repeat (constructor; [assumption|]); constructor).
  change (map member_value
            [("xp"%string, pd_xp data); ("level"%string, pd_level data);
             ("last_topic_index"%string, pd_last_topic_index data);
             ("missions_completed"%string, pd_missions_completed data)])
    with (map member_value (progress_items data)).
  rewrite progress_items_dict.
  reflexivity.
Qed.

(** X8. Whenever an event has changed the XP, the disk can be written and
    the new counters are integers Python agrees to print (at most 4300
    digits each), the progress file holds the counters now on screen: a
    manager started afresh loads exactly [xp], [level], [last_topic_index]
    and [missions_completed] of the application. *)
Theorem rewarded_progress_survives_restart (spare : nat) (a : t) (e : event) :
  writable (fs a) = true ->
  printable_counters (counters (step a e)) ->
  xp (step a e) <> xp a ->
  fst (ProgressManager.load_progress spare ProgressManager.init (fs (step a e)))
  = Ret (progress_map JInt (counters (step a e))).
Proof.
  intros Hw Hp Hx.
  destruct (step_progress a e) as [[Ex _] | [_ [_ [_ [_ [_ [_ Hf]]]]]]];
    [congruence|].
  rewrite Hf. rewrite load_after_save by assumption. reflexivity.
Qed.

Lemma rewarded_progress_survives_restart_witness :
  let a := sample_app (scripted [sample_verdict_text]) in
  fst (ProgressManager.load_progress 0 ProgressManager.init
         (fs (step a (CommandSubmit (py "nmap -sn 10.0.0.0/24")))))
  = Ret (mkProgress (JInt 330) (JInt 2) (JInt 0) (JInt 3)).
Proof.
  cbv zeta.
  rewrite (rewarded_progress_survives_restart 0
             (sample_app (scripted [sample_verdict_text]))
             (CommandSubmit (py "nmap -sn 10.0.0.0/24")) eq_refl
             ltac:(vm_compute; repeat split; lia)
             ltac:(vm_compute; discriminate)).
  vm_compute. reflexivity.
Defined.

(** *** A command that reaches the model *)

Lemma startswith_nmap (command : str) :
  startswith command "nmap" = true ->
  command <> []
  /\ lower_is command "help" = false
  /\ lower_is command "clear" = false
  /\ lower_is command "status" = false.
Proof.
  unfold startswith. intros H.
  destruct command as [|c1 command]; [discriminate H|].
  cbn [py list_ascii_of_string map strip_prefix] in H.
  destruct (N.eqb_spec (N_of_ascii "n") c1) as [<-|]; [|discriminate H].
  split; [discriminate|]. repeat split; reflexivity.
Qed.

(** A mission on which the prompt of the validator can be built is a dict
    with at least one key, so it counts as true. *)
Lemma validation_prompt_truthy (command : str) (mission : json) (p : Prompt) :
  CommandValidator.validation_prompt command mission = Ret p ->
  truthy mission = true.
Proof.
  unfold CommandValidator.validation_prompt, py_getitem.
  destruct mission as [| | | | | |d]; try discriminate.
  destruct d as [|kv d]; [discriminate | reflexivity].
Qed.

(** A submitted nmap command whose verdict comes back correct at once. *)
Lemma command_rewarded_state (a : t) (value text s : str) (d : dict)
    (v : CommandValidator.t) (p : Prompt) (c : json) :
  command_validator a = Some v ->
  CommandValidator.model v = true ->
  startswith (strip value) "nmap" = true ->
  CommandValidator.validation_prompt (strip value) (current_mission a) = Ret p ->
  answers (world a) 0 text ->
  json_loads (room (world a) 0) (clean_response text) = Ret (JObject d) ->
  dict_get d (py "correct") = Some c ->
  truthy c = true ->
  dict_get d (py "simulated_output") = Some (JString s) ->
  rewarded a (step a (CommandSubmit value))
  /\ calls (world (step a (CommandSubmit value))) = S (calls (world a)).
Proof.
  intros Ev Hm Hn Hp Ha Hd Hc Ht Hs.
  destruct (startswith_nmap _ Hn) as [Hne [H1 [H2 H3]]].
  pose proof (validation_prompt_truthy _ _ _ Hp) as Htm.
  assert (Htd : truthy (JObject d) = true).
  { destruct d; [discriminate Hc | reflexivity]. }
  cbn [step]. unfold on_command_submit. cbv zeta. app_cbn.
  destruct (strip value) as [|c0 command] eqn:Es; [congruence|].
  rewrite H1, H2, H3, Hn. cbn [negb]. app_cbn. rewrite Htm. cbn [negb].
  unfold validate_command_async. cbv zeta. app_cbn.
  rewrite Ev, Htm.
  rewrite (validate_command_first_try v (c0 :: command) (current_mission a) 0
             (world a) p text (JObject d) Hm Htm Hp Ha Hd).
  rewrite Htd.
  match goal with
  | |- context [process_validation_result (JObject d) ?cmd ?x] =>
      rewrite (correct_result_state d cmd x c s)
        by (try assumption; try (rewrite Hs; reflexivity);
            app_cbn; rewrite Ev; discriminate)
  end.
  split.
  - unfold rewarded, counters. app_cbn. repeat split.
  - app_cbn. reflexivity.
Qed.

(** X9. [on_command_submit] does not look at [mission_completed]: an nmap
    command whose verdict decodes and counts as correct is rewarded whether
    or not the mission was completed before, so submitting the solution of
    a completed mission again pays the award again (one more request to the
    model each time).  The counters are taken to stay integers Python
    agrees to print. *)
Theorem completed_mission_pays_again (a : t) (value text s : str) (d : dict)
    (v : CommandValidator.t) (p : Prompt) (c : json) :
  mission_completed a = true ->
  printable_counters (counters (step a (CommandSubmit value))) ->
  command_validator a = Some v ->
  CommandValidator.model v = true ->
  startswith (strip value) "nmap" = true ->
  CommandValidator.validation_prompt (strip value) (current_mission a) = Ret p ->
  answers (world a) 0 text ->
  json_loads (room (world a) 0) (clean_response text) = Ret (JObject d) ->
  dict_get d (py "correct") = Some c ->
  truthy c = true ->
  dict_get d (py "simulated_output") = Some (JString s) ->
  rewarded a (step a (CommandSubmit value))
  /\ calls (world (step a (CommandSubmit value))) = S (calls (world a)).
Proof. intros _ _. apply command_rewarded_state. Qed.

Lemma completed_mission_pays_again_witness :
  let a := sample_app (scripted [sample_verdict_text; sample_verdict_text]) in
  let e := CommandSubmit (py "nmap -sn 10.0.0.0/24") in
  mission_completed (step a e) = true
  /\ xp (step (step a e) e) = 280 + 50 + 50
  /\ missions_completed (step (step a e) e) = 4.
Proof.
  cbv zeta.
  set (a1 := step (sample_app (scripted [sample_verdict_text; sample_verdict_text]))
                  (CommandSubmit (py "nmap -sn 10.0.0.0/24"))).
  assert (H1 : mission_completed a1 = true) by (vm_compute; reflexivity).
  split; [exact H1|].
  destruct (completed_mission_pays_again a1 (py "nmap -sn 10.0.0.0/24")
              sample_verdict_text (py "Host is up")
              [ (py "correct", JBool true);
                (py "feedback", JString (py "Well done"));
                (py "simulated_output", JString (py "Host is up")) ]
              (CommandValidator.mk true)
              (ValidationPrompt (JString (py "Operation Dawn"))
                                (JString (py "Find the live hosts"))
                                (JString (py "10.0.0.0/24"))
                                (JString (py "Easy"))
                                (JString (py "Host Discovery"))
                                (py "nmap -sn 10.0.0.0/24"))
              (JBool true)
              H1
              ltac:(vm_compute; repeat split; lia)
              ltac:(vm_compute; reflexivity) eq_refl
              ltac:(vm_compute; reflexivity) ltac:(vm_compute; reflexivity)
              ltac:(intros q; vm_compute; reflexivity)
              ltac:(vm_compute; reflexivity) eq_refl eq_refl eq_refl)
    as [[Hx [_ [Hm _]]] _].
  split.
  - rewrite Hx. vm_compute. reflexivity.
  - rewrite Hm. vm_compute. reflexivity.
Defined.

(** *** Commands that never reach the model *)

(** X10. A submitted command makes no request to the model, and changes
    neither the disk, the counters, the mission nor the hints, unless its
    stripped text starts with [nmap] (in lower case), a mission is active and
    a validator exists: [help], [clear], [status], an empty line and any
    other text only print. *)
Theorem command_not_sent (a : t) (value : str) :
  startswith (strip value) "nmap" = false
  \/ truthy (current_mission a) = false
  \/ command_validator a = None ->
  quiet_view (step a (CommandSubmit value)) = quiet_view a.
Proof.
  intros H. cbn [step]. unfold on_command_submit. cbv zeta. app_cbn.
  destruct (strip value) as [|c0 command] eqn:Es; [reflexivity|].
  destruct (lower_is _ _); [unfold show_help, quiet_view; app_frame|].
  destruct (lower_is _ _); [unfold clear_terminal, quiet_view; app_frame|].
  destruct (lower_is _ _); [unfold show_status, quiet_view; app_frame|].
  destruct (startswith (c0 :: command) "nmap") eqn:En; cbn [negb]; [|reflexivity].
  app_cbn.
  destruct (truthy (current_mission a)) eqn:Et; cbn [negb]; [|reflexivity].
  destruct H as [H | [H | H]]; [congruence | discriminate H |].
  unfold validate_command_async. cbv zeta. app_cbn.
  destruct (command_validator a); [discriminate H | reflexivity].
Qed.

Lemma command_not_sent_witness :
  let a := sample_app (scripted [sample_verdict_text]) in
  calls (world (step a (CommandSubmit (py "  NMAP -sn 10.0.0.0/24 ")))) = 0%nat
  /\ xp (step a (CommandSubmit (py "  NMAP -sn 10.0.0.0/24 "))) = 280.
Proof.
  cbv zeta.
  assert (Hn : startswith (strip (py "  NMAP -sn 10.0.0.0/24 ")) "nmap" = false)
    by (vm_compute; reflexivity).
  pose proof (command_not_sent (sample_app (scripted [sample_verdict_text]))
                (py "  NMAP -sn 10.0.0.0/24 ") (or_introl Hn)) as H.
  pose proof (f_equal (fun q => match q with (w, _, _, _, _, _, _, _, _) => w end) H)
    as Hw.
  pose proof (f_equal (fun q => match q with (_, _, x, _, _, _, _, _, _) => x end) H)
    as Hx.
  unfold quiet_view in Hw, Hx. cbv beta iota in Hw, Hx.
  rewrite Hw, Hx. split; reflexivity.
Defined.

(** *** What the validation result never touches *)

Lemma process_validation_result_ui (result : json) (command : str) (a : t) :
  ui_view (snd (process_validation_result result command a)) = ui_view a.
Proof.
  unfold process_validation_result.
  destruct (command_validator a) eqn:Ev; [|reflexivity].
  unfold CommandValidator.process_validation_result, callbacks.
  cbn [CommandValidator.add_terminal_line CommandValidator.set_explain_visible
       CommandValidator.update_page CommandValidator.save_progress
       CommandValidator.update_missions_completed
       CommandValidator.set_mission_completed CommandValidator.award_xp].
  destruct (py_get result (py "correct") (JBool false)) as [c|]; [|reflexivity].
  destruct (truthy c).
  - destruct (py_get result (py "simulated_output") (JString [])) as [sim|];
      [|unfold ui_view; app_cbn; rewrite Ev; reflexivity].
    destruct sim; try (unfold ui_view; app_cbn; rewrite Ev; reflexivity).
    destruct (py_get result (py "feedback") (JString (py "Correct!")));
      [|unfold ui_view; rewrite fold_lines_eq; app_cbn; rewrite Ev; reflexivity].
    rewrite award_xp_eq. cbv zeta. cbv beta iota.
    rewrite fold_lines_eq. unfold ui_view. app_cbn. rewrite Ev. reflexivity.
  - destruct (py_get result (py "feedback") (JString (py "Incorrect.")));
      unfold ui_view; app_cbn; rewrite Ev; reflexivity.
Qed.

Lemma ui_view_loading (a b : t) : ui_view a = ui_view b -> loading a = loading b.
Proof.
  intros H.
  exact (f_equal (fun q => match q with (l, _, _, _, _, _, _, _, _, _, _) => l end) H).
Qed.

Lemma ui_view_history (a b : t) :
  ui_view a = ui_view b ->
  command_history a = command_history b
  /\ history_index a = history_index b
  /\ command_input a = command_input b.
Proof.
  intros H. unfold ui_view in H.
  injection H as _ _ _ _ _ Hh Hi Hc _ _ _. repeat split; assumption.
Qed.

Lemma ui_view_index (a b : t) :
  ui_view a = ui_view b -> last_topic_index a = last_topic_index b.
Proof.
  intros H.
  exact (f_equal (fun q => match q with (_, _, _, _, i, _, _, _, _, _, _) => i end) H).
Qed.

(** [validate_command_async] always ends with the loading flag down and
    leaves history, input and topic index alone. *)
Lemma validate_command_async_ui (command : str) (a : t) :
  loading (validate_command_async command a) = false
  /\ command_history (validate_command_async command a) = command_history a
  /\ history_index (validate_command_async command a) = history_index a
  /\ command_input (validate_command_async command a) = command_input a
  /\ last_topic_index (validate_command_async command a) = last_topic_index a.
Proof.
  unfold validate_command_async. cbv zeta.
  destruct (command_validator _) eqn:Ev; [|app_cbn; repeat split].
  destruct (truthy _); [|app_cbn; repeat split].
  destruct (CommandValidator.validate_command _ _ _ _ _) as [res w].
  destruct res as [result|e]; [|app_cbn; repeat split].
  destruct (truthy result); [|app_cbn; repeat split].
  match goal with
  | |- context [process_validation_result result command ?x] =>
      pose proof (process_validation_result_ui result command x) as Hx;
      destruct (process_validation_result result command x) as [r a'];
      cbn [snd] in Hx;
      destruct (ui_view_history _ _ Hx) as [Hh [Hi Hc]];
      pose proof (ui_view_index _ _ Hx) as Hk
  end.
  destruct r; app_cbn_all; repeat split; assumption.
Qed.

(** X11. No event leaves the interface in its loading state: if the input
    and the buttons were enabled before an event, they are enabled after
    it, whether the model answered, failed or sent something that could not
    be used. *)
Theorem loading_is_always_reset (a : t) (e : event) :
  loading a = false -> loading (step a e) = false.
Proof.
  intros Hl. destruct e; cbn [step].
  - unfold on_command_submit. cbv zeta.
    destruct (strip _); [app_cbn; exact Hl|].
    destruct (lower_is _ _); [unfold show_help; app_cbn; exact Hl|].
    destruct (lower_is _ _); [unfold clear_terminal; app_cbn; exact Hl|].
    destruct (lower_is _ _);
      [unfold show_status; repeat branch; app_cbn; exact Hl|].
    destruct (negb (startswith _ _)); [app_cbn; exact Hl|].
    destruct (negb (truthy _)); [app_cbn; exact Hl|].
    apply validate_command_async_ui.
  - unfold on_key_down. repeat branch; app_cbn; exact Hl.
  - unfold on_new_mission, generate_mission_async. app_cbn. reflexivity.
  - unfold on_get_hint, get_hint, get_full_answer.
    repeat branch; app_cbn; try reflexivity; exact Hl.
  - unfold on_explain_why. repeat branch; app_cbn; try reflexivity; exact Hl.
  - unfold on_api_key_submit, generate_mission_async.
    repeat branch; app_cbn; try reflexivity; exact Hl.
Qed.

Lemma loading_is_always_reset_witness :
  loading (step (sample_app (scripted [py "Sorry, I cannot."]))
                (CommandSubmit (py "nmap -sn 10.0.0.0/24"))) = false.
Proof.
  apply (loading_is_always_reset (sample_app (scripted [py "Sorry, I cannot."]))
           (CommandSubmit (py "nmap -sn 10.0.0.0/24"))).
  reflexivity.
Defined.

(** *** The command history *)

Lemma last_rev_head {A} (l : list A) (x d : A) (r : list A) :
  rev l = x :: r -> last l d = x.
Proof.
  intros H. apply (f_equal (@rev A)) in H. rewrite rev_involutive in H.
  subst l. cbn [rev]. apply last_last.
Qed.

Lemma remember_spec (command : str) (history : list str) :
  (length history <= 10)%nat ->
  (length (remember command history) <= 10)%nat
  /\ last (remember command history) [] = command.
Proof.
  intros Hl. unfold remember, MAX_COMMAND_HISTORY.
  assert (Hfresh : forall h : list str,
             h = history ++ [command] ->
             (length (if (10 <? Z.of_nat (length h))%Z then tl h else h) <= 10)%nat
             /\ last (if 10 <? Z.of_nat (length h) then tl h else h) [] = command).
  { intros h ->. rewrite length_app. cbn [length].
    destruct (Z.ltb_spec 10 (Z.of_nat (length history + 1))) as [Hgt | Hle].
    - destruct history as [|x history]; [cbn in Hgt; lia|].
      cbn [app tl length] in *. rewrite length_app. cbn [length].
      split; [lia | apply last_last].
    - rewrite length_app. cbn [length]. split; [lia | apply last_last]. }
  destruct (rev history) as [|newest r] eqn:Er.
  - apply Hfresh. reflexivity.
  - destruct (str_eqb newest command) eqn:Eq; cbn [negb].
    + apply str_eqb_eq in Eq. subst newest.
      split; [exact Hl | apply (last_rev_head _ _ _ _ Er)].
    + apply Hfresh. reflexivity.
Qed.

(** The history and the input after a submitted command, whichever branch
    handles it. *)
Lemma on_command_submit_history (a : t) (c : N) (command : str) :
  strip (command_input a) = c :: command ->
  command_history (on_command_submit a) = remember (c :: command) (command_history a)
  /\ history_index (on_command_submit a)
     = Z.of_nat (length (remember (c :: command) (command_history a)))
  /\ command_input (on_command_submit a) = [].
Proof.
  intros Es. unfold on_command_submit. cbv zeta. rewrite Es.
  destruct (lower_is _ _); [unfold show_help; app_cbn; repeat split|].
  destruct (lower_is _ _); [unfold clear_terminal; app_cbn; repeat split|].
  destruct (lower_is _ _);
    [unfold show_status; repeat branch; app_cbn; repeat split|].
  destruct (negb (startswith _ _)); [app_cbn; repeat split|].
  destruct (negb (truthy _)); [app_cbn; repeat split|].
  match goal with
  | |- context [validate_command_async ?cmd ?x] =>
      destruct (validate_command_async_ui cmd x) as [_ [Hh [Hi [Hc _]]]];
      rewrite Hh, Hi, Hc
  end.
  app_cbn. repeat split.
Qed.

(** X12. A submitted command that is not blank is remembered: whatever the
    command does, afterwards the history ends with its stripped text (added
    unless it repeats the newest entry), holds at most ten entries when it
    did before (the oldest one is dropped), the history cursor stands after
    the last entry and the input field is empty.  A blank command changes
    none of these. *)
Theorem submitted_command_is_remembered (a : t) (value : str) :
  (length (command_history a) <= 10)%nat ->
  let a' := step a (CommandSubmit value) in
  (strip value <> [] ->
   (length (command_history a') <= 10)%nat
   /\ last (command_history a') [] = strip value
   /\ history_index a' = Z.of_nat (length (command_history a'))
   /\ command_input a' = [])
  /\ (strip value = [] ->
      command_history a' = command_history a
      /\ history_index a' = history_index a).
Proof.
  intros Hl. cbv zeta. cbn [step]. split.
  - intros Hne. destruct (strip value) as [|c command] eqn:Es; [congruence|].
    destruct (on_command_submit_history (with_command_input value a) c command Es)
      as [Hh [Hi Hc]].
    rewrite Hh, Hi, Hc. app_cbn.
    destruct (remember_spec (c :: command) (command_history a) Hl) as [H1 H2].
    repeat split; assumption.
  - intros Es. unfold on_command_submit. cbv zeta. app_cbn. rewrite Es.
    app_cbn. split; reflexivity.
Qed.

Lemma submitted_command_is_remembered_witness :
  let a := sample_app (scripted []) in
  last (command_history (step a (CommandSubmit (py "  help ")))) [] = py "help"
  /\ history_index (step a (CommandSubmit (py "  help "))) = 1.
Proof.
  cbv zeta.
  destruct (submitted_command_is_remembered (sample_app (scripted [])) (py "  help ")
              ltac:(cbn; lia)) as [H _].
  destruct (H ltac:(vm_compute; discriminate)) as [_ [Hlast [Hi _]]].
  split.
  - rewrite Hlast. vm_compute. reflexivity.
  - rewrite Hi. vm_compute. reflexivity.
Defined.

(** X13. Walking the history: from a cursor that stands on or after an
    entry, Arrow Up moves it one entry back and shows that entry, and Arrow
    Down then brings it back to where it was, showing the entry there or,
    at the end of the history, an empty input. *)
Theorem arrow_up_then_down (a : t) :
  0 < history_index a <= Z.of_nat (length (command_history a)) ->
  let up := on_key_down ArrowUp a in
  let down := on_key_down ArrowDown up in
  history_index up = history_index a - 1
  /\ nth_error (command_history a) (Z.to_nat (history_index a - 1))
     = Some (command_input up)
  /\ history_index down = history_index a
  /\ command_history down = command_history a
  /\ (history_index a = Z.of_nat (length (command_history a)) -> command_input down = [])
  /\ (history_index a < Z.of_nat (length (command_history a)) ->
      nth_error (command_history a) (Z.to_nat (history_index a))
      = Some (command_input down)).
Proof.
  intros [Hlo Hhi]. cbv zeta.
  assert (Hup : exists x,
             on_key_down ArrowUp a
             = with_command_input x (with_history_index (history_index a - 1) a)
             /\ nth_error (command_history a) (Z.to_nat (history_index a - 1)) = Some x).
  { unfold on_key_down.
    destruct (command_history a) as [|h0 h] eqn:Eh; [cbn [length] in Hhi; lia|].
    destruct (Z.ltb_spec 0 (history_index a)); [|lia].
    app_cbn. rewrite Eh.
    destruct (py_index_in_range (h0 :: h) (history_index a - 1) ltac:(lia))
      as [x [Hx Hn]].
    rewrite Hx. exists x. split; [reflexivity | exact Hn]. }
  destruct Hup as [x [Eup Hx]]. rewrite Eup. app_cbn.
  split; [reflexivity|]. split; [exact Hx|].
  unfold on_key_down. app_cbn.
  replace (history_index a - 1 + 1) with (history_index a) by lia.
  destruct (Z.ltb_spec (history_index a - 1)
                       (Z.of_nat (length (command_history a)) - 1)) as [Hlt | Hge].
  - destruct (py_index_in_range (command_history a) (history_index a) ltac:(lia))
      as [y [Hy Hn]].
    rewrite Hy. app_cbn.
    split; [reflexivity|]. split; [reflexivity|].
    split; [intros; lia | intros _; exact Hn].
  - app_cbn. split; [lia|]. split; [reflexivity|].
    split; [reflexivity | intros; lia].
Qed.

Lemma arrow_up_then_down_witness :
  let a := with_history_index 2
             (with_command_history [py "nmap -sn 10.0.0.1"; py "status"]
                (sample_app (scripted []))) in
  command_input (on_key_down ArrowUp a) = py "status"
  /\ history_index (on_key_down ArrowDown (on_key_down ArrowUp a)) = 2.
Proof.
  cbv zeta.
  destruct (arrow_up_then_down
              (with_history_index 2
                 (with_command_history [py "nmap -sn 10.0.0.1"; py "status"]
                    (sample_app (scripted []))))
              ltac:(cbn; lia)) as [_ [Hx [Hi _]]].
  split; [|exact Hi].
  apply (f_equal (fun o => match o with Some x => x | None => [] end)) in Hx.
  symmetry. exact Hx.
Defined.

(** *** The topic index *)

(** Whatever [generate_mission] returns, the generator keeps its level and
    its model, and its index is as it was (no model) or names a topic of
    the active list. *)
Lemma generate_mission_rec_generator (budget : nat) :
  forall (g : MissionGenerator.t) (retry : Z) (w : World),
    let g' := snd (fst (MissionGenerator.generate_mission_rec budget g retry w)) in
    MissionGenerator.level g' = MissionGenerator.level g
    /\ MissionGenerator.model g' = MissionGenerator.model g
    /\ (g' = g
        \/ 0 <= MissionGenerator.last_topic_index g'
           < Z.of_nat (length (MissionGenerator.active_topics g))).
Proof.
  induction budget as [|b IH]; intros g retry w; cbv zeta;
    cbn [MissionGenerator.generate_mission_rec];
    (destruct (negb (MissionGenerator.model g)); [cbn; auto|]);
    pose proof (get_next_topic_in_range g) as [Hr _];
    (assert (Hl : MissionGenerator.level (snd (MissionGenerator.get_next_topic g))
                  = MissionGenerator.level g) by reflexivity);
    (assert (Hm : MissionGenerator.model (snd (MissionGenerator.get_next_topic g))
                  = MissionGenerator.model g) by reflexivity);
    destruct (MissionGenerator.get_next_topic g) as [r g1];
    cbn [snd] in Hr, Hl, Hm;
    (destruct r as [topic|e]; [|cbn [fst snd]; auto]);
    (destruct (generate_content w _) as [reply w1]);
    (destruct (decode_reply w (calls w) reply) as [mission|e];
     [cbn [fst snd]; auto|]);
    destruct (is_decode_error e);
    (destruct (retry <? 2); [|cbn [fst snd]; auto]);
    try (cbn [fst snd]; auto; fail).
  all: match goal with
       | IH' : forall g retry w, _
         |- context [MissionGenerator.generate_mission_rec _ ?g2 ?r ?w'] =>
           destruct (IH' g2 r w') as [Il [Im Ii]]
       end;
       (split; [congruence|]); (split; [congruence|]); right;
       (destruct Ii as [-> | Ii]; [exact Hr|]);
       unfold MissionGenerator.active_topics in *; rewrite Hl in Ii; exact Ii.
Qed.

Lemma generate_mission_async_index (a : t) :
  last_topic_index (generate_mission_async a) = last_topic_index a
  \/ 0 <= last_topic_index (generate_mission_async a) < (if level a <=? 3 then 7 else 12).
Proof.
  unfold generate_mission_async. cbv zeta. app_cbn.
  destruct (mission_generator a) as [g|]; [|left; reflexivity].
  unfold MissionGenerator.generate_mission.
  match goal with
  | |- context [MissionGenerator.generate_mission_rec ?b ?g0 ?r ?w] =>
      pose proof (generate_mission_rec_generator b g0 r w) as Hg;
      destruct (MissionGenerator.generate_mission_rec b g0 r w) as [[res g'] w']
  end.
  cbv zeta in Hg. cbn [fst snd] in Hg. destruct Hg as [_ [_ Hi]].
  rewrite active_topics_length in Hi. cbn [MissionGenerator.level] in Hi.
  destruct res as [mission|e]; [|left; app_cbn; reflexivity].
  destruct (truthy mission); [|left; app_cbn; reflexivity].
  assert (Hgoal : last_topic_index a = MissionGenerator.last_topic_index g'
                  \/ 0 <= MissionGenerator.last_topic_index g'
                     < (if level a <=? 3 then 7 else 12)).
  { destruct Hi as [-> | Hi]; [left; reflexivity | right; exact Hi]. }
  repeat branch; app_cbn;
    (destruct Hgoal as [Hs | Hs]; [left; symmetry; exact Hs | right; exact Hs]).
Qed.

Lemma step_index (a : t) (e : event) :
  last_topic_index (step a e) = last_topic_index a
  \/ 0 <= last_topic_index (step a e) < (if level a <=? 3 then 7 else 12).
Proof.
  destruct e; cbn [step].
  - left. unfold on_command_submit. cbv zeta.
    destruct (strip _); [app_cbn; reflexivity|].
    destruct (lower_is _ _); [unfold show_help; app_cbn; reflexivity|].
    destruct (lower_is _ _); [unfold clear_terminal; app_cbn; reflexivity|].
    destruct (lower_is _ _);
      [unfold show_status; repeat branch; app_cbn; reflexivity|].
    destruct (negb (startswith _ _)); [app_cbn; reflexivity|].
    destruct (negb (truthy _)); [app_cbn; reflexivity|].
    match goal with
    | |- context [validate_command_async ?cmd ?x] =>
        destruct (validate_command_async_ui cmd x) as [_ [_ [_ [_ Hk]]]]; rewrite Hk
    end.
    app_cbn. reflexivity.
  - left. unfold on_key_down. app_frame.
  - apply generate_mission_async_index.
  - left. unfold on_get_hint, get_hint, get_full_answer. app_frame.
  - left. unfold on_explain_why. app_frame.
  - unfold on_api_key_submit.
    destruct value; [left; reflexivity|].
    destruct configured; [|left; app_cbn; reflexivity].
    match goal with
    | |- context [generate_mission_async ?x] =>
        exact (generate_mission_async_index x)
    end.
Qed.

(** X14. The topic index stays in range: an event leaves
    [last_topic_index] as it is or sets it to a position of the topic list
    of the current level (0..6 up to level 3, 0..11 above); so an index that
    starts between -1 and 11 stays there for ever. *)
Theorem topic_index_stays_in_range (a : t) (es : list event) :
  -1 <= last_topic_index a <= 11 ->
  -1 <= last_topic_index (exec a es) <= 11
  /\ (forall e,
         last_topic_index (step a e) = last_topic_index a
         \/ 0 <= last_topic_index (step a e) < (if level a <=? 3 then 7 else 12)).
Proof.
  intros H. split; [|intros e; apply step_index].
  revert a H. induction es as [|e es IH]; intros a H; [exact H|].
  cbn [exec fold_left]. apply (IH (step a e)).
  destruct (step_index a e) as [E | E]; [lia|].
  destruct (level a <=? 3); lia.
Qed.

Lemma topic_index_stays_in_range_witness :
  let a := with_last_topic_index 6 (sample_app (scripted [sample_mission_text])) in
  -1 <= last_topic_index (exec a [NewMission]) <= 11.
Proof.
  cbv zeta.
  apply (topic_index_stays_in_range
           (with_last_topic_index 6 (sample_app (scripted [sample_mission_text])))
           [NewMission]).
  cbn. lia.
Defined.

(** *** Attempts that end in an exception *)

(** X15. The two [except] clauses together.  Whenever every attempt ends
    in an exception (raised by the call to the model, or by [json.loads] on
    its reply), [generate_mission] makes exactly three requests, on three
    successive topics, and [validate_command] exactly two, with the same
    prompt and no pause.  [JSONDecodeError] goes to the first clause,
    wherever it comes from: 3 seconds of sleep per attempt made, and [None]
    at the end.  Every other exception, such as the [ValueError] of an
    integer of more than 4300 digits or the [RecursionError] of nesting too
    deep, goes to the second: 5 seconds per attempt made, and the
    exception of the last attempt raised again at the end. *)
Theorem failed_attempts_are_bounded :
  (forall g w r1 r2 r3 e1 e2 e3,
      MissionGenerator.model g = true ->
      replies_with w 0 r1 -> replies_with w 1 r2 -> replies_with w 2 r3 ->
      fails_with w 0 r1 e1 -> fails_with w 1 r2 e2 -> fails_with w 2 r3 e3 ->
      exists p1 p2 p3,
        MissionGenerator.generate_mission g 0 w
        = (gives_up e3, after_topics 3 g,
           mkWorld (replies w) (spare_depth w) (calls w + 3)
                   (trace w ++ [Asked p1; Slept (pause e1 0); Asked p2;
                                Slept (pause e2 1); Asked p3])))
  /\ (forall v command mission w p r1 r2 e1 e2,
         CommandValidator.model v = true ->
         truthy mission = true ->
         CommandValidator.validation_prompt command mission = Ret p ->
         replies_with w 0 r1 -> replies_with w 1 r2 ->
         fails_with w 0 r1 e1 -> fails_with w 1 r2 e2 ->
         CommandValidator.validate_command v command mission 0 w
         = (gives_up e2,
            mkWorld (replies w) (spare_depth w) (calls w + 2)
                    (trace w ++ [Asked p; Asked p])))
  /\ (forall e retry,
         pause e retry
         = (if is_decode_error e then 3 else 5) * (retry + 1)
         /\ gives_up e = if is_decode_error e then Ret JNull else Raise e).
Proof.
  split; [exact generate_mission_three_failures|].
  split; [exact validate_command_two_failures|].
  intros e retry. unfold pause, gives_up.
  destruct (is_decode_error e); split; reflexivity.
Qed.

Lemma failed_attempts_are_bounded_witness :
  (let r := MissionGenerator.generate_mission
              (MissionGenerator.mk true 1 (-1)) 0
              (scripted [py "[" ++ repeat 49%N 4301; py "Sorry, I cannot."]) in
   fst (fst r) = Raise OtherError
   /\ trace (snd r)
      = [Asked (MissionPrompt "Host Discovery" "Easy"); Slept 5;
         Asked (MissionPrompt "Port Scanning" "Easy"); Slept 6;
         Asked (MissionPrompt "Service/OS Detection" "Easy")])
  /\ fst (CommandValidator.validate_command
            (CommandValidator.mk true) (py "nmap -sn 10.0.0.0/24") sample_mission 0
            (scripted [jtext "{'correct': tru}"; repeat 91%N 3000]))
     = Raise RecursionError.
Proof.
  destruct failed_attempts_are_bounded as [Hm [Hv _]].
  split.
  - destruct (Hm (MissionGenerator.mk true 1 (-1))
                 (scripted [py "[" ++ repeat 49%N 4301; py "Sorry, I cannot."])
                 (Text (py "[" ++ repeat 49%N 4301)) (Text (py "Sorry, I cannot."))
                 (Failure OtherError) ValueError JSONDecodeError OtherError
                 eq_refl (fun p => eq_refl) (fun p => eq_refl) (fun p => eq_refl)
                 ltac:(vm_compute; reflexivity) ltac:(vm_compute; reflexivity)
                 ltac:(vm_compute; reflexivity))
      as [p1 [p2 [p3 E]]].
    cbv zeta. split; [rewrite E; reflexivity|]. vm_compute. reflexivity.
  - rewrite (Hv (CommandValidator.mk true) (py "nmap -sn 10.0.0.0/24") sample_mission
                (scripted [jtext "{'correct': tru}"; repeat 91%N 3000]) _
                (Text (jtext "{'correct': tru}")) (Text (repeat 91%N 3000))
                JSONDecodeError RecursionError
                eq_refl eq_refl eq_refl (fun p => eq_refl) (fun p => eq_refl)
                ltac:(vm_compute; reflexivity) ltac:(vm_compute; reflexivity)).
    reflexivity.
Defined.

(** *** A generation that fails *)

Lemma generate_mission_async_gives_up (a : t) (g : MissionGenerator.t)
    (r1 r2 r3 : Reply) (e1 e2 e3 : exn) :
  mission_generator a = Some g ->
  MissionGenerator.model g = true ->
  replies_with (world a) 0 r1 -> replies_with (world a) 1 r2 ->
  replies_with (world a) 2 r3 ->
  fails_with (world a) 0 r1 e1 -> fails_with (world a) 1 r2 e2 ->
  fails_with (world a) 2 r3 e3 ->
  let a' := generate_mission_async a in
  current_mission a' = current_mission a
  /\ last_topic_index a' = last_topic_index a
  /\ hints_used a' = 0
  /\ mission_completed a' = false
  /\ calls (world a') = (calls (world a) + 3)%nat
  /\ terminal_output a'
     = terminal_output a
       ++ ([Lit "[*] Generating new mission..."], COLOR_TEXT_CYAN)
          :: (if is_decode_error e3 then []
              else [ ([Lit "[!] Mission generation failed: "; Err e3], COLOR_ERROR);
                     ([Lit "[!] Click 'New Mission' to retry."],
                      COLOR_TEXT_YELLOW) ]).
Proof.
  intros Eg Hm A1 A2 A3 B1 B2 B3. cbv zeta.
  unfold generate_mission_async. cbv zeta. app_cbn. rewrite Eg.
  destruct (generate_mission_three_failures
              (MissionGenerator.mk (MissionGenerator.model g) (level a)
                                   (last_topic_index a))
              (world a) r1 r2 r3 e1 e2 e3 Hm A1 A2 A3 B1 B2 B3)
    as [p1 [p2 [p3 E]]].
  rewrite E. unfold gives_up.
  destruct (is_decode_error e3); cbn [truthy]; app_cbn;
    repeat split; list_eq.
Qed.

(** X16. A generation whose three attempts all end in an exception leaves
    the mission on screen and the topic index as they were, although three
    topics were tried; the hints are back at 0 and the mission counts as not
    completed.  When the last attempt ended in [JSONDecodeError], nothing
    tells the user: the terminal only shows that a generation was started.
    When it ended in another exception, that exception is printed with the
    advice to retry. *)
Theorem failed_generation_keeps_mission (a : t) (g : MissionGenerator.t)
    (r1 r2 r3 : Reply) (e1 e2 e3 : exn) :
  mission_generator a = Some g ->
  MissionGenerator.model g = true ->
  replies_with (world a) 0 r1 -> replies_with (world a) 1 r2 ->
  replies_with (world a) 2 r3 ->
  fails_with (world a) 0 r1 e1 -> fails_with (world a) 1 r2 e2 ->
  fails_with (world a) 2 r3 e3 ->
  let a' := step a NewMission in
  current_mission a' = current_mission a
  /\ last_topic_index a' = last_topic_index a
  /\ hints_used a' = 0
  /\ mission_completed a' = false
  /\ calls (world a') = (calls (world a) + 3)%nat
  /\ terminal_output a'
     = terminal_output a
       ++ ([Lit "[*] Generating new mission..."], COLOR_TEXT_CYAN)
          :: (if is_decode_error e3 then []
              else [ ([Lit "[!] Mission generation failed: "; Err e3], COLOR_ERROR);
                     ([Lit "[!] Click 'New Mission' to retry."],
                      COLOR_TEXT_YELLOW) ]).
Proof. exact (generate_mission_async_gives_up a g r1 r2 r3 e1 e2 e3). Qed.

Lemma failed_generation_keeps_mission_witness :
  (let a := sample_app (scripted [py "Sorry, I cannot."; jtext "{'title': ";
                                  py "```json"]) in
   current_mission (step a NewMission) = sample_mission
   /\ last_topic_index (step a NewMission) = 0
   /\ terminal_output (step a NewMission)
      = [([Lit "[*] Generating new mission..."], COLOR_TEXT_CYAN)])
  /\ (let a := sample_app (scripted [py "Sorry, I cannot."; jtext "{'title': ";
                                     repeat 49%N 4301]) in
      terminal_output (step a NewMission)
      = [ ([Lit "[*] Generating new mission..."], COLOR_TEXT_CYAN);
          ([Lit "[!] Mission generation failed: "; Err ValueError], COLOR_ERROR);
          ([Lit "[!] Click 'New Mission' to retry."], COLOR_TEXT_YELLOW) ]).
Proof.
  cbv zeta. split.
  - destruct (failed_generation_keeps_mission
                (sample_app (scripted [py "Sorry, I cannot."; jtext "{'title': ";
                                       py "```json"]))
                (MissionGenerator.mk true 1 0)
                (Text (py "Sorry, I cannot.")) (Text (jtext "{'title': "))
                (Text (py "```json"))
                JSONDecodeError JSONDecodeError JSONDecodeError
                eq_refl eq_refl (fun p => eq_refl) (fun p => eq_refl)
                (fun p => eq_refl)
                ltac:(vm_compute; reflexivity) ltac:(vm_compute; reflexivity)
                ltac:(vm_compute; reflexivity))
      as [Hc [Hi [_ [_ [_ Ht]]]]].
    split; [exact Hc|]. split; [exact Hi|]. exact Ht.
  - destruct (failed_generation_keeps_mission
                (sample_app (scripted [py "Sorry, I cannot."; jtext "{'title': ";
                                       repeat 49%N 4301]))
                (MissionGenerator.mk true 1 0)
                (Text (py "Sorry, I cannot.")) (Text (jtext "{'title': "))
                (Text (repeat 49%N 4301))
                JSONDecodeError JSONDecodeError ValueError
                eq_refl eq_refl (fun p => eq_refl) (fun p => eq_refl)
                (fun p => eq_refl)
                ltac:(vm_compute; reflexivity) ltac:(vm_compute; reflexivity)
                ltac:(vm_compute; reflexivity))
      as [_ [_ [_ [_ [_ Ht]]]]].
    exact Ht.
Defined.

(** *** A mission that decodes *)

Lemma generate_mission_async_installs (a : t) (g : MissionGenerator.t)
    (text : str) (mission : json) :
  mission_generator a = Some g ->
  MissionGenerator.model g = true ->
  answers (world a) 0 text ->
  json_loads (room (world a) 0) (clean_response text) = Ret mission ->
  truthy mission = true ->
  let a' := generate_mission_async a in
  current_mission a' = mission
  /\ last_topic_index a'
     = (last_topic_index a + 1) mod (if level a <=? 3 then 7 else 12)
  /\ hints_used a' = 0
  /\ mission_completed a' = false
  /\ calls (world a') = S (calls (world a))
  /\ (forall e,
         py_getitem mission (py "title") = Raise e ->
         terminal_output a'
         = terminal_output a
           ++ [ ([Lit "[*] Generating new mission..."], COLOR_TEXT_CYAN);
                ([Lit "[!] Mission generation failed: "; Err e], COLOR_ERROR);
                ([Lit "[!] Click 'New Mission' to retry."], COLOR_TEXT_YELLOW) ]).
Proof.
  intros Eg Hm Ha Hd Ht. cbv zeta.
  unfold generate_mission_async. cbv zeta. app_cbn. rewrite Eg.
  destruct (generate_mission_first_try
              (MissionGenerator.mk (MissionGenerator.model g) (level a)
                                   (last_topic_index a))
              0 (world a) text mission Hm Ha Hd) as [p E].
  rewrite E. rewrite Ht.
  unfold update_mission_display. app_cbn. rewrite Ht. cbn [negb].
  assert (Hi : MissionGenerator.last_topic_index
                 (snd (MissionGenerator.get_next_topic
                         (MissionGenerator.mk (MissionGenerator.model g) (level a)
                                              (last_topic_index a))))
               = (last_topic_index a + 1) mod (if level a <=? 3 then 7 else 12)).
  { unfold MissionGenerator.get_next_topic. cbn [snd MissionGenerator.last_topic_index].
    rewrite active_topics_length. reflexivity. }
  split; [repeat branch; app_cbn; reflexivity|].
  split; [repeat branch; app_cbn; exact Hi|].
  split; [repeat branch; app_cbn; reflexivity|].
  split; [repeat branch; app_cbn; reflexivity|].
  split; [repeat branch; app_cbn; reflexivity|].
  intros e He. rewrite He. app_cbn. list_eq.
Qed.

(** A reply that decodes to a value that counts as false is dropped. *)
Lemma generate_mission_async_drops (a : t) (g : MissionGenerator.t)
    (text : str) (mission : json) :
  mission_generator a = Some g ->
  MissionGenerator.model g = true ->
  answers (world a) 0 text ->
  json_loads (room (world a) 0) (clean_response text) = Ret mission ->
  truthy mission = false ->
  let a' := generate_mission_async a in
  current_mission a' = current_mission a
  /\ last_topic_index a' = last_topic_index a
  /\ calls (world a') = S (calls (world a))
  /\ terminal_output a'
     = terminal_output a
       ++ [ ([Lit "[*] Generating new mission..."], COLOR_TEXT_CYAN) ].
Proof.
  intros Eg Hm Ha Hd Ht. cbv zeta.
  unfold generate_mission_async. cbv zeta. app_cbn. rewrite Eg.
  destruct (generate_mission_first_try
              (MissionGenerator.mk (MissionGenerator.model g) (level a)
                                   (last_topic_index a))
              0 (world a) text mission Hm Ha Hd) as [p E].
  rewrite E. rewrite Ht. app_cbn. repeat split.
Qed.

(** X17. What a reply decodes to is looked at once, by [if mission:].  A
    value that counts as true is installed as the current mission, and the
    topic index moves one place on (modulo the length of the topic list of
    the level), before anything looks at its keys.  A value whose title
    cannot be read (an object without the key, or a list, a number, a
    string) is therefore installed too: the terminal then says that the
    generation failed, with the exception of the look-up.  A value that
    counts as false (the empty object, [null], 0, a float that is zero once
    read, as [1e-400] is) is dropped without a word, and nothing changes but
    the hints. *)
Theorem decoded_mission_is_installed (a : t) (g : MissionGenerator.t)
    (text : str) (mission : json) :
  mission_generator a = Some g ->
  MissionGenerator.model g = true ->
  answers (world a) 0 text ->
  json_loads (room (world a) 0) (clean_response text) = Ret mission ->
  let a' := step a NewMission in
  calls (world a') = S (calls (world a))
  /\ (truthy mission = true ->
      current_mission a' = mission
      /\ last_topic_index a'
         = (last_topic_index a + 1) mod (if level a <=? 3 then 7 else 12)
      /\ hints_used a' = 0
      /\ mission_completed a' = false
      /\ (forall e,
             py_getitem mission (py "title") = Raise e ->
             terminal_output a'
             = terminal_output a
               ++ [ ([Lit "[*] Generating new mission..."], COLOR_TEXT_CYAN);
                    ([Lit "[!] Mission generation failed: "; Err e], COLOR_ERROR);
                    ([Lit "[!] Click 'New Mission' to retry."],
                     COLOR_TEXT_YELLOW) ]))
  /\ (truthy mission = false ->
      current_mission a' = current_mission a
      /\ last_topic_index a' = last_topic_index a
      /\ terminal_output a'
         = terminal_output a
           ++ [ ([Lit "[*] Generating new mission..."], COLOR_TEXT_CYAN) ]).
Proof.
  intros Eg Hm Ha Hd. cbv zeta. cbn [step]. unfold on_new_mission.
  split; [|split].
  - destruct (truthy mission) eqn:Ht.
    + exact (proj1 (proj2 (proj2 (proj2 (proj2
               (generate_mission_async_installs a g text mission Eg Hm Ha Hd Ht)))))).
    + exact (proj1 (proj2 (proj2
               (generate_mission_async_drops a g text mission Eg Hm Ha Hd Ht)))).
  - intros Ht.
    destruct (generate_mission_async_installs a g text mission Eg Hm Ha Hd Ht)
      as [H1 [H2 [H3 [H4 [_ H6]]]]].
    repeat split; assumption.
  - intros Ht.
    destruct (generate_mission_async_drops a g text mission Eg Hm Ha Hd Ht)
      as [H1 [H2 [_ H4]]].
    repeat split; assumption.
Qed.

Lemma decoded_mission_is_installed_witness :
  (let a := sample_app (scripted [jtext "['10.0.0.5']"]) in
   current_mission (step a NewMission) = JArray [JString (py "10.0.0.5")]
   /\ last_topic_index (step a NewMission) = 1
   /\ terminal_output (step a NewMission)
      = [ ([Lit "[*] Generating new mission..."], COLOR_TEXT_CYAN);
          ([Lit "[!] Mission generation failed: "; Err TypeError], COLOR_ERROR);
          ([Lit "[!] Click 'New Mission' to retry."], COLOR_TEXT_YELLOW) ])
  /\ (let a := sample_app (scripted [py "1e-400"]) in
      current_mission (step a NewMission) = sample_mission
      /\ last_topic_index (step a NewMission) = 0).
Proof.
  cbv zeta. split.
  - destruct (decoded_mission_is_installed
                (sample_app (scripted [jtext "['10.0.0.5']"]))
                (MissionGenerator.mk true 1 0)
                (jtext "['10.0.0.5']") (JArray [JString (py "10.0.0.5")])
                eq_refl eq_refl (fun p => eq_refl)
                ltac:(vm_compute; reflexivity))
      as [_ [H _]].
    destruct (H eq_refl) as [Hc [Hi [_ [_ Ht]]]].
    split; [exact Hc|]. split; [exact Hi|]. exact (Ht TypeError eq_refl).
  - destruct (decoded_mission_is_installed
                (sample_app (scripted [py "1e-400"]))
                (MissionGenerator.mk true 1 0)
                (py "1e-400") (JFloat (py "1e-400"))
                eq_refl eq_refl (fun p => eq_refl)
                ltac:(vm_compute; reflexivity))
      as [_ [_ H]].
    destruct (H ltac:(vm_compute; reflexivity)) as [Hc [Hi _]].
    split; [exact Hc | exact Hi].
Defined.

(** *** A mission that lacks a key *)

Lemma validation_prompt_missing_key (command : str) (d : dict) (key : str) :
  In key MISSION_KEYS -> dict_get d key = None ->
  CommandValidator.validation_prompt command (JObject d) = Raise KeyError.
Proof.
  intros Hin Hnone.
  unfold CommandValidator.validation_prompt, py_getitem.
  unfold MISSION_KEYS in Hin. cbn [In] in Hin.
  destruct (dict_get d (py "title")) eqn:E1; [|reflexivity].
  destruct (dict_get d (py "description")) eqn:E2; [|reflexivity].
  destruct (dict_get d (py "target_ip")) eqn:E3; [|reflexivity].
  destruct (dict_get d (py "difficulty")) eqn:E4; [|reflexivity].
  destruct (dict_get d (py "topic_category")) eqn:E5; [|reflexivity].
  exfalso.
  destruct Hin as [<- | [<- | [<- | [<- | [<- | []]]]]]; congruence.
Qed.

Lemma validate_command_missing_key (v : CommandValidator.t) (command : str)
    (d : dict) (key : str) (retry : Z) (w : World) :
  CommandValidator.model v = true ->
  d <> [] ->
  In key MISSION_KEYS -> dict_get d key = None ->
  CommandValidator.validate_command v command (JObject d) retry w
  = (Raise KeyError, w).
Proof.
  intros Hm Hd Hin Hnone. rewrite validate_command_eq. rewrite Hm.
  assert (Ht : truthy (JObject d) = true) by (destruct d; [congruence | reflexivity]).
  rewrite Ht. cbn [negb orb].
  rewrite (validation_prompt_missing_key command d key Hin Hnone). reflexivity.
Qed.

Lemma command_on_incomplete_mission (a : t) (value : str) (d : dict) (key : str)
    (v : CommandValidator.t) :
  command_validator a = Some v ->
  CommandValidator.model v = true ->
  startswith (strip value) "nmap" = true ->
  current_mission a = JObject d ->
  d <> [] ->
  In key MISSION_KEYS -> dict_get d key = None ->
  let a' := step a (CommandSubmit value) in
  world a' = world a
  /\ terminal_output a'
     = terminal_output a
       ++ [ ([Lit "> "; Str (strip value)], COLOR_TEXT_WHITE);
            ([Lit "[*] Scanning..."], COLOR_TEXT_CYAN);
            ([Lit "[!] Validation error: "; Err KeyError], COLOR_ERROR);
            ([Lit "[!] Please try again."], COLOR_TEXT_YELLOW) ].
Proof.
  intros Ev Hm Hn Ec Hd Hin Hnone. cbv zeta.
  destruct (startswith_nmap _ Hn) as [Hne [H1 [H2 H3]]].
  assert (Ht : truthy (current_mission a) = true).
  { rewrite Ec. destruct d; [congruence | reflexivity]. }
  cbn [step]. unfold on_command_submit. cbv zeta. app_cbn.
  destruct (strip value) as [|c0 command] eqn:Es; [congruence|].
  rewrite H1, H2, H3, Hn. cbn [negb]. app_cbn. rewrite Ht. cbn [negb].
  unfold validate_command_async. cbv zeta. app_cbn.
  rewrite Ev, Ht. rewrite Ec.
  rewrite (validate_command_missing_key v (c0 :: command) d key 0 (world a)
             Hm Hd Hin Hnone).
  app_cbn. split; [reflexivity | list_eq].
Qed.

(** X18. [validate_command] builds its prompt from all five keys of the
    mission before it enters its [try]: on a mission that lacks one of
    them it raises [KeyError] at any [retry], without a request and without
    a retry.  In the application such a command only prints the error: the
    model is not asked. *)
Theorem incomplete_mission_cannot_be_validated (a : t) (value : str) (d : dict)
    (key : str) (v : CommandValidator.t) :
  CommandValidator.model v = true ->
  d <> [] ->
  In key MISSION_KEYS -> dict_get d key = None ->
  (forall command retry w,
      CommandValidator.validate_command v command (JObject d) retry w
      = (Raise KeyError, w))
  /\ (command_validator a = Some v ->
      startswith (strip value) "nmap" = true ->
      current_mission a = JObject d ->
      let a' := step a (CommandSubmit value) in
      world a' = world a
      /\ terminal_output a'
         = terminal_output a
           ++ [ ([Lit "> "; Str (strip value)], COLOR_TEXT_WHITE);
                ([Lit "[*] Scanning..."], COLOR_TEXT_CYAN);
                ([Lit "[!] Validation error: "; Err KeyError], COLOR_ERROR);
                ([Lit "[!] Please try again."], COLOR_TEXT_YELLOW) ]).
Proof.
  intros Hm Hd Hin Hnone. split.
  - intros command retry w.
    exact (validate_command_missing_key v command d key retry w Hm Hd Hin Hnone).
  - intros Ev Hn Ec.
    exact (command_on_incomplete_mission a value d key v Ev Hm Hn Ec Hd Hin Hnone).
Qed.

Lemma incomplete_mission_cannot_be_validated_witness :
  let d := [ (py "title", JString (py "Operation Dawn")) ] in
  CommandValidator.validate_command
    (CommandValidator.mk true) (py "nmap -sn 10.0.0.0/24") (JObject d) 0
    (scripted [sample_verdict_text])
  = (Raise KeyError, scripted [sample_verdict_text]).
Proof.
  cbv zeta.
  destruct (incomplete_mission_cannot_be_validated
              (sample_app (scripted [])) (py "nmap")
              [ (py "title", JString (py "Operation Dawn")) ]
              (py "description") (CommandValidator.mk true)
              eq_refl ltac:(discriminate)
              ltac:(right; left; reflexivity) eq_refl) as [H _].
  exact (H (py "nmap -sn 10.0.0.0/24") 0 (scripted [sample_verdict_text])).
Defined.

(** *** Hints *)

Lemma hint_fields_lookups (mission t d i c : json) :
  hint_fields mission = Some (t, d, i, c) ->
  py_getitem mission (py "title") = Ret t
  /\ py_getitem mission (py "description") = Ret d
  /\ py_getitem mission (py "target_ip") = Ret i
  /\ py_getitem mission (py "topic_category") = Ret c.
Proof.
  unfold hint_fields. intros H.
  destruct (py_getitem mission (py "title")); [|discriminate H].
  destruct (py_getitem mission (py "description")); [|discriminate H].
  destruct (py_getitem mission (py "target_ip")); [|discriminate H].
  destruct (py_getitem mission (py "topic_category")); [|discriminate H].
  injection H as -> -> -> ->. repeat split.
Qed.

Lemma ask_trace (mk_prompt : json -> json -> json -> json -> Prompt)
    (mission t d i c : json) (w : World) :
  hint_fields mission = Some (t, d, i, c) ->
  trace (snd (ask mk_prompt true mission w)) = trace w ++ [Asked (mk_prompt t d i c)].
Proof.
  intros H. destruct (hint_fields_lookups _ _ _ _ _ H) as [H1 [H2 [H3 H4]]].
  unfold ask. cbn [negb]. rewrite H1, H2, H3, H4.
  unfold generate_content.
  destruct (replies w (calls w) (mk_prompt t d i c)); reflexivity.
Qed.

Lemma on_get_hint_blocked (a : t) :
  truthy (current_mission a) = false \/ mission_completed a = true ->
  hints_used (on_get_hint a) = hints_used a /\ world (on_get_hint a) = world a.
Proof.
  intros H. unfold on_get_hint.
  destruct (truthy (current_mission a)); cbn [negb]; [|split; reflexivity].
  destruct H as [H | H]; [discriminate H|]. rewrite H. split; reflexivity.
Qed.

Lemma on_get_hint_counts (a : t) :
  truthy (current_mission a) = true -> mission_completed a = false ->
  hints_used (on_get_hint a) = hints_used a + 1.
Proof.
  intros Ht Hc. unfold on_get_hint. rewrite Ht, Hc. cbn [negb]. cbv zeta.
  unfold get_full_answer, get_hint. app_frame.
Qed.

Lemma on_get_hint_asks (a : t) (t d i c : json) :
  truthy (current_mission a) = true -> mission_completed a = false ->
  ai_model a = true ->
  hint_fields (current_mission a) = Some (t, d, i, c) ->
  trace (world (on_get_hint a))
  = trace (world a)
    ++ [Asked (if hints_used a <? 1 then HintPrompt t d i c
               else AnswerPrompt t d i c)].
Proof.
  intros Ht Hc Hm Hf. unfold on_get_hint. rewrite Ht, Hc. cbn [negb]. cbv zeta.
  app_cbn. unfold MAX_HINTS.
  destruct (Z.leb_spec 2 (hints_used a + 1)); destruct (Z.ltb_spec (hints_used a) 1);
    try lia.
  - unfold get_full_answer. app_cbn. rewrite Ht, Hm. cbn [negb].
    pose proof (ask_trace AnswerPrompt (current_mission a) t d i c (world a) Hf) as E.
    destruct (ask AnswerPrompt true (current_mission a) (world a)) as [res w'].
    cbn [snd] in E. destruct res; app_cbn; exact E.
  - unfold get_hint. app_cbn. rewrite Ht, Hm. cbn [negb].
    pose proof (ask_trace HintPrompt (current_mission a) t d i c (world a) Hf) as E.
    destruct (ask HintPrompt true (current_mission a) (world a)) as [res w'].
    cbn [snd] in E. destruct res; app_cbn; exact E.
Qed.

(** X19. A click on Get Hint without a mission, or on a completed mission,
    costs nothing and asks nothing.  On an open mission it always counts,
    whether or not the model then delivers: [hints_used] goes up by one, so
    the mission can pay 50 XP at most afterwards.  With a model and a
    mission that has the four keys of the prompt, the first click asks for a
    hint and every later one for the full answer. *)
Theorem hint_click_always_counts (a : t) :
  0 <= hints_used a ->
  let a' := step a GetHint in
  (truthy (current_mission a) = false \/ mission_completed a = true ->
   hints_used a' = hints_used a /\ world a' = world a)
  /\ (truthy (current_mission a) = true -> mission_completed a = false ->
      hints_used a' = hints_used a + 1
      /\ xp_gained (hints_used a') <= 50
      /\ (forall t d i c,
             ai_model a = true ->
             hint_fields (current_mission a) = Some (t, d, i, c) ->
             trace (world a')
             = trace (world a)
               ++ [Asked (if hints_used a <? 1 then HintPrompt t d i c
                          else AnswerPrompt t d i c)])).
Proof.
  intros H0. cbv zeta. cbn [step]. split.
  - apply on_get_hint_blocked.
  - intros Ht Hc.
    pose proof (on_get_hint_counts a Ht Hc) as Hn.
    split; [exact Hn|]. split.
    + rewrite Hn. destruct (xp_gained_cases (hints_used a + 1)) as [_ [H1 H2]].
      destruct (Z.eq_dec (hints_used a) 0) as [E | E].
      * rewrite H1 by lia. lia.
      * rewrite H2 by lia. lia.
    + intros t d i c Hm Hf. exact (on_get_hint_asks a t d i c Ht Hc Hm Hf).
Qed.

Lemma hint_click_always_counts_witness :
  let a := sample_app (scripted []) in
  hints_used (step a GetHint) = 2
  /\ trace (world (step a GetHint))
     = [Asked (AnswerPrompt (JString (py "Operation Dawn"))
                            (JString (py "Find the live hosts"))
                            (JString (py "10.0.0.0/24"))
                            (JString (py "Host Discovery")))].
Proof.
  cbv zeta.
  destruct (hint_click_always_counts (sample_app (scripted []))
              ltac:(cbn; lia)) as [_ H].
  destruct (H eq_refl eq_refl) as [Hn [_ Ht]].
  split; [exact Hn|].
  exact (Ht _ _ _ _ eq_refl eq_refl).
Defined.

(** *** A verdict that is not an object *)

Lemma process_validation_result_world (result : json) (command : str) (a : t) :
  world (snd (process_validation_result result command a)) = world a.
Proof.
  exact (f_equal (fun q => let '(_, w, _, _, _, _, _, _, _, _, _) := q in w)
                 (process_validation_result_ui result command a)).
Qed.

Lemma command_with_odd_verdict (a : t) (value text : str)
    (v : CommandValidator.t) (p : Prompt) (r : json) :
  command_validator a = Some v ->
  CommandValidator.model v = true ->
  startswith (strip value) "nmap" = true ->
  CommandValidator.validation_prompt (strip value) (current_mission a) = Ret p ->
  answers (world a) 0 text ->
  json_loads (room (world a) 0) (clean_response text) = Ret r ->
  let a' := step a (CommandSubmit value) in
  let shown := [ ([Lit "> "; Str (strip value)], COLOR_TEXT_WHITE);
                 ([Lit "[*] Scanning..."], COLOR_TEXT_CYAN) ] in
  calls (world a') = S (calls (world a))
  /\ (truthy r = false -> terminal_output a' = terminal_output a ++ shown)
  /\ (truthy r = true -> (forall d, r <> JObject d) ->
      terminal_output a'
      = terminal_output a ++ shown
        ++ [ ([Lit "[!] Validation error: "; Err AttributeError], COLOR_ERROR);
             ([Lit "[!] Please try again."], COLOR_TEXT_YELLOW) ]).
Proof.
  intros Ev Hm Hn Hp Ha Hd. cbv zeta.
  destruct (startswith_nmap _ Hn) as [Hne [H1 [H2 H3]]].
  pose proof (validation_prompt_truthy _ _ _ Hp) as Htm.
  cbn [step]. unfold on_command_submit. cbv zeta. app_cbn.
  destruct (strip value) as [|c0 command] eqn:Es; [congruence|].
  rewrite H1, H2, H3, Hn. cbn [negb]. app_cbn. rewrite Htm. cbn [negb].
  unfold validate_command_async. cbv zeta. app_cbn.
  rewrite Ev, Htm.
  rewrite (validate_command_first_try v (c0 :: command) (current_mission a) 0
             (world a) p text r Hm Htm Hp Ha Hd).
  split; [|split].
  - destruct (truthy r); [|app_cbn; reflexivity].
    match goal with
    | |- context [process_validation_result r ?cmd ?x] =>
        pose proof (process_validation_result_world r cmd x) as Hw;
        destruct (process_validation_result r cmd x) as [[u|e] x']
    end; cbn [snd] in Hw; app_cbn_all; rewrite Hw; reflexivity.
  - intros Hf. rewrite Hf. app_cbn. list_eq.
  - intros Ht Hno. rewrite Ht.
    unfold process_validation_result. app_cbn. rewrite Ev.
    unfold CommandValidator.process_validation_result, py_get.
    destruct r as [| | | | | |d]; try (app_cbn; list_eq).
    exfalso. exact (Hno d eq_refl).
Qed.

(** X20. The verdict is used as it decodes.  A verdict that counts as false
    (the empty object, [null], [false], 0, an empty string or list, a float
    that is zero once read, as [1e-400] is) is dropped without a word: the
    terminal shows the command and the scanning notice, nothing else.  A verdict that counts as true and is not an object
    (a number, a string, a list, [true]) ends in [AttributeError], which the
    terminal reports as a validation error.  In both cases one request was
    made. *)
Theorem verdict_that_is_no_object (a : t) (value text : str)
    (v : CommandValidator.t) (p : Prompt) (r : json) :
  command_validator a = Some v ->
  CommandValidator.model v = true ->
  startswith (strip value) "nmap" = true ->
  CommandValidator.validation_prompt (strip value) (current_mission a) = Ret p ->
  answers (world a) 0 text ->
  json_loads (room (world a) 0) (clean_response text) = Ret r ->
  let a' := step a (CommandSubmit value) in
  let shown := [ ([Lit "> "; Str (strip value)], COLOR_TEXT_WHITE);
                 ([Lit "[*] Scanning..."], COLOR_TEXT_CYAN) ] in
  calls (world a') = S (calls (world a))
  /\ (truthy r = false -> terminal_output a' = terminal_output a ++ shown)
  /\ (truthy r = true -> (forall d, r <> JObject d) ->
      terminal_output a'
      = terminal_output a ++ shown
        ++ [ ([Lit "[!] Validation error: "; Err AttributeError], COLOR_ERROR);
             ([Lit "[!] Please try again."], COLOR_TEXT_YELLOW) ]).
Proof. exact (command_with_odd_verdict a value text v p r). Qed.

Lemma verdict_that_is_no_object_witness :
  (let a := sample_app (scripted [py "true"]) in
   terminal_output (step a (CommandSubmit (py "nmap -sn 10.0.0.0/24")))
   = [ ([Lit "> "; Str (py "nmap -sn 10.0.0.0/24")], COLOR_TEXT_WHITE);
       ([Lit "[*] Scanning..."], COLOR_TEXT_CYAN);
       ([Lit "[!] Validation error: "; Err AttributeError], COLOR_ERROR);
       ([Lit "[!] Please try again."], COLOR_TEXT_YELLOW) ])
  /\ (let a := sample_app (scripted [py "1e-400"]) in
      terminal_output (step a (CommandSubmit (py "nmap -sn 10.0.0.0/24")))
      = [ ([Lit "> "; Str (py "nmap -sn 10.0.0.0/24")], COLOR_TEXT_WHITE);
          ([Lit "[*] Scanning..."], COLOR_TEXT_CYAN) ]).
Proof.
  cbv zeta. split.
  - destruct (verdict_that_is_no_object
                (sample_app (scripted [py "true"])) (py "nmap -sn 10.0.0.0/24")
                (py "true") (CommandValidator.mk true) _ (JBool true)
                eq_refl eq_refl ltac:(vm_compute; reflexivity)
                ltac:(vm_compute; reflexivity) (fun p => eq_refl)
                ltac:(vm_compute; reflexivity)) as [_ [_ H]].
    rewrite (H eq_refl ltac:(intros d; discriminate)).
    vm_compute. reflexivity.
  - destruct (verdict_that_is_no_object
                (sample_app (scripted [py "1e-400"])) (py "nmap -sn 10.0.0.0/24")
                (py "1e-400") (CommandValidator.mk true) _ (JFloat (py "1e-400"))
                eq_refl eq_refl ltac:(vm_compute; reflexivity)
                ltac:(vm_compute; reflexivity) (fun p => eq_refl)
                ltac:(vm_compute; reflexivity)) as [_ [H _]].
    rewrite (H ltac:(vm_compute; reflexivity)).
    vm_compute. reflexivity.
Defined.

(** *** The status *)





(** *** The history stays well formed *)

Lemma no_repeat_tl (h : list str) : no_repeat h -> no_repeat (tl h).
Proof.
  destruct h as [|x [|y h]]; cbn [tl no_repeat]; try tauto.
Qed.

Lemma no_repeat_snoc (h : list str) (c : str) :
  no_repeat h ->
  match rev h with
  | [] => True
  | newest :: _ => newest <> c
  end ->
  no_repeat (h ++ [c]).
Proof.
  induction h as [|x h IH]; intros Hn Hc; [exact I|].
  destruct h as [|y h].
  - cbn in Hc. cbn [app no_repeat]. split; [exact Hc | exact I].
  - cbn [no_repeat] in Hn. destruct Hn as [Hxy Hn].
    change ((x :: y :: h) ++ [c]) with (x :: y :: (h ++ [c])).
    cbn [no_repeat]. split; [exact Hxy|].
    apply IH; [exact Hn|].
    cbn [rev] in Hc. cbn [rev].
    destruct (rev h ++ [y]) as [|n r] eqn:E.
    + destruct (rev h); discriminate E.
    + cbn [app] in Hc. exact Hc.
Qed.

Lemma remember_no_repeat (command : str) (history : list str) :
  no_repeat history -> no_repeat (remember command history).
Proof.
  intros Hn. unfold remember.
  assert (Hfresh : match rev history with
                   | [] => True
                   | newest :: _ => newest <> command
                   end ->
                   no_repeat
                     (if MAX_COMMAND_HISTORY <? Z.of_nat (length (history ++ [command]))
                      then tl (history ++ [command]) else history ++ [command])).
  { intros Hc. pose proof (no_repeat_snoc history command Hn Hc) as Hs.
    destruct (_ <? _); [apply no_repeat_tl|]; exact Hs. }
  destruct (rev history) as [|newest r] eqn:Er.
  - apply Hfresh. exact I.
  - destruct (str_eqb newest command) eqn:Eq; cbn [negb]; [exact Hn|].
    apply Hfresh. intros ->. rewrite str_eqb_refl in Eq. discriminate Eq.
Qed.

Lemma history_kept_by_buttons (a : t) (e : event) :
  match e with
  | CommandSubmit _ | KeyDown _ => True
  | _ => command_history (step a e) = command_history a
         /\ history_index (step a e) = history_index a
  end.
Proof.
  destruct e; cbn [step]; try exact I.
  - unfold on_new_mission, generate_mission_async. split; app_frame.
  - unfold on_get_hint, get_hint, get_full_answer. split; app_frame.
  - unfold on_explain_why. split; app_frame.
  - unfold on_api_key_submit.
    destruct value; [split; reflexivity|].
    destruct configured; [|split; app_frame].
    unfold generate_mission_async. split; app_frame.
Qed.

Lemma step_history_ok (a : t) (e : event) : history_ok a -> history_ok (step a e).
Proof.
  intros [Hl [Hi Hn]].
  pose proof (history_kept_by_buttons a e) as Hk.
  destruct e as [value|k| | | |value configured].
  - cbn [step].
    destruct (strip value) as [|c command] eqn:Es.
    + unfold on_command_submit. cbv zeta. app_cbn. rewrite Es.
      unfold history_ok. app_cbn. auto.
    + destruct (on_command_submit_history (with_command_input value a) c command)
        as [Hh [Hx _]]; [app_cbn; exact Es|].
      app_cbn_all. unfold history_ok. rewrite Hh, Hx.
      destruct (remember_spec (c :: command) (command_history a) Hl) as [Hl' _].
      split; [exact Hl'|]. split; [lia|].
      apply remember_no_repeat. exact Hn.
  - cbn [step]. unfold history_ok, on_key_down.
    destruct k.
    + destruct (command_history a) as [|x h] eqn:Eh; [rewrite Eh; auto|].
      destruct (Z.ltb_spec 0 (history_index a)); [|rewrite Eh; auto].
      cbv zeta. repeat branch; app_cbn; rewrite Eh; (split; [exact Hl|]);
        (split; [lia | exact Hn]).
    + destruct (Z.ltb_spec (history_index a)
                           (Z.of_nat (length (command_history a)) - 1)).
      * cbv zeta. repeat branch; app_cbn; (split; [exact Hl|]);
          (split; [lia | exact Hn]).
      * app_cbn. split; [exact Hl|]. split; [lia | exact Hn].
    + auto.
  - destruct Hk as [Hh Hx]. unfold history_ok. rewrite Hh, Hx. auto.
  - destruct Hk as [Hh Hx]. unfold history_ok. rewrite Hh, Hx. auto.
  - destruct Hk as [Hh Hx]. unfold history_ok. rewrite Hh, Hx. auto.
  - destruct Hk as [Hh Hx]. unfold history_ok. rewrite Hh, Hx. auto.
Qed.

Lemma exec_history_ok (a : t) (es : list event) :
  history_ok a -> history_ok (exec a es).
Proof.
  revert a. induction es as [|e es IH]; intros a H; [exact H|].
  cbn [exec fold_left]. apply (IH (step a e)). apply step_history_ok. exact H.
Qed.

(** X22. The command history stays well formed whatever the user does: it
    never holds more than ten entries, no entry repeats the one before it,
    and the cursor stays between -1 and the length of the history. *)
Theorem history_stays_well_formed (a : t) (es : list event) :
  history_ok a -> history_ok (exec a es).
Proof. exact (exec_history_ok a es). Qed.

Lemma history_stays_well_formed_witness :
  history_ok
    (exec (sample_app (scripted []))
          [CommandSubmit (py "help"); CommandSubmit (py " help ");
           KeyDown ArrowUp; CommandSubmit (py "status")]).
Proof.
  apply (history_stays_well_formed (sample_app (scripted []))).
  unfold history_ok. cbn. split; [lia|]. split; [lia | exact I].
Defined.

End AppProgress.

(** ** Fences the clean-up does not know *)

Section OtherFences.

Lemma strip_prefix_some (p s r : str) :
  strip_prefix p s = Some r -> s = p ++ r.
Proof.
  revert s. induction p as [|x p IH]; intros s H; cbn [strip_prefix] in H.
  - injection H as ->. reflexivity.
  - destruct s as [|y s]; [discriminate H|].
    destruct (N.eqb_spec x y) as [->|]; [|discriminate H].
    cbn [app]. f_equal. exact (IH s H).
Qed.

Lemma lstrip_suffix (s : str) : exists ws, s = ws ++ lstrip s.
Proof.
  induction s as [|c s [ws IH]]; cbn [lstrip].
  - exists []. reflexivity.
  - destruct (is_space c).
    + exists (c :: ws). cbn [app]. f_equal. exact IH.
    + exists []. reflexivity.
Qed.

Lemma lstrip_snoc (s : str) (c : char) :
  is_space c = false -> lstrip (s ++ [c]) = lstrip s ++ [c].
Proof.
  intros Hc. induction s as [|x s IH]; cbn [lstrip app].
  - rewrite Hc. reflexivity.
  - destruct (is_space x); [exact IH | reflexivity].
Qed.

Lemma strip_cons (c : char) (s : str) :
  is_space c = false -> strip (c :: s) = c :: rstrip s.
Proof.
  intros Hc. unfold strip. cbn [lstrip]. rewrite Hc.
  unfold rstrip. cbn [rev]. rewrite lstrip_snoc by exact Hc.
  rewrite rev_app_distr. reflexivity.
Qed.

(** The second substitution removes an end of the text, and may leave the
    final newline. *)
Lemma sub_trailing_fence_prefix (s : str) :
  sub_trailing_fence s = s
  \/ exists s' rest,
       s = s' ++ rest
       /\ (sub_trailing_fence s = s' \/ sub_trailing_fence s = s' ++ [NEWLINE]).
Proof.
  unfold sub_trailing_fence.
  destruct (rev s) as [|c r] eqn:Er; [left; reflexivity|].
  assert (Es : s = rev r ++ [c]).
  { rewrite <- (rev_involutive s), Er. reflexivity. }
  unfold cut_fence_rev.
  destruct (N.eqb c NEWLINE).
  - destruct (strip_prefix (rev FENCE_CLOSE) r) as [r'|] eqn:Ep; [|left; reflexivity].
    right. apply strip_prefix_some in Ep.
    destruct (lstrip_suffix r') as [ws Ews].
    exists (rev (lstrip r')), (rev ws ++ FENCE_CLOSE ++ [c]).
    split; [|right; reflexivity].
    rewrite Es, Ep, rev_app_distr, rev_involutive.
    rewrite Ews at 1. rewrite rev_app_distr.
    rewrite <- !List.app_assoc. reflexivity.
  - destruct (strip_prefix (rev FENCE_CLOSE) (c :: r)) as [r'|] eqn:Ep;
      [|left; reflexivity].
    right. apply strip_prefix_some in Ep.
    destruct (lstrip_suffix r') as [ws Ews].
    exists (rev (lstrip r')), (rev ws ++ FENCE_CLOSE).
    split; [|left; reflexivity].
    rewrite <- (rev_involutive s), Er, Ep, rev_app_distr, rev_involutive.
    rewrite Ews at 1. rewrite rev_app_distr.
    rewrite <- !List.app_assoc. reflexivity.
Qed.

(** No JSON text starts with a backtick. *)
Lemma json_loads_backtick (spare : nat) (s : str) :
  json_loads spare (py "`" ++ s) = Raise JSONDecodeError.
Proof.
  unfold json_loads. cbn [py list_ascii_of_string map app].
  replace (loads_fuel (N_of_ascii "`" :: s)) with (S (2 * length s + 3))
    by (unfold loads_fuel; cbn [length]; lia).
  reflexivity.
Qed.

Lemma clean_response_backtick (text rest : str) :
  strip text = py "`" ++ rest ->
  strip_prefix FENCE_OPEN (strip text) = None ->
  clean_response text = [] \/ exists y, clean_response text = py "`" ++ y.
Proof.
  intros Es Ep. unfold clean_response, sub_leading_fence. rewrite Ep, Es.
  assert (Hq : is_space (N_of_ascii "`") = false) by reflexivity.
  change (py "`" ++ rest) with (N_of_ascii "`" :: rest).
  destruct (sub_trailing_fence_prefix (N_of_ascii "`" :: rest))
    as [-> | [s' [tail [E [-> | ->]]]]].
  - right. rewrite strip_cons by exact Hq. eexists. reflexivity.
  - destruct s' as [|c s']; [left; reflexivity|].
    cbn [app] in E. injection E as <- _.
    right. rewrite strip_cons by exact Hq. eexists. reflexivity.
  - destruct s' as [|c s']; [left; reflexivity|].
    cbn [app] in E. injection E as <- _.
    right. cbn [app]. rewrite strip_cons by exact Hq. eexists. reflexivity.
Qed.

(** X23. Only the marker [```json], in lower case and at the very start,
    opens a fence the clean-up removes.  A response whose text (once
    stripped) starts with a backtick in any other way, such as a bare [```]
    line, [```JSON] or a single backtick, is never decoded, whatever
    follows: for both operations it is malformed, however good the JSON
    inside. *)
Theorem other_fences_are_malformed (spare : nat) (text rest : str) :
  strip text = py "`" ++ rest ->
  strip_prefix FENCE_OPEN (strip text) = None ->
  malformed spare text.
Proof.
  intros Es Ep. unfold malformed.
  destruct (clean_response_backtick text rest Es Ep) as [-> | [y ->]].
  - reflexivity.
  - apply json_loads_backtick.
Qed.

Lemma other_fences_are_malformed_witness :
  malformed 0 (py "```" ++ [NEWLINE] ++ braces sample_mission_inner
               ++ [NEWLINE] ++ py "```")
  /\ json_loads 0 (braces sample_mission_inner) = Ret sample_mission.
Proof.
  split.
  - apply (other_fences_are_malformed 0
             (py "```" ++ [NEWLINE] ++ braces sample_mission_inner
              ++ [NEWLINE] ++ py "```")
             (py "``" ++ [NEWLINE] ++ braces sample_mission_inner
              ++ [NEWLINE] ++ py "```")).
    + vm_compute. reflexivity.
    + vm_compute. reflexivity.
  - vm_compute. reflexivity.
Defined.

End OtherFences.


(** ** Loading, for any manager *)

Section LoadingAgain.

Import ProgressManager.

Lemma load_progress_keeps (spare : nat) (pm : t) (fs : disk) :
  progress_file fs = Absent
  \/ progress_file fs = Unreadable
  \/ (exists text, progress_file fs = Content text
                   /\ json_loads spare text = Raise JSONDecodeError) ->
  load_progress spare pm fs = (Ret (as_dict pm), pm).
Proof.
  unfold load_progress. intros [-> | [-> | [text [-> H]]]]; try reflexivity.
  rewrite H. reflexivity.
Qed.

Lemma load_progress_escapes (spare : nat) (pm : t) (fs : disk) :
  (progress_file fs = Garbled ->
   load_progress spare pm fs = (Raise UnicodeDecodeError, pm))
  /\ (forall text e,
         progress_file fs = Content text ->
         json_loads spare text = Raise e ->
         e <> JSONDecodeError ->
         load_progress spare pm fs = (Raise e, pm)).
Proof.
  unfold load_progress. split.
  - intros ->. reflexivity.
  - intros text e -> H Hne. rewrite H.
    destruct e; try reflexivity. congruence.
Qed.

Lemma load_progress_object (spare : nat) (pm : t) (fs : disk) (text : str)
    (d : dict) :
  progress_file fs = Content text ->
  json_loads spare text = Ret (JObject d) ->
  load_progress spare pm fs
  = (Ret (mkProgress (loaded_field d "xp" 0) (loaded_field d "level" 1)
                     (loaded_field d "last_topic_index" (-1))
                     (loaded_field d "missions_completed" 0)),
     mk (loaded_field d "xp" 0) (loaded_field d "level" 1)
        (loaded_field d "last_topic_index" (-1))
        (loaded_field d "missions_completed" 0)).
Proof.
  intros Ef H. unfold load_progress. rewrite Ef, H.
  unfold py_get, loaded_field.
  destruct (dict_get d (py "xp")), (dict_get d (py "level")),
           (dict_get d (py "last_topic_index")),
           (dict_get d (py "missions_completed")); reflexivity.
Qed.

Lemma load_progress_twice (spare : nat) (pm : t) (fs : disk) :
  load_progress spare (snd (load_progress spare pm fs)) fs
  = load_progress spare pm fs.
Proof.
  unfold load_progress.
  destruct (progress_file fs) as [| | |text]; try reflexivity.
  destruct (json_loads spare text) as [data|e];
    [|destruct e; reflexivity].
  destruct (py_get data (py "xp") (JInt 0)); [|reflexivity].
  destruct (py_get data (py "level") (JInt 1)); [|reflexivity].
  destruct (py_get data (py "last_topic_index") (JInt (-1))); [|reflexivity].
  destruct (py_get data (py "missions_completed") (JInt 0)); reflexivity.
Qed.

(** X24. [load_progress] on any manager, fresh or not.  When the file does
    not exist, cannot be opened, or holds text on which [json.load] raises
    [JSONDecodeError], it returns the values the manager holds at that
    moment, which are the defaults only on a fresh manager, and changes
    nothing.  The two exceptions named by the [except] clause are the only
    ones caught: bytes that do not decode raise [UnicodeDecodeError] out of
    [load_progress], and so does every other exception of [json.load], such
    as the [ValueError] of an integer of more than 4300 digits and the
    [RecursionError] of nesting too deep; the manager is left as it was.
    From text that decodes to an object it takes each field as the file has
    it, of whatever type and sign, and the default for a field the object
    lacks, whatever the manager held before.  Loading a second time from the
    same disk gives the same result as the first. *)
Theorem load_progress_keeps_or_replaces (spare : nat) (pm : t) (fs : disk) :
  (progress_file fs = Absent
   \/ progress_file fs = Unreadable
   \/ (exists text, progress_file fs = Content text
                    /\ json_loads spare text = Raise JSONDecodeError) ->
   load_progress spare pm fs = (Ret (as_dict pm), pm))
  /\ (progress_file fs = Garbled ->
      load_progress spare pm fs = (Raise UnicodeDecodeError, pm))
  /\ (forall text e,
         progress_file fs = Content text ->
         json_loads spare text = Raise e ->
         e <> JSONDecodeError ->
         load_progress spare pm fs = (Raise e, pm))
  /\ (forall text d,
         progress_file fs = Content text ->
         json_loads spare text = Ret (JObject d) ->
         load_progress spare pm fs
         = (Ret (mkProgress (loaded_field d "xp" 0) (loaded_field d "level" 1)
                            (loaded_field d "last_topic_index" (-1))
                            (loaded_field d "missions_completed" 0)),
            mk (loaded_field d "xp" 0) (loaded_field d "level" 1)
               (loaded_field d "last_topic_index" (-1))
               (loaded_field d "missions_completed" 0)))
  /\ load_progress spare (snd (load_progress spare pm fs)) fs
     = load_progress spare pm fs.
Proof.
  split; [exact (load_progress_keeps spare pm fs)|].
  split; [exact (proj1 (load_progress_escapes spare pm fs))|].
  split; [exact (proj2 (load_progress_escapes spare pm fs))|].
  split; [exact (load_progress_object spare pm fs)|].
  exact (load_progress_twice spare pm fs).
Qed.

Lemma load_progress_keeps_or_replaces_witness :
  load_progress 0 (mk (JInt 350) (JInt 2) (JInt 4) (JInt 5))
                (mkDisk (Content (jtext "{'xp': 'many'")) true)
  = (Ret (mkProgress (JInt 350) (JInt 2) (JInt 4) (JInt 5)),
     mk (JInt 350) (JInt 2) (JInt 4) (JInt 5))
  /\ load_progress 0 (mk (JInt 350) (JInt 2) (JInt 4) (JInt 5))
                   (mkDisk (Content (jtext "{'xp': 'many'}")) true)
     = (Ret (mkProgress (JString (py "many")) (JInt 1) (JInt (-1)) (JInt 0)),
        mk (JString (py "many")) (JInt 1) (JInt (-1)) (JInt 0))
  /\ load_progress 0 (mk (JInt 350) (JInt 2) (JInt 4) (JInt 5))
                   (mkDisk (Content (jtext "{'xp': " ++ repeat 49%N 4301
                                     ++ py "}")) true)
     = (Raise ValueError, mk (JInt 350) (JInt 2) (JInt 4) (JInt 5))
  /\ load_progress 0 (mk (JInt 350) (JInt 2) (JInt 4) (JInt 5))
                   (mkDisk Garbled true)
     = (Raise UnicodeDecodeError, mk (JInt 350) (JInt 2) (JInt 4) (JInt 5)).
Proof.
  split; [|split; [|split]].
  - destruct (load_progress_keeps_or_replaces 0
                (mk (JInt 350) (JInt 2) (JInt 4) (JInt 5))
                (mkDisk (Content (jtext "{'xp': 'many'")) true)) as [H _].
    apply H. right. right. exists (jtext "{'xp': 'many'").
    split; [reflexivity | vm_compute; reflexivity].
  - destruct (load_progress_keeps_or_replaces 0
                (mk (JInt 350) (JInt 2) (JInt 4) (JInt 5))
                (mkDisk (Content (jtext "{'xp': 'many'}")) true))
      as [_ [_ [_ [H _]]]].
    rewrite (H (jtext "{'xp': 'many'}") [(py "xp", JString (py "many"))]
               eq_refl ltac:(vm_compute; reflexivity)).
    reflexivity.
  - destruct (load_progress_keeps_or_replaces 0
                (mk (JInt 350) (JInt 2) (JInt 4) (JInt 5))
                (mkDisk (Content (jtext "{'xp': " ++ repeat 49%N 4301
                                  ++ py "}")) true))
      as [_ [_ [H _]]].
    apply (H (jtext "{'xp': " ++ repeat 49%N 4301 ++ py "}") ValueError
             eq_refl ltac:(vm_compute; reflexivity) ltac:(discriminate)).
  - destruct (load_progress_keeps_or_replaces 0
                (mk (JInt 350) (JInt 2) (JInt 4) (JInt 5))
                (mkDisk Garbled true)) as [_ [H _]].
    apply H. reflexivity.
Defined.

End LoadingAgain.

(** ** The lines of the simulated output *)

Section OutputLines.

Lemma split_lines_aux_cons (s cur : str) :
  exists l ls, split_lines_aux s cur = l :: ls.
Proof.
  revert cur. induction s as [|c s IH]; intros cur; cbn [split_lines_aux].
  - eexists. eexists. reflexivity.
  - destruct (N.eqb c NEWLINE); [eexists; eexists; reflexivity | apply IH].
Qed.

Lemma join_split_lines_aux (s cur : str) :
  join [NEWLINE] (split_lines_aux s cur) = rev cur ++ s.
Proof.
  revert cur. induction s as [|c s IH]; intros cur; cbn [split_lines_aux].
  - cbn [join]. rewrite List.app_nil_r. reflexivity.
  - destruct (N.eqb_spec c NEWLINE) as [->|Hc].
    + specialize (IH []).
      destruct (split_lines_aux_cons s []) as [l [ls E]].
      rewrite E in *. cbn [join]. cbn [join] in IH. rewrite IH. reflexivity.
    + rewrite IH. cbn [rev]. rewrite <- List.app_assoc. reflexivity.
Qed.

Lemma split_lines_aux_clean (s cur : str) :
  ~ In NEWLINE cur ->
  Forall (fun l => ~ In NEWLINE l) (split_lines_aux s cur).
Proof.
  revert cur. induction s as [|c s IH]; intros cur Hcur; cbn [split_lines_aux].
  - constructor; [|constructor]. rewrite <- in_rev. exact Hcur.
  - destruct (N.eqb_spec c NEWLINE) as [->|Hc].
    + constructor; [rewrite <- in_rev; exact Hcur|].
      apply IH. intros H. exact H.
    + apply IH. cbn [In]. intros [E | H]; [exact (Hc E) | exact (Hcur H)].
Qed.

Lemma length_split_lines_aux (s cur : str) :
  length (split_lines_aux s cur) = S (count_occ N.eq_dec s NEWLINE).
Proof.
  revert cur. induction s as [|c s IH]; intros cur;
    cbn [split_lines_aux count_occ]; [reflexivity|].
  destruct (N.eqb_spec c NEWLINE) as [->|Hc].
  - destruct (N.eq_dec NEWLINE NEWLINE) as [_|Hn]; [|congruence].
    cbn [length]. rewrite IH. reflexivity.
  - destruct (N.eq_dec c NEWLINE) as [E|_]; [congruence|]. apply IH.
Qed.

(** X25. The success branch prints the simulated output whole: its lines,
    put together again with newlines between them, are the text the model
    sent, and no line holds a newline; there is one line more than the text
    has newlines, so an empty output still prints one empty line. *)
Theorem simulated_output_is_printed_whole (simulated_output : str) :
  join [NEWLINE] (split_lines simulated_output) = simulated_output
  /\ Forall (fun l => ~ In NEWLINE l) (split_lines simulated_output)
  /\ length (output_lines simulated_output)
     = S (count_occ N.eq_dec simulated_output NEWLINE).
Proof.
  split; [exact (join_split_lines_aux simulated_output [])|].
  split; [apply split_lines_aux_clean; intros H; exact H|].
  unfold output_lines. rewrite length_map.
  exact (length_split_lines_aux simulated_output []).
Qed.

End OutputLines.

